(** * TrendMatrix front end: data services, view logic and payment store

    A shallow embedding of the TypeScript sources of the dashboard
    (services/db/local-db.service.ts, the Vue views and the Pinia payment
    store), followed by the properties established about them.

    Conventions of the embedding:
    - JavaScript numbers that the code only uses as integers are [Z];
      numbers that may carry a fraction (prices, [Math.random()]) are
      rationals [Q], i.e. floating point is idealised;
    - strings are [string]; [toLowerCase] is modelled on ASCII letters;
    - a [Date] is its local calendar day number (days since 1970-01-01),
      with the calendar functions of ECMA-262, section 21.4.1;
    - [Math.random()] is an oracle [rnd : nat -> Q] indexed by the number of
      calls made so far, threaded through a small state monad;
    - a rejected promise is the [Rejected] constructor of [settled]. *)

From Stdlib Require Import ZArith QArith Qround List String Ascii Bool Lia Lqa.
From Stdlib Require Import Sorting.Sorted Sorting.Permutation.
From Stdlib Require Import DecimalString.
Import ListNotations.

Local Open Scope string_scope.
Local Open Scope Z_scope.

Set Warnings "-register-all".

(* ------------------------------------------------------------------ *)
(** ** The JavaScript runtime pieces the sources rely on *)

Module JS.

(** *** Calendar (ECMA-262 21.4.1.3 - 21.4.1.5), on local day numbers *)

Definition DaysInYear (y : Z) : Z :=
  if negb (y mod 4 =? 0) then 365
  else if negb (y mod 100 =? 0) then 366
  else if negb (y mod 400 =? 0) then 365
  else 366.

Definition DayFromYear (y : Z) : Z :=
  365 * (y - 1970) + (y - 1969) / 4 - (y - 1901) / 100 + (y - 1601) / 400.

(** [YearFromTime]: the largest [y] with [DayFromYear y <= day].  The search
    starts two years below the estimate given by the mean year length and
    needs at most five steps. *)
Fixpoint findYear (steps : nat) (day y : Z) : Z :=
  match steps with
  | O => y
  | S k => if day <? DayFromYear (y + 1) then y else findYear k day (y + 1)
  end.

Definition YearFromDay (day : Z) : Z :=
  findYear 5 day (1970 + (day * 10000) / 3652425 - 2).

Definition InLeapYear (day : Z) : Z :=
  if DaysInYear (YearFromDay day) =? 366 then 1 else 0.

Definition DayWithinYear (day : Z) : Z :=
  day - DayFromYear (YearFromDay day).

(** The month table of 21.4.1.4, as a function of the day within the year
    and the leap flag. *)
Definition monthOf (leap d : Z) : Z :=
  if d <? 31 then 0
  else if d <? 59 + leap then 1
  else if d <? 90 + leap then 2
  else if d <? 120 + leap then 3
  else if d <? 151 + leap then 4
  else if d <? 181 + leap then 5
  else if d <? 212 + leap then 6
  else if d <? 243 + leap then 7
  else if d <? 273 + leap then 8
  else if d <? 304 + leap then 9
  else if d <? 334 + leap then 10
  else 11.

(** The date table of 21.4.1.5. *)
Definition dateOf (leap d : Z) : Z :=
  match monthOf leap d with
  | 0 => d + 1
  | 1 => d - 30
  | 2 => d - 58 - leap
  | 3 => d - 89 - leap
  | 4 => d - 119 - leap
  | 5 => d - 150 - leap
  | 6 => d - 180 - leap
  | 7 => d - 211 - leap
  | 8 => d - 242 - leap
  | 9 => d - 272 - leap
  | 10 => d - 303 - leap
  | _ => d - 333 - leap
  end.

(** [Date.prototype.getMonth] (0-based) and [getDate] (1-based). *)
Definition getMonth (day : Z) : Z := monthOf (InLeapYear day) (DayWithinYear day).
Definition getDate (day : Z) : Z := dateOf (InLeapYear day) (DayWithinYear day).

(** [Date.prototype.setDate(dt)]: [MakeDay(year, month, dt)], that is the
    day number of the first of the current month plus [dt - 1]; [dt] may be
    zero or negative and then reaches into earlier months. *)
Definition setDate (day dt : Z) : Z := (day - (getDate day - 1)) + dt - 1.

(** Decimal rendering of a number inside a template literal. *)
Definition numToString (n : Z) : string := NilZero.string_of_int (Z.to_int n).

(** *** Strings *)

Definition lowerAscii (c : ascii) : ascii :=
  let n := nat_of_ascii c in
  if (Nat.leb 65 n && Nat.leb n 90)%bool then ascii_of_nat (n + 32) else c.

(** [String.prototype.toLowerCase] on text whose letters are ASCII: A to Z
    are lowered and every other character is kept.  The lowering of letters
    outside ASCII, which for the Greek sigma depends on the neighbouring
    characters, is not modelled; statements that would depend on it are
    made for ASCII text. *)
Fixpoint toLowerCase (s : string) : string :=
  match s with
  | EmptyString => EmptyString
  | String c r => String (lowerAscii c) (toLowerCase r)
  end.

(** [String.prototype.includes]: [q] occurs in [s] at some position. *)
Fixpoint includes (s q : string) : bool :=
  if String.prefix q s then true
  else match s with
       | EmptyString => false
       | String _ r => includes r q
       end.

(** Truthiness of a string: only the empty string is falsy. *)
Definition truthy (s : string) : bool :=
  match s with EmptyString => false | _ => true end.

(** *** Arrays *)

(** [Array.prototype.slice(0, limit)] for an integer [limit]: a negative
    [limit] counts from the end of the array. *)
Definition slice0 {A} (limit : Z) (l : list A) : list A :=
  let len := Z.of_nat (List.length l) in
  let final := if limit <? 0 then Z.max (len + limit) 0 else Z.min limit len in
  firstn (Z.to_nat final) l.

(** [Array.prototype.find]. *)
Definition find {A} (p : A -> bool) (l : list A) : option A := List.find p l.

(** [b] is obtained from [a] by deleting elements: a subsequence in the
    original relative order. *)
Inductive subseq {A} : list A -> list A -> Prop :=
| subseq_nil : subseq [] []
| subseq_skip x a b : subseq b a -> subseq b (x :: a)
| subseq_keep x a b : subseq b a -> subseq (x :: b) (x :: a).

(** [Array.prototype.sort(cmp)] is a stable sort (ES2019); for a comparator
    that is a consistent ordering its result is the stable insertion sort
    below.  [cmp a b <= 0] keeps [a] before [b]. *)
Fixpoint insertSorted {A} (cmp : A -> A -> Z) (x : A) (l : list A) : list A :=
  match l with
  | [] => [x]
  | y :: r => if cmp x y <=? 0 then x :: y :: r else y :: insertSorted cmp x r
  end.

Definition sort {A} (cmp : A -> A -> Z) (l : list A) : list A :=
  fold_right (insertSorted cmp) [] l.

(** *** State passing *)

Definition state (S A : Type) : Type := S -> A * S.

Definition ret {S A} (a : A) : state S A := fun s => (a, s).
Definition bind {S A B} (m : state S A) (k : A -> state S B) : state S B :=
  fun s => let (a, s') := m s in k a s'.

(** *** [Math.random]: an oracle and the number of calls made so far *)

Record Rng := { oracle : nat -> Q; calls : nat }.

Definition Rand : Type -> Type := state Rng.

Definition random : Rand Q :=
  fun g => (oracle g (calls g), {| oracle := oracle g; calls := S (calls g) |}).

Definition run {A} (m : Rand A) (rnd : nat -> Q) : A :=
  fst (m {| oracle := rnd; calls := O |}).

(** *** Arrays as objects

    An array value is a reference into a store; [filter] and the spread
    syntax allocate a new array, [sort] rearranges the array it is called
    on. *)

Definition ref := nat.
Definition Store (A : Type) : Type := list (list A).
Definition Mem (A : Type) : Type -> Type := state (Store A).

Definition deref {A} (st : Store A) (r : ref) : list A := nth r st [].

Fixpoint assign {A} (r : ref) (a : list A) (st : Store A) : Store A :=
  match st, r with
  | [], _ => []
  | _ :: rest, O => a :: rest
  | b :: rest, S r' => b :: assign r' a rest
  end.

Definition alloc {A} (a : list A) : Mem A ref :=
  fun st => (List.length st, (st ++ [a])%list).

(** [[...arr]] *)
Definition spread {A} (r : ref) : Mem A ref :=
  fun st => alloc (deref st r) st.

(** [arr.filter(p)] *)
Definition filterArr {A} (p : A -> bool) (r : ref) : Mem A ref :=
  fun st => alloc (List.filter p (deref st r)) st.

(** [arr.sort(cmp)]: in place; the value of the call is [arr] itself. *)
Definition sortArr {A} (cmp : A -> A -> Z) (r : ref) : Mem A ref :=
  fun st => (r, assign r (sort cmp (deref st r)) st).

(** A promise that has settled.  Of the reason of a rejection the sources
    read at most the detail text it may carry ([response.data.detail]); it
    is kept as that text, empty when there is none. *)
Inductive settled (A : Type) : Type :=
| Fulfilled (a : A)
| Rejected (reason : string).
Arguments Fulfilled {A} a.
Arguments Rejected {A} reason.

(** [Array.prototype.slice(start, end)] for integers: a negative index
    counts from the end of the array and both are clamped to its bounds. *)
Definition slice {A} (from to : Z) (l : list A) : list A :=
  let len := Z.of_nat (List.length l) in
  let k := if from <? 0 then Z.max (len + from) 0 else Z.min from len in
  let final := if to <? 0 then Z.max (len + to) 0 else Z.min to len in
  firstn (Z.to_nat (Z.max (final - k) 0)) (skipn (Z.to_nat k) l).

(** [Math.max(a, b)] and [Math.min(a, b)] on numbers with a fraction. *)
Definition MathMax (a b : Q) : Q := if Qle_bool a b then b else a.
Definition MathMin (a b : Q) : Q := if Qle_bool a b then a else b.

(** The contract of [Math.random]: every value is in [0, 1). *)
Definition unitOracle (rnd : nat -> Q) : Prop :=
  forall n, (0 <= rnd n)%Q /\ (rnd n < 1)%Q.

End JS.

Notation "x <- m ;; k" := (JS.bind m (fun x => k))
  (at level 61, m at next level, right associativity).

(* ------------------------------------------------------------------ *)
(** ** services/db/local-db.service.ts *)

Module LocalDb.
Import JS.

(** A timestamp is kept as the millisecond count that
    [new Date(timestamp).getTime()] yields for the ISO string stored by the
    service. *)
Record Signal := {
  signal_id : string;
  asset : string;
  signal_type : string;
  strength : Z;
  timestamp : Z
}.

Record Project := {
  project_id : string;
  project_name : string;
  project_category : string;
  score : Z;
  change : Q
}.

Record DashboardMetrics := {
  total_signals : Z;
  active_projects : Z;
  market_sentiment : string;
  sentiment_score : Z;
  solana_activity : Z
}.

Record ChartData := {
  date : string;
  signals : Z;
  activity : Z
}.

Record DefiProtocol := {
  defi_id : string;
  defi_name : string;
  defi_category : string;
  tvl : Z;
  defi_volume_24h : Z;
  defi_change_24h : Q;
  users : Z;
  defi_url : string;
  defi_twitter : string;
  github : string
}.

Record NftCollection := {
  nft_id : string;
  nft_name : string;
  nft_category : string;
  floor_price : Q;
  nft_volume_24h : Z;
  volume_7d : Z;
  nft_change_24h : Q;
  holders : Z;
  nft_url : string;
  nft_twitter : string
}.

Record NftMarketMetrics := {
  total_collections : Z;
  total_volume_24h : Z;
  average_floor_price : Q;
  top_collections : list NftCollection
}.

Definition getDashboardMetrics : DashboardMetrics :=
  {| total_signals := 1250; active_projects := 42; market_sentiment := "看涨";
     sentiment_score := 78; solana_activity := 85 |}.

(** [now] is the value of [Date.now()] during the call. *)
Definition getRecentSignals (now : Z) (limit : Z) : list Signal :=
  slice0 limit
    [ {| signal_id := "1"; asset := "BTC"; signal_type := "trend"; strength := 85;
         timestamp := now |};
      {| signal_id := "2"; asset := "ETH"; signal_type := "momentum"; strength := 72;
         timestamp := now - 1000 * 60 * 30 |};
      {| signal_id := "3"; asset := "SOL"; signal_type := "reversal"; strength := 65;
         timestamp := now - 1000 * 60 * 60 |};
      {| signal_id := "4"; asset := "ADA"; signal_type := "trend"; strength := 90;
         timestamp := now - 1000 * 60 * 90 |};
      {| signal_id := "5"; asset := "DOT"; signal_type := "momentum"; strength := 78;
         timestamp := now - 1000 * 60 * 120 |} ].

Definition getHotProjects (limit : Z) : list Project :=
  slice0 limit
    [ {| project_id := "1"; project_name := "Solana"; project_category := "Layer 1";
         score := 92; change := 8.5 |};
      {| project_id := "2"; project_name := "Serum"; project_category := "DEX";
         score := 88; change := 5.2 |};
      {| project_id := "3"; project_name := "Raydium"; project_category := "AMM";
         score := 85; change := 3.7 |};
      {| project_id := "4"; project_name := "Marinade Finance"; project_category := "Staking";
         score := 82; change := 2.1 |};
      {| project_id := "5"; project_name := "Star Atlas"; project_category := "GameFi";
         score := 79; change := 10.3 |} ].

Inductive chartType := Signals | Activity.

(** The label built by the template literal
    [`${date.getMonth() + 1}月${date.getDate()}日`]. *)
Definition dateStr (day : Z) : string :=
  numToString (getMonth day + 1) ++ "月" ++ numToString (getDate day) ++ "日".

(** The body of [for (let i = days - 1; i >= 0; i--)]: [k] is [i + 1], so
    the loop runs while [k] is positive and the index of the current turn is
    its predecessor. *)
Fixpoint chartLoop (type : chartType) (today : Z) (k : nat) (data : list ChartData)
  : Rand (list ChartData) :=
  match k with
  | O => ret data
  | S i =>
      let d := setDate today (getDate today - Z.of_nat i) in
      u <- random ;;
      chartLoop type today i
        (data ++ [ match type with
                   | Signals =>
                       {| date := dateStr d; signals := Qfloor (u * 50) + 50; activity := 0 |}
                   | Activity =>
                       {| date := dateStr d; signals := 0; activity := Qfloor (u * 30) + 60 |}
                   end ])
  end.

(** [today] is the local day of [new Date()]. *)
Definition generateTestChartData (today : Z) (days : Z) (type : chartType)
  : Rand (list ChartData) :=
  chartLoop type today (Z.to_nat days) [].

(** The days visited by the loop, in the order of the pushes. *)
Definition chartDays (today : Z) (k : nat) : list Z :=
  map (fun i => setDate today (getDate today - Z.of_nat i)) (rev (seq 0 k)).

Definition getSignalTrendData (today days : Z) : Rand (list ChartData) :=
  generateTestChartData today days Signals.

Definition getProjectActivityData (today days : Z) : Rand (list ChartData) :=
  generateTestChartData today days Activity.

Definition getDefiProtocols : list DefiProtocol :=
  [ {| defi_id := "1"; defi_name := "Raydium"; defi_category := "AMM";
       tvl := 450000000; defi_volume_24h := 120000000; defi_change_24h := 5.2;
       users := 150000; defi_url := "https://raydium.io";
       defi_twitter := "https://twitter.com/RaydiumProtocol";
       github := "https://github.com/raydium-io" |};
    {| defi_id := "2"; defi_name := "Marinade Finance"; defi_category := "Staking";
       tvl := 890000000; defi_volume_24h := 25000000; defi_change_24h := 2.1;
       users := 200000; defi_url := "https://marinade.finance";
       defi_twitter := "https://twitter.com/marinadefinance";
       github := "https://github.com/marinade-finance" |};
    {| defi_id := "3"; defi_name := "Serum"; defi_category := "DEX";
       tvl := 320000000; defi_volume_24h := 85000000; defi_change_24h := -1.3;
       users := 120000; defi_url := "https://projectserum.com";
       defi_twitter := "https://twitter.com/projectserum";
       github := "https://github.com/project-serum" |};
    {| defi_id := "4"; defi_name := "Jupiter"; defi_category := "Aggregator";
       tvl := 150000000; defi_volume_24h := 250000000; defi_change_24h := 8.7;
       users := 300000; defi_url := "https://jup.ag";
       defi_twitter := "https://twitter.com/jup_aggregator";
       github := "https://github.com/jup-ag" |};
    {| defi_id := "5"; defi_name := "Solana Name Service"; defi_category := "DNS";
       tvl := 85000000; defi_volume_24h := 5000000; defi_change_24h := 1.5;
       users := 500000; defi_url := "https://solana.com";
       defi_twitter := "https://twitter.com/solananameservice";
       github := "https://github.com/solana-labs" |} ].

Definition getTopNftCollections : list NftCollection :=
  [ {| nft_id := "1"; nft_name := "Degenerate Ape Academy"; nft_category := "Avatar";
       floor_price := 18.5; nft_volume_24h := 12000000; volume_7d := 55000000;
       nft_change_24h := 3.2; holders := 8500;
       nft_url := "https://degenerateape.academy";
       nft_twitter := "https://twitter.com/DegenApeAcademy" |};
    {| nft_id := "2"; nft_name := "Solana Monkey Business"; nft_category := "Avatar";
       floor_price := 22.0; nft_volume_24h := 9500000; volume_7d := 42000000;
       nft_change_24h := -1.5; holders := 7200;
       nft_url := "https://solanamonkey.business";
       nft_twitter := "https://twitter.com/SolanaMonkeys" |};
    {| nft_id := "3"; nft_name := "Okay Bears"; nft_category := "Avatar";
       floor_price := 15.2; nft_volume_24h := 7800000; volume_7d := 35000000;
       nft_change_24h := 2.8; holders := 9100;
       nft_url := "https://okaybears.com";
       nft_twitter := "https://twitter.com/OkayBearsNFT" |};
    {| nft_id := "4"; nft_name := "Mad Lads"; nft_category := "Avatar";
       floor_price := 8.7; nft_volume_24h := 5200000; volume_7d := 22000000;
       nft_change_24h := 1.2; holders := 12000;
       nft_url := "https://madlads.io";
       nft_twitter := "https://twitter.com/MadLadsNFT" |};
    {| nft_id := "5"; nft_name := "Goblins"; nft_category := "Avatar";
       floor_price := 4.5; nft_volume_24h := 3100000; volume_7d := 14000000;
       nft_change_24h := -0.8; holders := 15000;
       nft_url := "https://goblins.io";
       nft_twitter := "https://twitter.com/GoblinsNFT" |} ].

Definition getNftMarketMetrics : NftMarketMetrics :=
  {| total_collections := 12500; total_volume_24h := 45000000;
     average_floor_price := 0.85; top_collections := getTopNftCollections |}.

End LocalDb.
(* ------------------------------------------------------------------ *)
(** ** views/solana: SolanaNftView.vue and SolanaDefiView.vue *)

Module SolanaViews.
Import JS LocalDb.

Section Matches.
Context {A : Type} (name category : A -> string).

(** The callback passed to [filter] by [filteredCollections] and by
    [filteredProtocols]; the two differ only in the record type. *)
Definition matches (searchTerm selectedCategory : string) (item : A) : bool :=
  let matchesSearch := includes (toLowerCase (name item)) (toLowerCase searchTerm) in
  let matchesCategory :=
    (negb (truthy selectedCategory) || (category item =? selectedCategory)%string)%bool in
  (matchesSearch && matchesCategory)%bool.

End Matches.

(** [top_collections] is the array [marketMetrics.value.top_collections]. *)
Definition filteredCollections (top_collections : ref) (searchTerm selectedCategory : string)
  : Mem NftCollection ref :=
  filterArr (matches nft_name nft_category searchTerm selectedCategory) top_collections.

Definition filteredProtocols (protocols : ref) (searchTerm selectedCategory : string)
  : Mem DefiProtocol ref :=
  filterArr (matches defi_name defi_category searchTerm selectedCategory) protocols.

End SolanaViews.

(* ------------------------------------------------------------------ *)
(** ** The signal history view (list of past signals with search, type
    filter and paging) *)

Module SignalHistory.
Import JS LocalDb.

Record View := {
  isLoading : bool;
  error : string;
  signals : list Signal;
  searchQuery : string;
  filterType : string;
  currentPage : Z;
  pageSize : Z
}.

Definition initial : View :=
  {| isLoading := false; error := ""; signals := []; searchQuery := "";
     filterType := "all"; currentPage := 1; pageSize := 10 |}.

(** The computed property [filteredSignals]; [signals] is the array held by
    [signals.value]. *)
Definition filteredSignals (signals : ref) (searchQuery filterType : string)
  : Mem Signal ref :=
  result <- spread signals ;;
  result <- (if truthy searchQuery then
               let query := toLowerCase searchQuery in
               filterArr (fun signal => includes (toLowerCase (asset signal)) query) result
             else ret result) ;;
  result <- (if negb (filterType =? "all")%string then
               filterArr (fun signal => (signal_type signal =? filterType)%string) result
             else ret result) ;;
  _ <- sortArr (fun a b => timestamp b - timestamp a) result ;;
  ret result.

(** [loadSignals]; [fetched] is how [localDbService.getRecentSignals(50)]
    settled. *)
Definition loadSignals (fetched : settled (list Signal)) (v : View) : View :=
  let v1 := {| isLoading := true; error := ""; signals := signals v;
               searchQuery := searchQuery v; filterType := filterType v;
               currentPage := currentPage v; pageSize := pageSize v |} in
  let v2 :=
    match fetched with
    | Fulfilled recentSignals =>
        {| isLoading := isLoading v1; error := error v1; signals := recentSignals;
           searchQuery := searchQuery v1; filterType := filterType v1;
           currentPage := 1; pageSize := pageSize v1 |}
    | Rejected _ =>
        {| isLoading := isLoading v1; error := "获取信号数据失败"; signals := signals v1;
           searchQuery := searchQuery v1; filterType := filterType v1;
           currentPage := currentPage v1; pageSize := pageSize v1 |}
    end in
  {| isLoading := false; error := error v2; signals := signals v2;
     searchQuery := searchQuery v2; filterType := filterType v2;
     currentPage := currentPage v2; pageSize := pageSize v2 |}.

End SignalHistory.

(* ------------------------------------------------------------------ *)
(** ** The dashboard view *)

Module Dashboard.
Import JS.

(** The view declares its own [ChartData], with two more fields than the
    service's. *)
Record ChartData := {
  date : string;
  signals : Z;
  activity : Z;
  price : Q;
  volume : Z
}.

Inductive chartType := TSignals | TActivity | TPrice | TVolume.

(** [parseFloat(x.toFixed(2))] for [x >= 0]: the nearest multiple of 1/100,
    the larger one on a tie. *)
Definition toFixed2 (x : Q) : Q := (Qfloor (x * 100 + (1 # 2)) # 100)%Q.

(** The sums below are over exact rationals.  In the floating-point
    arithmetic of the source a sum is rounded to the nearest representable
    number, so that for a draw next to 1 it can reach the integer that the
    exact sum stays below; the ranges stated for these values include that
    integer. *)

Fixpoint chartLoop (type : chartType) (today : Z) (k : nat) (data : list ChartData)
  : Rand (list ChartData) :=
  match k with
  | O => ret data
  | S i =>
      let d := setDate today (getDate today - Z.of_nat i) in
      let dateStr := LocalDb.dateStr d in
      let baseValue : Q :=
        (match type with TPrice => 100 | TVolume => 1000000 | _ => 50 end)%Q in
      let variation : Q :=
        (match type with TPrice => 5 | TVolume => 500000 | _ => 20 end)%Q in
      u <- random ;;
      chartLoop type today i
        (data ++ [ {| date := dateStr;
                      signals := match type with
                                 | TSignals => Qfloor (baseValue + u * variation - variation / 2)
                                 | _ => 0 end;
                      activity := match type with
                                  | TActivity => Qfloor (50 + u * 50)
                                  | _ => 0 end;
                      price := match type with
                               | TPrice => toFixed2 (baseValue + u * variation - variation / 2)
                               | _ => 0 end;
                      volume := match type with
                                | TVolume => Qfloor (baseValue + u * variation - variation / 2)
                                | _ => 0 end |} ])
  end.

Definition generateChartData (today : Z) (days : Z) (type : chartType)
  : Rand (list ChartData) :=
  chartLoop type today (Z.to_nat days) [].

Record View := {
  isLoading : bool;            (* isLoading.all *)
  error : string;              (* error.data *)
  selectedProjectCategory : string;
  isDataLoaded : bool;
  recentSignals : list LocalDb.Signal;
  hotProjects : list LocalDb.Project;
  metrics : LocalDb.DashboardMetrics;
  signalTrendData : list ChartData;
  projectActivityData : list ChartData;
  priceTrendData : list ChartData;
  volumeTrendData : list ChartData
}.

Definition initial : View :=
  {| isLoading := false; error := ""; selectedProjectCategory := "";
     isDataLoaded := false; recentSignals := []; hotProjects := [];
     metrics := {| LocalDb.total_signals := 0; LocalDb.active_projects := 0;
                   LocalDb.market_sentiment := "中性"; LocalDb.sentiment_score := 50;
                   LocalDb.solana_activity := 0 |};
     signalTrendData := []; projectActivityData := [];
     priceTrendData := []; volumeTrendData := [] |}.

Definition filteredHotProjects (v : View) : list LocalDb.Project :=
  if negb (truthy (selectedProjectCategory v)) then hotProjects v
  else List.filter
         (fun project => (LocalDb.project_category project =? selectedProjectCategory v)%string)
         (hotProjects v).

(** [Promise.all] over the three fetches: fulfilled with the three values
    when all are, rejected as soon as one is. *)
Definition PromiseAll3 {A B C} (a : settled A) (b : settled B) (c : settled C)
  : settled (A * B * C) :=
  match a, b, c with
  | Fulfilled x, Fulfilled y, Fulfilled z => Fulfilled (x, y, z)
  | Rejected r, _, _ => Rejected r
  | _, Rejected r, _ => Rejected r
  | _, _, Rejected r => Rejected r
  end.

(** [loadData]; the three arguments are how [getDashboardMetrics()],
    [getRecentSignals(5)] and [getHotProjects(10)] settled.  The charts are
    drawn later, from a timer, and are not part of the state. *)
Definition loadData (today : Z)
    (metricsP : settled LocalDb.DashboardMetrics)
    (signalsP : settled (list LocalDb.Signal))
    (projectsP : settled (list LocalDb.Project))
    (v : View) : Rand View :=
  let v1 := {| isLoading := true; error := "";
               selectedProjectCategory := selectedProjectCategory v;
               isDataLoaded := isDataLoaded v; recentSignals := recentSignals v;
               hotProjects := hotProjects v; metrics := metrics v;
               signalTrendData := signalTrendData v;
               projectActivityData := projectActivityData v;
               priceTrendData := priceTrendData v;
               volumeTrendData := volumeTrendData v |} in
  v2 <- match PromiseAll3 metricsP signalsP projectsP with
        | Fulfilled (metricsData, signalsData, projectsData) =>
            std <- generateChartData today 7 TSignals ;;
            pad <- generateChartData today 7 TActivity ;;
            ptd <- generateChartData today 7 TPrice ;;
            vtd <- generateChartData today 7 TVolume ;;
            ret {| isLoading := isLoading v1; error := error v1;
                   selectedProjectCategory := selectedProjectCategory v1;
                   isDataLoaded := true; recentSignals := signalsData;
                   hotProjects := projectsData; metrics := metricsData;
                   signalTrendData := std; projectActivityData := pad;
                   priceTrendData := ptd; volumeTrendData := vtd |}
        | Rejected _ =>
            ret {| isLoading := isLoading v1; error := "获取数据失败";
                   selectedProjectCategory := selectedProjectCategory v1;
                   isDataLoaded := isDataLoaded v1; recentSignals := recentSignals v1;
                   hotProjects := hotProjects v1; metrics := metrics v1;
                   signalTrendData := signalTrendData v1;
                   projectActivityData := projectActivityData v1;
                   priceTrendData := priceTrendData v1;
                   volumeTrendData := volumeTrendData v1 |}
        end ;;
  ret {| isLoading := false; error := error v2;
         selectedProjectCategory := selectedProjectCategory v2;
         isDataLoaded := isDataLoaded v2; recentSignals := recentSignals v2;
         hotProjects := hotProjects v2; metrics := metrics v2;
         signalTrendData := signalTrendData v2;
         projectActivityData := projectActivityData v2;
         priceTrendData := priceTrendData v2;
         volumeTrendData := volumeTrendData v2 |}.

End Dashboard.

(* ------------------------------------------------------------------ *)
(** ** The project detail view *)

Module ProjectDetail.
Import JS.

Record MarketData := {
  price : Q;
  marketCap : Q;
  volume24h : Q;
  circulatingSupply : Q;
  high24h : Q;
  low24h : Q;
  change7d : Q
}.

Record Development := {
  dev_activity : Z; developers : Z; codeQuality : Z; documentation : Z
}.

Record Community := {
  socialMedia : Z; engagement : Z; growth : Z; support : Z
}.

Record Risk := { market : Z; technical : Z; regulatory : Z }.

(** What [table[name] || fallback] yields for a table written as an object
    literal with text values: the text of an own key or the fallback, or,
    for a name that is a key of [Object.prototype], the member inherited
    under it, which is truthy and is no text. *)
Inductive member := Text (s : string) | Inherited (key : string).

(** The record shown by the view: the fields of the base project plus the
    generated ones.  The free-text fields ([description], [launchDate],
    the three links and [risk.summary]) are only displayed and are left
    out. *)
Record Detail := {
  id : string;
  name : string;
  category : member;
  score : Z;
  change : Q;
  token : member;
  marketData : MarketData;
  development : Development;
  community : Community;
  risk : Risk
}.

Record View := {
  isLoading : bool;
  error : string;
  project : option Detail;
  relatedProjects : list LocalDb.Project;
  timeRange : string
}.

Definition initial : View :=
  {| isLoading := false; error := ""; project := None; relatedProjects := [];
     timeRange := "30d" |}.

(** [x.toFixed(digits)] read back as a number: the nearest multiple of
    [10^-digits], away from zero on a tie. *)
Definition toFixed (digits : nat) (x : Q) : Q :=
  let p := Z.pow 10 (Z.of_nat digits) in
  if Qle_bool 0 x then (Qfloor (x * inject_Z p + (1 # 2)) # Z.to_pos p)%Q
  else (- (Qfloor (- x * inject_Z p + (1 # 2)) # Z.to_pos p))%Q.

(** [Math.floor(Math.random() * n) + k] *)
Definition randomInt (n k : Z) : Rand Z :=
  u <- random ;; ret (Qfloor (u * inject_Z n) + k).

(** The keys that every object inherits from [Object.prototype]. *)
Definition inheritedKeys : list string :=
  [ "constructor"; "hasOwnProperty"; "isPrototypeOf"; "propertyIsEnumerable";
    "toLocaleString"; "toString"; "valueOf"; "__proto__"; "__defineGetter__";
    "__defineSetter__"; "__lookupGetter__"; "__lookupSetter__" ].

Definition inherited (name : string) : bool := existsb (String.eqb name) inheritedKeys.

(** The lookups [categories[baseProject.name] || 'Other'] and
    [tokens[baseProject.name] || 'TOKEN']; the own keys of both tables are
    the five names below. *)
Definition categories (name : string) : member :=
  if (name =? "Solana")%string then Text "Layer 1"
  else if (name =? "Serum")%string then Text "DEX"
  else if (name =? "Raydium")%string then Text "AMM"
  else if (name =? "Marinade Finance")%string then Text "Staking"
  else if (name =? "Star Atlas")%string then Text "GameFi"
  else if inherited name then Inherited name
  else Text "Other".

Definition tokens (name : string) : member :=
  if (name =? "Solana")%string then Text "SOL"
  else if (name =? "Serum")%string then Text "SRM"
  else if (name =? "Raydium")%string then Text "RAY"
  else if (name =? "Marinade Finance")%string then Text "MNDE"
  else if (name =? "Star Atlas")%string then Text "ATLAS"
  else if inherited name then Inherited name
  else Text "TOKEN".

(** The arithmetic below is over exact rationals; the source computes in
    floating point, where a product or a sum is rounded to the nearest
    representable number.  The statements made about these values leave
    room for that rounding. *)
Definition enhanceProjectData (baseProject : LocalDb.Project) : Rand Detail :=
  _launch <- random ;;
  u1 <- random ;; let price := (u1 * 1000 + 1)%Q in
  u2 <- random ;; let marketCap := (u2 * 10000000000 + 100000000)%Q in
  u3 <- random ;; let volume24h := (u3 * 1000000000 + 10000000)%Q in
  u4 <- random ;; let circulatingSupply := (u4 * 10000000000 + 100000000)%Q in
  u5 <- random ;; let high24h := (price * (1 + u5 * (1 # 10)))%Q in
  u6 <- random ;; let low24h := (price * (1 - u6 * (1 # 10)))%Q in
  u7 <- random ;; let change7d := toFixed 2 (u7 * 30 - 10)%Q in
  d1 <- randomInt 50 30 ;; d2 <- randomInt 40 20 ;;
  d3 <- randomInt 60 40 ;; d4 <- randomInt 70 20 ;;
  c1 <- randomInt 60 20 ;; c2 <- randomInt 50 30 ;;
  c3 <- randomInt 70 10 ;; c4 <- randomInt 60 30 ;;
  r1 <- randomInt 3 1 ;; r2 <- randomInt 2 1 ;; r3 <- randomInt 3 1 ;;
  ret {| id := LocalDb.project_id baseProject;
         name := LocalDb.project_name baseProject;
         category := categories (LocalDb.project_name baseProject);
         score := LocalDb.score baseProject;
         change := LocalDb.change baseProject;
         token := tokens (LocalDb.project_name baseProject);
         marketData := {| price := price; marketCap := marketCap;
                          volume24h := volume24h;
                          circulatingSupply := circulatingSupply;
                          high24h := high24h; low24h := low24h;
                          change7d := change7d |};
         development := {| dev_activity := d1; developers := d2;
                           codeQuality := d3; documentation := d4 |};
         community := {| socialMedia := c1; engagement := c2;
                         growth := c3; support := c4 |};
         risk := {| market := r1; technical := r2; regulatory := r3 |} |}.

Definition generateDefaultProject : Detail :=
  {| id := "default"; name := "Solana Project"; category := Text "Layer 1";
     score := 85; change := 5.2; token := Text "SOL";
     marketData := {| price := 100.50; marketCap := 40000000000;
                      volume24h := 2000000000; circulatingSupply := 400000000;
                      high24h := 105.25; low24h := 98.75; change7d := 8.5 |};
     development := {| dev_activity := 75; developers := 60;
                       codeQuality := 80; documentation := 70 |};
     community := {| socialMedia := 85; engagement := 70; growth := 65; support := 75 |};
     risk := {| market := 2; technical := 1; regulatory := 2 |} |}.

Section WithShuffle.

(** [arr.sort(() => Math.random() - 0.5)]: the order produced under a
    random comparator, and the number of draws it takes, are left to the
    engine (ECMA-262 23.1.3.30). *)
Variable shuffle : forall A : Type, list A -> Rand (list A).

Definition generateRelatedProjects (baseProject : Detail) : Rand (list LocalDb.Project) :=
  let projects := LocalDb.getHotProjects 5 in
  shuffled <- shuffle _ (List.filter
                (fun p => (negb (LocalDb.project_id p =? id baseProject)%string
                           && negb (LocalDb.project_name p =? name baseProject)%string)%bool)
                projects) ;;
  ret (slice0 4 shuffled).

(** [loadProjectDetail]; [projectId] is [route.params.id] and [fetched] is
    how [localDbService.getHotProjects(10)] settled.  The two chart draws
    that end the [try] block act on the DOM only. *)
Definition loadProjectDetail (projectId : string)
    (fetched : settled (list LocalDb.Project)) (v : View) : Rand View :=
  let v1 := {| isLoading := true; error := ""; project := project v;
               relatedProjects := relatedProjects v; timeRange := timeRange v |} in
  v2 <- match fetched with
        | Fulfilled projects =>
            let foundProject :=
              find (fun p => (LocalDb.project_id p =? projectId)%string) projects in
            chosen <- match foundProject with
                      | Some p => enhanceProjectData p
                      | None =>
                          match projects with
                          | first :: _ => enhanceProjectData first
                          | [] => ret generateDefaultProject
                          end
                      end ;;
            related <- generateRelatedProjects chosen ;;
            ret {| isLoading := isLoading v1; error := error v1;
                   project := Some chosen; relatedProjects := related;
                   timeRange := timeRange v1 |}
        | Rejected _ =>
            ret {| isLoading := isLoading v1; error := "获取项目详情失败";
                   project := project v1; relatedProjects := relatedProjects v1;
                   timeRange := timeRange v1 |}
        end ;;
  ret {| isLoading := false; error := error v2; project := project v2;
         relatedProjects := relatedProjects v2; timeRange := timeRange v2 |}.

End WithShuffle.

(** The branch of the template's [v-if] chain that is displayed. *)
Inductive shown := Spinner | ErrorText | DetailPanel | MissingText.

Definition template (v : View) : shown :=
  if isLoading v then Spinner
  else if truthy (error v) then ErrorText
  else match project v with Some _ => DetailPanel | None => MissingText end.

End ProjectDetail.

(* ------------------------------------------------------------------ *)
(** ** The signal detail view *)

Module SignalDetail.
Import JS LocalDb.

Record Indicator := { ind_name : string; ind_value : Q; ind_trend : Q }.
Record Sentiment := { sent_score : Z; sent_label : string; volumeChange : Q }.
Record Asset := { symbol : string; asset_name : string; asset_change : Q; marketCap : string }.
Record HistoryItem := { hist_date : string; hist_type : string; hist_strength : Z; result : Q }.

Record View := {
  isLoading : bool;
  error : string;
  signal : option Signal;
  relatedAssets : list Asset;
  technicalIndicators : list Indicator;
  marketSentiment : option Sentiment;
  historicalSignals : list HistoryItem
}.

Definition initial : View :=
  {| isLoading := false; error := ""; signal := None; relatedAssets := [];
     technicalIndicators := []; marketSentiment := None; historicalSignals := [] |}.

Definition toFixed := ProjectDetail.toFixed.

Definition generateTechnicalIndicators : Rand (list Indicator) :=
  a1 <- random ;; a2 <- random ;;
  b1 <- random ;; b2 <- random ;;
  c1 <- random ;; c2 <- random ;;
  d1 <- random ;; d2 <- random ;;
  ret [ {| ind_name := "RSI (14)"; ind_value := toFixed 1 (a1 * 40 + 30)%Q;
           ind_trend := toFixed 1 (a2 * 10 - 5)%Q |};
        {| ind_name := "MACD"; ind_value := toFixed 3 (b1 * 2 - 1)%Q;
           ind_trend := toFixed 1 (b2 * 15 - 7.5)%Q |};
        {| ind_name := "布林带"; ind_value := toFixed 3 (c1 * 0.1 + 0.05)%Q;
           ind_trend := toFixed 1 (c2 * 20 - 10)%Q |};
        {| ind_name := "MA (50)"; ind_value := toFixed 2 (d1 * 10000 + 1000)%Q;
           ind_trend := toFixed 1 (d2 * 8 - 4)%Q |} ].

Definition generateMarketSentiment : Rand Sentiment :=
  u <- random ;;
  let score := Qfloor (u * 50) + 30 in
  let label :=
    if 70 <=? score then "极度看涨"
    else if 55 <=? score then "看涨"
    else if 45 <=? score then "中性"
    else if 30 <=? score then "看跌"
    else "极度看跌" in
  w <- random ;;
  ret {| sent_score := score; sent_label := label;
         volumeChange := toFixed 1 (w * 30 - 10)%Q |}.

(** The date part of [toLocaleDateString('zh-CN')]: year/month/day. *)
Definition localeDate (day : Z) : string :=
  numToString (YearFromDay day) ++ "/" ++ numToString (getMonth day + 1)
    ++ "/" ++ numToString (getDate day).

(** The loop [for (let i = 1; i <= 7; i++)] of [generateHistoricalSignals],
    counted by the turns that remain. *)
Fixpoint historyLoop (today : Z) (remaining : nat) (i : Z) (history : list HistoryItem)
  : Rand (list HistoryItem) :=
  match remaining with
  | O => ret history
  | S r =>
      let d := setDate today (getDate today - i) in
      t <- random ;; s <- random ;; x <- random ;;
      historyLoop today r (i + 1)
        (history ++ [ {| hist_date := localeDate d;
                         hist_type := nth (Z.to_nat (Qfloor (t * 3)))
                                          ["trend"; "momentum"; "reversal"] "";
                         hist_strength := Qfloor (s * 40) + 40;
                         result := toFixed 1 (x * 15 - 5)%Q |} ])
  end.

Definition generateHistoricalSignals (today : Z) (asset : string) : Rand (list HistoryItem) :=
  historyLoop today 7 1 [].

Section WithShuffle.

Variable shuffle : forall A : Type, list A -> Rand (list A).

Definition generateRelatedAssets (baseAsset : string) : Rand (list Asset) :=
  u1 <- random ;; u2 <- random ;; u3 <- random ;;
  u4 <- random ;; u5 <- random ;; u6 <- random ;;
  let assets :=
    [ {| symbol := "BTC"; asset_name := "Bitcoin";
         asset_change := toFixed 2 (u1 * 10 - 3)%Q; marketCap := "1.2T" |};
      {| symbol := "ETH"; asset_name := "Ethereum";
         asset_change := toFixed 2 (u2 * 15 - 5)%Q; marketCap := "450B" |};
      {| symbol := "SOL"; asset_name := "Solana";
         asset_change := toFixed 2 (u3 * 20 - 8)%Q; marketCap := "80B" |};
      {| symbol := "ADA"; asset_name := "Cardano";
         asset_change := toFixed 2 (u4 * 12 - 4)%Q; marketCap := "40B" |};
      {| symbol := "DOT"; asset_name := "Polkadot";
         asset_change := toFixed 2 (u5 * 18 - 6)%Q; marketCap := "30B" |};
      {| symbol := "DOGE"; asset_name := "Dogecoin";
         asset_change := toFixed 2 (u6 * 25 - 10)%Q; marketCap := "25B" |} ] in
  shuffled <- shuffle _ (List.filter (fun a => negb (symbol a =? baseAsset)%string) assets) ;;
  ret (slice0 4 shuffled).

(** The four assignments made once a signal has been picked. *)
Definition showSignal (today : Z) (s : Signal) (v : View) : Rand View :=
  ra <- generateRelatedAssets (asset s) ;;
  ti <- generateTechnicalIndicators ;;
  ms <- generateMarketSentiment ;;
  hs <- generateHistoricalSignals today (asset s) ;;
  ret {| isLoading := isLoading v; error := error v; signal := Some s;
         relatedAssets := ra; technicalIndicators := ti;
         marketSentiment := Some ms; historicalSignals := hs |}.

(** [loadSignalDetail]; [signalId] is [route.params.id] and [fetched] is how
    [localDbService.getRecentSignals(50)] settled. *)
Definition loadSignalDetail (today : Z) (signalId : string)
    (fetched : settled (list Signal)) (v : View) : Rand View :=
  let v1 := {| isLoading := true; error := ""; signal := signal v;
               relatedAssets := relatedAssets v;
               technicalIndicators := technicalIndicators v;
               marketSentiment := marketSentiment v;
               historicalSignals := historicalSignals v |} in
  v2 <- match fetched with
        | Fulfilled signals =>
            let foundSignal := find (fun s => (signal_id s =? signalId)%string) signals in
            match foundSignal with
            | Some s => showSignal today s v1
            | None =>
                match signals with
                | first :: _ => showSignal today first v1
                | [] => ret v1
                end
            end
        | Rejected _ =>
            ret {| isLoading := isLoading v1; error := "获取信号详情失败";
                   signal := signal v1; relatedAssets := relatedAssets v1;
                   technicalIndicators := technicalIndicators v1;
                   marketSentiment := marketSentiment v1;
                   historicalSignals := historicalSignals v1 |}
        end ;;
  ret {| isLoading := false; error := error v2; signal := signal v2;
         relatedAssets := relatedAssets v2;
         technicalIndicators := technicalIndicators v2;
         marketSentiment := marketSentiment v2;
         historicalSignals := historicalSignals v2 |}.

End WithShuffle.

Inductive shown := Spinner | ErrorText | DetailPanel | MissingText.

Definition template (v : View) : shown :=
  if isLoading v then Spinner
  else if truthy (error v) then ErrorText
  else match signal v with Some _ => DetailPanel | None => MissingText end.

End SignalDetail.

(* ------------------------------------------------------------------ *)
(** ** The chart drawing functions of the views (D3) *)

Module Chart.
Import JS.

(** *** The part of the DOM the charts build *)

Inductive attr :=
| Str (s : string)
| Num (q : Q)
| Path (points : list (Q * Q)).

Inductive node :=
| Element (tag : string) (attrs : list (string * attr)) (text : string)
          (children : list node).

(** The element a chart is drawn into. *)
Record Container := { clientWidth : Z; children : list node }.

Definition hasClass (cls : string) (n : node) : bool :=
  match n with
  | Element _ attrs _ _ =>
      existsb (fun a => match a with
                        | (k, Str v) => ((k =? "class") && (v =? cls))%string
                        | _ => false
                        end) attrs
  end.

Definition hasTag (tag : string) (n : node) : bool :=
  match n with Element t _ _ _ => (t =? tag)%string end.

(** The selector ['g.tick']. *)
Definition isTick (n : node) : bool := (hasTag "g" n && hasClass "tick" n)%bool.

(** [d3.select(container).selectAll('*').remove()] *)
Definition removeAll (c : Container) : Container :=
  {| clientWidth := clientWidth c; children := [] |}.

(** [d3.select(container).selectAll('g.tick').each(function(_, i) { if
    (!keep(i)) d3.select(this).remove() })]: the matching elements are
    numbered in document order, starting at [i]. *)
Fixpoint thinTicks (keep : nat -> bool) (n : node) (i : nat) : option node * nat :=
  match n with
  | Element tag attrs text kids =>
      let self := isTick n in
      let i1 := if self then S i else i in
      let '(kids', i2) :=
        (fix go (l : list node) (j : nat) {struct l} : list node * nat :=
           match l with
           | [] => ([], j)
           | k :: r =>
               let '(k', j1) := thinTicks keep k j in
               let '(r', j2) := go r j1 in
               (match k' with Some x => x :: r' | None => r' end, j2)
           end) kids i1 in
      (if (self && negb (keep i))%bool then None
       else Some (Element tag attrs text kids'), i2)
  end.

Fixpoint thinTicksList (keep : nat -> bool) (l : list node) (j : nat) : list node * nat :=
  match l with
  | [] => ([], j)
  | k :: r =>
      let '(k', j1) := thinTicks keep k j in
      let '(r', j2) := thinTicksList keep r j1 in
      (match k' with Some x => x :: r' | None => r' end, j2)
  end.

Definition removeTicksUnless (keep : nat -> bool) (c : Container) : Container :=
  {| clientWidth := clientWidth c;
     children := fst (thinTicksList keep (children c) O) |}.

(** [selection.append] on the [svg] element, the only child of the
    container while a chart is being built. *)
Definition appendToSvg (new : list node) (c : Container) : Container :=
  {| clientWidth := clientWidth c;
     children := match children c with
                 | [Element tag attrs text kids] =>
                     [Element tag attrs text (kids ++ new)]
                 | other => other
                 end |}.

(** *** Scales *)

(** The domain of an ordinal scale keeps the first occurrence of each
    value. *)
Fixpoint dedupe (seen l : list string) : list string :=
  match l with
  | [] => []
  | x :: r => if existsb (String.eqb x) seen then dedupe seen r
              else x :: dedupe (x :: seen) r
  end.

Record BandScale := {
  domain : list string;
  start : Q;
  step : Q;
  bandwidth : Q;
  reversed : bool
}.

Definition Qmax (a b : Q) : Q := if Qle_bool a b then b else a.
Definition Qmin (a b : Q) : Q := if Qle_bool a b then a else b.

(** [d3.scaleBand().domain(labels).range([r0, r1]).padding(p)]. *)
Definition scaleBand (labels : list string) (r0 r1 p : Q) : BandScale :=
  let dom := dedupe [] labels in
  let n := inject_Z (Z.of_nat (List.length dom)) in
  let paddingInner := Qmin 1 p in
  let paddingOuter := p in
  let reverse := negb (Qle_bool r0 r1) in
  let lo := if reverse then r1 else r0 in
  let hi := if reverse then r0 else r1 in
  let step := ((hi - lo) / Qmax 1 (n - paddingInner + paddingOuter * 2))%Q in
  {| domain := dom;
     start := (lo + (hi - lo - step * (n - paddingInner)) * (1 # 2))%Q;
     step := step;
     bandwidth := (step * (1 - paddingInner))%Q;
     reversed := reverse |}.

Fixpoint indexOf (d : string) (l : list string) (i : nat) : option nat :=
  match l with
  | [] => None
  | x :: r => if (x =? d)%string then Some i else indexOf d r (S i)
  end.

(** [x(d) || 0] *)
Definition bandPos (x : BandScale) (d : string) : Q :=
  match indexOf d (domain x) O with
  | Some i =>
      let k := if reversed x then (List.length (domain x) - 1 - i)%nat else i in
      (start x + step x * inject_Z (Z.of_nat k))%Q
  | None => 0%Q
  end.

(** [d3.scaleLinear().domain([d0, d1]).range([r0, r1])], for [d0 <> d1]. *)
Definition scaleLinear (d0 d1 r0 r1 : Q) (v : Q) : Q :=
  (r0 + (v - d0) / (d1 - d0) * (r1 - r0))%Q.

(** [d3.max(data, f) || dflt] *)
Definition maxOr (values : list Q) (dflt : Q) : Q :=
  match values with
  | [] => dflt
  | v :: r => let m := fold_left Qmax r v in
              if Qeq_bool m 0 then dflt else m
  end.

(** *** Axes *)

Definition tick (textAttrs : list (string * attr)) (label : string) : node :=
  Element "g" [("class", Str "tick")] ""
    [ Element "line" [] "" []; Element "text" textAttrs label [] ].

(** The group filled by [d3.axisBottom] or [d3.axisLeft]: the domain path
    followed by one tick group per label. *)
Definition axisGroup (transform : list (string * attr))
    (textAttrs : list (string * attr)) (labels : list string) : node :=
  Element "g" transform ""
    (Element "path" [("class", Str "domain")] "" [] :: map (tick textAttrs) labels).

Section Charts.

(** The labels of a left axis, chosen by D3's tick generator and number
    format from the domain and the requested tick count (0 when none is
    requested). *)
Variable axisLeftLabels : Q -> Q -> Z -> list string.

(** *** SolanaNftView.vue *)

Record NftTrendData := { nft_date : string; nft_volume : Q; nft_floor_price : Q }.

Definition height : Q := 250.

Definition xTextAttrs (n : nat) : list (string * attr) :=
  [ ("transform", Str "rotate(-45)"); ("text-anchor", Str "end");
    ("font-size", Str (if (14 <? n)%nat then "8px" else "10px")) ].

(** The block that adjusts the density of the ticks of the X axis. *)
Definition adjustTickDensity (n : nat) (c : Container) : Container :=
  if (30 <? n)%nat then removeTicksUnless (fun i => (i mod 3 =? 0)%nat) c
  else if (14 <? n)%nat then removeTicksUnless (fun i => (i mod 2 =? 0)%nat) c
  else c.

Definition initVolumeChart (trendData : list NftTrendData)
    (volumeChartRef : option Container) : option Container :=
  match volumeChartRef with
  | None => None
  | Some container =>
      if (List.length trendData =? 0)%nat then Some container
      else
        let container := removeAll container in
        let width := inject_Z (clientWidth container) in
        let top := 20%Q in let right := 20%Q in
        let bottom := 40%Q in let left := 40%Q in
        let svg := Element "svg" [("width", Num width); ("height", Num height)] "" [] in
        let container :=
          {| clientWidth := clientWidth container; children := [svg] |} in
        let x := scaleBand (map nft_date trendData) left (width - right) (2 # 10) in
        let ymax := maxOr (map nft_volume trendData) 1 in
        let y := scaleLinear 0 ymax (height - bottom) top in
        let container :=
          appendToSvg
            [ axisGroup [("transform", Num (height - bottom))]
                (xTextAttrs (List.length trendData)) (domain x) ] container in
        let container := adjustTickDensity (List.length trendData) container in
        let container :=
          appendToSvg
            [ axisGroup [("transform", Num left)] [] (axisLeftLabels 0 ymax 5) ]
            container in
        let container :=
          appendToSvg
            (map (fun d =>
                    Element "rect"
                      [ ("class", Str "bar");
                        ("x", Num (bandPos x (nft_date d)));
                        ("y", Num (y (nft_volume d)));
                        ("width", Num (bandwidth x));
                        ("height", Num (height - bottom - y (nft_volume d)));
                        ("fill", Str "#3b82f6") ] "" [])
                 trendData) container in
        Some container
  end.

Definition initFloorPriceChart (trendData : list NftTrendData)
    (floorPriceChartRef : option Container) : option Container :=
  match floorPriceChartRef with
  | None => None
  | Some container =>
      if (List.length trendData =? 0)%nat then Some container
      else
        let container := removeAll container in
        let width := inject_Z (clientWidth container) in
        let top := 20%Q in let right := 20%Q in
        let bottom := 40%Q in let left := 40%Q in
        let svg := Element "svg" [("width", Num width); ("height", Num height)] "" [] in
        let container :=
          {| clientWidth := clientWidth container; children := [svg] |} in
        let x := scaleBand (map nft_date trendData) left (width - right) (2 # 10) in
        let ymax := maxOr (map nft_floor_price trendData) 1 in
        let y := scaleLinear 0 ymax (height - bottom) top in
        let container :=
          appendToSvg
            [ axisGroup [("transform", Num (height - bottom))]
                (xTextAttrs (List.length trendData)) (domain x) ] container in
        let container := adjustTickDensity (List.length trendData) container in
        let container :=
          appendToSvg
            [ axisGroup [("transform", Num left)] [] (axisLeftLabels 0 ymax 5) ]
            container in
        let container :=
          appendToSvg
            [ Element "path"
                [ ("fill", Str "none"); ("stroke", Str "#10b981");
                  ("stroke-width", Num 2);
                  ("d", Path (map (fun d => (bandPos x (nft_date d),
                                             y (nft_floor_price d))) trendData)) ]
                "" [] ] container in
        let container :=
          appendToSvg
            (map (fun d =>
                    Element "circle"
                      [ ("class", Str "dot");
                        ("cx", Num (bandPos x (nft_date d)));
                        ("cy", Num (y (nft_floor_price d)));
                        ("r", Num 4); ("fill", Str "#10b981") ] "" [])
                 trendData) container in
        Some container
  end.

(** *** The dashboard view: [initSignalTrendChart]

    Here the [svg] holds one group, translated by the margins, and the
    chart is built inside that group. *)
Definition initSignalTrendChart (data : list Dashboard.ChartData)
    (signalTrendChart : option Container) : option Container :=
  match signalTrendChart with
  | None => None
  | Some container =>
      let container := removeAll container in
      let width := inject_Z (clientWidth container) in
      let top := 20%Q in let right := 20%Q in
      let bottom := 30%Q in let left := 40%Q in
      let innerWidth := (width - left - right)%Q in
      let innerHeight := (height - top - bottom)%Q in
      let x := scaleBand (map Dashboard.date data) 0 innerWidth (1 # 10) in
      let ymax := maxOr (map (fun d => inject_Z (Dashboard.signals d)) data) 100 in
      let y := scaleLinear 0 ymax innerHeight 0 in
      let group :=
        Element "g" [("transform", Str "translate(40,20)")] ""
          ([ axisGroup [("transform", Num innerHeight)] [] (domain x);
             axisGroup [] [] (axisLeftLabels 0 ymax 0) ]
           ++ map (fun d =>
                     Element "rect"
                       [ ("class", Str "bar");
                         ("x", Num (bandPos x (Dashboard.date d)));
                         ("y", Num (y (inject_Z (Dashboard.signals d))));
                         ("width", Num (bandwidth x));
                         ("height", Num (innerHeight - y (inject_Z (Dashboard.signals d))));
                         ("fill", Str "#93beb4") ] "" [])
                  data
           ++ [ Element "text"
                  [ ("x", Num (innerWidth / 2)); ("y", Num (-5));
                    ("text-anchor", Str "middle"); ("font-size", Str "12px");
                    ("fill", Str "#6b7280") ]
                  "每日信号数" [] ]) in
      Some {| clientWidth := clientWidth container;
              children := [ Element "svg" [("width", Num width); ("height", Num height)]
                              "" [group] ] |}
  end.

End Charts.

(** *** Reading a drawing back *)

(** The number of elements of a subtree that satisfy [p]. *)
Fixpoint count (p : node -> bool) (n : node) : nat :=
  match n with
  | Element _ _ _ kids =>
      ((if p n then 1 else 0)
       + (fix go (l : list node) : nat :=
            match l with [] => 0 | k :: r => count p k + go r end) kids)%nat
  end.

Definition countIn (p : node -> bool) (c : Container) : nat :=
  fold_right (fun n acc => (count p n + acc)%nat) O (children c).

Definition isBar (n : node) : bool := (hasTag "rect" n && hasClass "bar" n)%bool.
Definition isDot (n : node) : bool := (hasTag "circle" n && hasClass "dot" n)%bool.

Definition tickLabel (n : node) : list string :=
  match n with
  | Element _ _ _ kids =>
      if isTick n then
        flat_map (fun k => match k with
                           | Element t _ txt _ => if (t =? "text")%string then [txt] else []
                           end) kids
      else []
  end.

(** The labels on the ticks of the [i]-th axis group of the [svg]. *)
Definition axisTickLabels (i : nat) (c : Container) : list string :=
  match children c with
  | [Element _ _ _ groups] =>
      match nth_error groups i with
      | Some (Element _ _ _ kids) => flat_map tickLabel kids
      | None => []
      end
  | _ => []
  end.

(** The elements of a list at the positions that are multiples of [k]. *)
Fixpoint everyNth (k : nat) (i : nat) (l : list string) : list string :=
  match l with
  | [] => []
  | x :: r => if (i mod k =? 0)%nat then x :: everyNth k (S i) r else everyNth k (S i) r
  end.

End Chart.

(* ------------------------------------------------------------------ *)
(** ** The payment store (Pinia) and services/api/payment.service.ts *)

Module PaymentStore.
Import JS.

Record PaymentMethod := {
  id : string;
  user_id : string;
  type : string;
  provider : string;
  last_four : string;
  expiry_date : option string;
  brand : option string;
  is_default : bool;
  status : string;
  created_at : string
}.

Record Payment := {
  payment_id : string;
  payment_user_id : string;
  subscription_id : option string;
  amount : Q;
  currency : string;
  payment_status : string;
  payment_method_id : string;
  payment_method : PaymentMethod;
  transaction_id : string;
  payment_created_at : string;
  updated_at : string
}.

(** Of the data of a new payment method the store itself reads only
    [set_as_default]; the rest is passed on to the service. *)
Record AddPaymentMethodData := {
  data_type : string;
  data_provider : string;
  set_as_default : option bool
}.

Record State := {
  paymentMethods : list PaymentMethod;
  payments : list Payment;
  defaultPaymentMethod : option PaymentMethod;
  loading : bool;
  error : option string
}.

Definition initial : State :=
  {| paymentMethods := []; payments := []; defaultPaymentMethod := None;
     loading := false; error := None |}.

(** [error.response?.data?.detail || fallback]: the reason of a rejection
    is the detail text sent by the server, empty when there is none. *)
Definition detailOr (reason fallback : string) : string :=
  if truthy reason then reason else fallback.

(** The prologue and the [finally] clause shared by the asynchronous
    actions. *)
Definition begin (s : State) : State :=
  {| paymentMethods := paymentMethods s; payments := payments s;
     defaultPaymentMethod := defaultPaymentMethod s;
     loading := true; error := None |}.

Definition finish (s : State) : State :=
  {| paymentMethods := paymentMethods s; payments := payments s;
     defaultPaymentMethod := defaultPaymentMethod s;
     loading := false; error := error s |}.

Definition fail (message : string) (s : State) : State :=
  {| paymentMethods := paymentMethods s; payments := payments s;
     defaultPaymentMethod := defaultPaymentMethod s;
     loading := loading s; error := Some message |}.

(** Each action takes the way the request to the service settled and
    returns the new state together with the way its own promise settles
    (the [catch] clauses rethrow). *)

Definition fetchPaymentMethods (response : settled (list PaymentMethod)) (s : State)
  : State * settled (list PaymentMethod) :=
  let s := begin s in
  match response with
  | Fulfilled methods =>
      (finish {| paymentMethods := methods; payments := payments s;
                 defaultPaymentMethod := find is_default methods;
                 loading := loading s; error := error s |},
       Fulfilled methods)
  | Rejected reason =>
      (finish (fail (detailOr reason "获取支付方式失败") s), Rejected reason)
  end.

Definition addPaymentMethod (data : AddPaymentMethodData)
    (response : settled PaymentMethod) (s : State) : State * settled PaymentMethod :=
  let s := begin s in
  match response with
  | Fulfilled paymentMethod =>
      let methods := (paymentMethods s ++ [paymentMethod])%list in
      let asDefault :=
        (match set_as_default data with Some b => b | None => false end
         || (List.length methods =? 1)%nat)%bool in
      (finish {| paymentMethods := methods; payments := payments s;
                 defaultPaymentMethod :=
                   if asDefault then Some paymentMethod else defaultPaymentMethod s;
                 loading := loading s; error := error s |},
       Fulfilled paymentMethod)
  | Rejected reason =>
      (finish (fail (detailOr reason "添加支付方式失败") s), Rejected reason)
  end.

Definition deletePaymentMethod (paymentMethodId : string)
    (response : settled unit) (s : State) : State * settled unit :=
  let s := begin s in
  match response with
  | Fulfilled _ =>
      let methods :=
        List.filter (fun method => negb (id method =? paymentMethodId)%string)
                    (paymentMethods s) in
      let wasDefault :=
        match defaultPaymentMethod s with
        | Some d => (id d =? paymentMethodId)%string
        | None => false
        end in
      (finish {| paymentMethods := methods; payments := payments s;
                 defaultPaymentMethod :=
                   if wasDefault then List.hd_error methods else defaultPaymentMethod s;
                 loading := loading s; error := error s |},
       Fulfilled tt)
  | Rejected reason =>
      (finish (fail (detailOr reason "删除支付方式失败") s), Rejected reason)
  end.

Definition setDefaultPaymentMethod (paymentMethodId : string)
    (response : settled PaymentMethod) (s : State) : State * settled PaymentMethod :=
  let s := begin s in
  match response with
  | Fulfilled updatedMethod =>
      (finish {| paymentMethods :=
                   map (fun method =>
                          {| id := id method; user_id := user_id method;
                             type := type method; provider := provider method;
                             last_four := last_four method;
                             expiry_date := expiry_date method;
                             brand := brand method;
                             is_default := (id method =? paymentMethodId)%string;
                             status := status method;
                             created_at := created_at method |})
                       (paymentMethods s);
                 payments := payments s;
                 defaultPaymentMethod := Some updatedMethod;
                 loading := loading s; error := error s |},
       Fulfilled updatedMethod)
  | Rejected reason =>
      (finish (fail (detailOr reason "设置默认支付方式失败") s), Rejected reason)
  end.

Definition fetchPaymentHistory (response : settled (list Payment)) (s : State)
  : State * settled (list Payment) :=
  let s := begin s in
  match response with
  | Fulfilled history =>
      (finish {| paymentMethods := paymentMethods s; payments := history;
                 defaultPaymentMethod := defaultPaymentMethod s;
                 loading := loading s; error := error s |},
       Fulfilled history)
  | Rejected reason =>
      (finish (fail (detailOr reason "获取支付历史失败") s), Rejected reason)
  end.

Definition createPayment (response : settled Payment) (s : State)
  : State * settled Payment :=
  let s := begin s in
  match response with
  | Fulfilled payment =>
      (finish {| paymentMethods := paymentMethods s; payments := payment :: payments s;
                 defaultPaymentMethod := defaultPaymentMethod s;
                 loading := loading s; error := error s |},
       Fulfilled payment)
  | Rejected reason =>
      (finish (fail (detailOr reason "创建支付失败") s), Rejected reason)
  end.

(** [payments[index] = payment] for the first payment with the given id. *)
Fixpoint replaceFirst (paymentId : string) (payment : Payment) (l : list Payment)
  : option (list Payment) :=
  match l with
  | [] => None
  | p :: r =>
      if (payment_id p =? paymentId)%string then Some (payment :: r)
      else match replaceFirst paymentId payment r with
           | Some r' => Some (p :: r')
           | None => None
           end
  end.

Definition fetchPaymentDetails (paymentId : string) (response : settled Payment)
    (s : State) : State * settled Payment :=
  let s := begin s in
  match response with
  | Fulfilled payment =>
      (finish {| paymentMethods := paymentMethods s;
                 payments := match replaceFirst paymentId payment (payments s) with
                             | Some l => l
                             | None => payment :: payments s
                             end;
                 defaultPaymentMethod := defaultPaymentMethod s;
                 loading := loading s; error := error s |},
       Fulfilled payment)
  | Rejected reason =>
      (finish (fail (detailOr reason "获取支付详情失败") s), Rejected reason)
  end.

Definition clearError (s : State) : State :=
  {| paymentMethods := paymentMethods s; payments := payments s;
     defaultPaymentMethod := defaultPaymentMethod s;
     loading := loading s; error := None |}.

Definition reset (s : State) : State :=
  {| paymentMethods := []; payments := []; defaultPaymentMethod := None;
     loading := loading s; error := None |}.

(** The actions of the store, each with the response it received. *)
Inductive action :=
| FetchPaymentMethods (response : settled (list PaymentMethod))
| AddPaymentMethod (data : AddPaymentMethodData) (response : settled PaymentMethod)
| DeletePaymentMethod (paymentMethodId : string) (response : settled unit)
| SetDefaultPaymentMethod (paymentMethodId : string) (response : settled PaymentMethod)
| FetchPaymentHistory (response : settled (list Payment))
| CreatePayment (response : settled Payment)
| FetchPaymentDetails (paymentId : string) (response : settled Payment)
| ClearError
| Reset.

Definition dispatch (a : action) (s : State) : State :=
  match a with
  | FetchPaymentMethods r => fst (fetchPaymentMethods r s)
  | AddPaymentMethod d r => fst (addPaymentMethod d r s)
  | DeletePaymentMethod i r => fst (deletePaymentMethod i r s)
  | SetDefaultPaymentMethod i r => fst (setDefaultPaymentMethod i r s)
  | FetchPaymentHistory r => fst (fetchPaymentHistory r s)
  | CreatePayment r => fst (createPayment r s)
  | FetchPaymentDetails i r => fst (fetchPaymentDetails i r s)
  | ClearError => clearError s
  | Reset => reset s
  end.

(** The ids of the stored methods, and the invariant on the default. *)
Definition methodIds (s : State) : list string := map id (paymentMethods s).

Definition defaultListed (s : State) : Prop :=
  match defaultPaymentMethod s with
  | None => True
  | Some d => In (id d) (methodIds s)
  end.

End PaymentStore.

(** What [filteredSignals] keeps, as one predicate on a signal: the two
    optional filters of the computed property taken together. *)
Definition SignalHistory_keeps (searchQuery filterType : string) (s : LocalDb.Signal) : bool :=
  ((negb (JS.truthy searchQuery)
    || JS.includes (JS.toLowerCase (LocalDb.asset s)) (JS.toLowerCase searchQuery))
   && ((filterType =? "all")%string
       || (LocalDb.signal_type s =? filterType)%string))%bool.


(* ------------------------------------------------------------------ *)
(** ** services/db/local-db.service.ts: the NFT trend series *)

Module LocalDbNft.
Import JS.

(** The loop of [generateTestNftTrendData]; [k] is [i + 1] as in
    [LocalDb.chartLoop], and the two base values drift from turn to turn. *)
Fixpoint nftLoop (today : Z) (k : nat) (baseVolume baseFloorPrice : Q)
    (data : list Chart.NftTrendData) : Rand (list Chart.NftTrendData) :=
  match k with
  | O => ret data
  | S i =>
      let d := setDate today (getDate today - Z.of_nat i) in
      u1 <- random ;;
      let volumeVariation := (u1 * 20000000 - 10000000)%Q in
      u2 <- random ;;
      let floorPriceVariation := (u2 * 0.3 - 0.15)%Q in
      nftLoop today i
        (baseVolume + volumeVariation * 0.3)%Q
        (baseFloorPrice + floorPriceVariation * 0.2)%Q
        (data ++ [ {| Chart.nft_date := LocalDb.dateStr d;
                      Chart.nft_volume := MathMax 0 (baseVolume + volumeVariation);
                      Chart.nft_floor_price :=
                        MathMax 0 (baseFloorPrice + floorPriceVariation) |} ])
  end.

Definition generateTestNftTrendData (today : Z) (days : Z)
  : Rand (list Chart.NftTrendData) :=
  nftLoop today (Z.to_nat days) 30000000 0.7 [].

Definition getNftTrendData (today days : Z) : Rand (list Chart.NftTrendData) :=
  generateTestNftTrendData today days.

End LocalDbNft.

(* ------------------------------------------------------------------ *)
(** ** SolanaNftView.vue: loading *)

Module NftView.
Import JS.

Record View := {
  marketMetrics : LocalDb.NftMarketMetrics;
  searchTerm : string;
  selectedCategory : string;
  isLoading : bool;
  trendData : list Chart.NftTrendData
}.

Definition initial : View :=
  {| marketMetrics := {| LocalDb.total_collections := 0; LocalDb.total_volume_24h := 0;
                         LocalDb.average_floor_price := 0;
                         LocalDb.top_collections := [] |};
     searchTerm := ""; selectedCategory := ""; isLoading := false; trendData := [] |}.

(** [loadTrendData]; [trendP] is how [getNftTrendData(7)] settled.  A
    rejection is logged and goes no further. *)
Definition loadTrendData (trendP : settled (list Chart.NftTrendData)) (v : View) : View :=
  match trendP with
  | Fulfilled data =>
      {| marketMetrics := marketMetrics v; searchTerm := searchTerm v;
         selectedCategory := selectedCategory v; isLoading := isLoading v;
         trendData := data |}
  | Rejected _ => v
  end.

(** [loadData]; [metricsP] is how [getNftMarketMetrics()] settled.  The
    trend series is asked for only once the metrics have arrived. *)
Definition loadData (metricsP : settled LocalDb.NftMarketMetrics)
    (trendP : settled (list Chart.NftTrendData)) (v : View) : View :=
  let v1 := {| marketMetrics := marketMetrics v; searchTerm := searchTerm v;
               selectedCategory := selectedCategory v; isLoading := true;
               trendData := trendData v |} in
  let v2 :=
    match metricsP with
    | Fulfilled m =>
        loadTrendData trendP
          {| marketMetrics := m; searchTerm := searchTerm v1;
             selectedCategory := selectedCategory v1; isLoading := isLoading v1;
             trendData := trendData v1 |}
    | Rejected _ => v1
    end in
  {| marketMetrics := marketMetrics v2; searchTerm := searchTerm v2;
     selectedCategory := selectedCategory v2; isLoading := false;
     trendData := trendData v2 |}.

End NftView.

(* ------------------------------------------------------------------ *)
(** ** The signal history view: paging *)

Module SignalHistoryPages.
Import JS LocalDb.

(** [Math.ceil(filteredSignals.length / pageSize)], for a page size that is
    not zero. *)
Definition pageCount (length pageSize : Z) : Z :=
  Qceiling (inject_Z length / inject_Z pageSize).

(** The computed property [paginatedSignals], over the content of
    [filteredSignals]. *)
Definition paginatedSignals (filtered : list Signal) (currentPage pageSize : Z)
  : list Signal :=
  let start := (currentPage - 1) * pageSize in
  let final := start + pageSize in
  slice start final filtered.

(** The handlers of the two paging buttons. *)
Definition previousPage (currentPage : Z) : Z := Z.max 1 (currentPage - 1).

Definition nextPage (length pageSize currentPage : Z) : Z :=
  Z.min (pageCount length pageSize) (currentPage + 1).

(** The [:disabled] bindings of the two buttons. *)
Definition previousDisabled (currentPage : Z) : bool := currentPage =? 1.

Definition nextDisabled (length pageSize currentPage : Z) : bool :=
  currentPage =? pageCount length pageSize.

(** The range announced above the buttons: "from" and "to". *)
Definition shownFrom (currentPage pageSize : Z) : Z := (currentPage - 1) * pageSize + 1.

Definition shownTo (length pageSize currentPage : Z) : Z :=
  Z.min (currentPage * pageSize) length.

End SignalHistoryPages.

(** What a point of a series generated by the dashboard satisfies, by the
    kind of the series; used to state the ranges of [generateChartData]. *)
Definition dashboardPointOk (type : Dashboard.chartType) (p : Dashboard.ChartData) : Prop :=
  match type with
  | Dashboard.TSignals =>
      40 <= Dashboard.signals p <= 60 /\ Dashboard.activity p = 0
      /\ (Dashboard.price p == 0)%Q /\ Dashboard.volume p = 0
  | Dashboard.TActivity =>
      50 <= Dashboard.activity p <= 100 /\ Dashboard.signals p = 0
      /\ (Dashboard.price p == 0)%Q /\ Dashboard.volume p = 0
  | Dashboard.TPrice =>
      (97.5 <= Dashboard.price p)%Q /\ (Dashboard.price p <= 102.5)%Q
      /\ Dashboard.signals p = 0 /\ Dashboard.activity p = 0 /\ Dashboard.volume p = 0
  | Dashboard.TVolume =>
      750000 <= Dashboard.volume p <= 1250000 /\ Dashboard.signals p = 0
      /\ Dashboard.activity p = 0 /\ (Dashboard.price p == 0)%Q
  end.


(** The one assumption made on [arr.sort(() => Math.random() - 0.5)]: it
    returns the elements it was given, in some order. *)
Definition permuting (shuffle : forall A : Type, list A -> JS.Rand (list A)) : Prop :=
  forall A (l : list A) g, Permutation (fst (shuffle A l g)) l.


(** How the request of a store action settled: [None] for the two
    synchronous actions, [Some None] when it was fulfilled and
    [Some (Some reason)] when it was rejected. *)
Definition settledAs {A} (r : JS.settled A) : option string :=
  match r with JS.Fulfilled _ => None | JS.Rejected reason => Some reason end.

Definition requestOf (a : PaymentStore.action) : option (option string) :=
  match a with
  | PaymentStore.FetchPaymentMethods r => Some (settledAs r)
  | PaymentStore.AddPaymentMethod _ r => Some (settledAs r)
  | PaymentStore.DeletePaymentMethod _ r => Some (settledAs r)
  | PaymentStore.SetDefaultPaymentMethod _ r => Some (settledAs r)
  | PaymentStore.FetchPaymentHistory r => Some (settledAs r)
  | PaymentStore.CreatePayment r => Some (settledAs r)
  | PaymentStore.FetchPaymentDetails _ r => Some (settledAs r)
  | PaymentStore.ClearError => None
  | PaymentStore.Reset => None
  end.

(** The getter [hasError]. *)
Definition hasError (s : PaymentStore.State) : bool :=
  match PaymentStore.error s with Some m => JS.truthy m | None => false end.


(* ------------------------------------------------------------------ *)
(** ** The project detail view: the series behind the two charts *)

Module ProjectCharts.
Import JS.

(** The number of points chosen by [timeRange]. *)
Definition daysOf (timeRange : string) : Z :=
  if (timeRange =? "7d")%string then 7
  else if (timeRange =? "90d")%string then 90
  else 30.

(** A point of either series; [date] is a [Date], kept as its local day. *)
Record Point := { date : Z; value : Q }.

(** The loop [for (let i = days - 1; i >= 0; i--)] of [generatePriceChart],
    counted by [k = i + 1]; [price] is the running price.  The arithmetic is
    over exact rationals; the statements about the steps leave a margin for
    the rounding of the floating-point arithmetic of the source. *)
Fixpoint priceLoop (today : Z) (k : nat) (price : Q) (data : list Point)
  : Rand (list Point) :=
  match k with
  | O => ret data
  | S i =>
      let d := setDate today (getDate today - Z.of_nat i) in
      u <- random ;;
      let price := (price + (u * 2 - 0.8) * price * 0.01)%Q in
      priceLoop today i price (data ++ [ {| date := d; value := price |} ])
  end.

(** The same loop of [generateVolumeChart]; [baseVolume] never changes. *)
Fixpoint volumeLoop (today : Z) (k : nat) (baseVolume : Q) (data : list Point)
  : Rand (list Point) :=
  match k with
  | O => ret data
  | S i =>
      let d := setDate today (getDate today - Z.of_nat i) in
      u <- random ;;
      let volume := (baseVolume * (0.5 + u))%Q in
      volumeLoop today i baseVolume (data ++ [ {| date := d; value := volume |} ])
  end.

(** The data drawn by [generatePriceChart] and [generateVolumeChart]:
    [None] when the function returns at its first line, because the chart
    element is not mounted or there is no project. *)
Definition priceData (today : Z) (mounted : bool) (v : ProjectDetail.View)
  : Rand (option (list Point)) :=
  match mounted, ProjectDetail.project v with
  | true, Some p =>
      data <- priceLoop today (Z.to_nat (daysOf (ProjectDetail.timeRange v)))
                        (ProjectDetail.price (ProjectDetail.marketData p)) [] ;;
      ret (Some data)
  | _, _ => ret None
  end.

Definition volumeData (today : Z) (mounted : bool) (v : ProjectDetail.View)
  : Rand (option (list Point)) :=
  match mounted, ProjectDetail.project v with
  | true, Some p =>
      data <- volumeLoop today (Z.to_nat (daysOf (ProjectDetail.timeRange v)))
                         (ProjectDetail.volume24h (ProjectDetail.marketData p)) [] ;;
      ret (Some data)
  | _, _ => ret None
  end.

End ProjectCharts.

(** Every value of the list is within -0.8 and +1.2 percent of the one
    before it, starting from [prev]; a margin of one part in 10^9 is left
    for the rounding of the floating-point arithmetic of the source. *)
Fixpoint smallSteps (prev : Q) (l : list Q) : Prop :=
  match l with
  | [] => True
  | x :: r =>
      (prev * 0.991999999 <= x)%Q /\ (x <= prev * 1.012000001)%Q /\ smallSteps x r
  end.

(** Text made of ASCII characters only, on which [toLowerCase] lowers the
    letters A to Z and nothing else. *)
Definition asciiOnly (s : string) : bool :=
  forallb (fun c => Nat.ltb (nat_of_ascii c) 128) (list_ascii_of_string s).



(** The [n] consecutive days that end with [today]. *)
Definition lastDays (today : Z) (n : nat) : list Z :=
  map (fun j => today - Z.of_nat n + 1 + Z.of_nat j) (seq 0 n).


(* ------------------------------------------------------------------ *)
(** ** The subscription store and the plans view *)

Module SubscriptionStore.
Import JS.

Record SubscriptionPlan := {
  plan_id : string;
  plan_name : string;
  description : string;
  price : Q;
  currency : string;
  billing_cycle : string;
  features : list string;
  api_rate_limit : Z;
  signal_limit : Z
}.

Record Subscription := {
  id : string;
  user_id : string;
  subscribed_plan_id : string;
  plan : SubscriptionPlan;
  status : string;
  start_date : string;
  end_date : string;
  auto_renew : bool;
  api_calls : Z;
  signals_generated : Z
}.

Record CreateSubscriptionData := {
  data_plan_id : string;
  data_payment_method_id : option string;
  data_auto_renew : option bool
}.

Record State := {
  plans : list SubscriptionPlan;
  subscriptions : list Subscription;
  currentSubscription : option Subscription;
  loading : bool;
  error : option string
}.

Definition initial : State :=
  {| plans := []; subscriptions := []; currentSubscription := None;
     loading := false; error := None |}.

(** The getter [hasError]. *)
Definition hasError (s : State) : bool :=
  match error s with Some m => truthy m | None => false end.

(** The two actions used by the plans view; as in the payment store each
    takes the way the request settled and returns the new state with the
    way its own promise settles. *)
Definition fetchSubscriptionPlans (response : settled (list SubscriptionPlan))
    (s : State) : State * settled (list SubscriptionPlan) :=
  match response with
  | Fulfilled fetched =>
      ({| plans := fetched; subscriptions := subscriptions s;
          currentSubscription := currentSubscription s;
          loading := false; error := None |},
       Fulfilled fetched)
  | Rejected reason =>
      ({| plans := plans s; subscriptions := subscriptions s;
          currentSubscription := currentSubscription s;
          loading := false;
          error := Some (PaymentStore.detailOr reason "获取订阅计划失败") |},
       Rejected reason)
  end.

Definition createSubscription (response : settled Subscription) (s : State)
  : State * settled Subscription :=
  match response with
  | Fulfilled subscription =>
      ({| plans := plans s;
          subscriptions := (subscriptions s ++ [subscription])%list;
          currentSubscription := Some subscription;
          loading := false; error := None |},
       Fulfilled subscription)
  | Rejected reason =>
      ({| plans := plans s; subscriptions := subscriptions s;
          currentSubscription := currentSubscription s;
          loading := false;
          error := Some (PaymentStore.detailOr reason "创建订阅失败") |},
       Rejected reason)
  end.

End SubscriptionStore.

Module PlansView.
Import JS.

(** The refs of the view, the two stores it uses and the last route pushed
    on the router. *)
Record View := {
  selectedPlan : option SubscriptionStore.SubscriptionPlan;
  selectedPaymentMethodId : string;
  autoRenew : bool;
  subscriptionStore : SubscriptionStore.State;
  paymentStore : PaymentStore.State;
  pushed : option string
}.

Definition initial : View :=
  {| selectedPlan := None; selectedPaymentMethodId := ""; autoRenew := true;
     subscriptionStore := SubscriptionStore.initial;
     paymentStore := PaymentStore.initial; pushed := None |}.

(** The [onMounted] hook; [plans] and [methods] are the ways the two
    requests settle.  A rejected [await] ends the hook. *)
Definition onMounted (plans : settled (list SubscriptionStore.SubscriptionPlan))
    (methods : settled (list PaymentStore.PaymentMethod)) (v : View) : View :=
  let (subs, fetchedPlans) :=
    SubscriptionStore.fetchSubscriptionPlans plans (subscriptionStore v) in
  match fetchedPlans with
  | Rejected _ =>
      {| selectedPlan := selectedPlan v;
         selectedPaymentMethodId := selectedPaymentMethodId v;
         autoRenew := autoRenew v; subscriptionStore := subs;
         paymentStore := paymentStore v; pushed := pushed v |}
  | Fulfilled _ =>
      let (pay, fetchedMethods) :=
        PaymentStore.fetchPaymentMethods methods (paymentStore v) in
      match fetchedMethods with
      | Rejected _ =>
          {| selectedPlan := selectedPlan v;
             selectedPaymentMethodId := selectedPaymentMethodId v;
             autoRenew := autoRenew v; subscriptionStore := subs;
             paymentStore := pay; pushed := pushed v |}
      | Fulfilled _ =>
          {| selectedPlan := selectedPlan v;
             selectedPaymentMethodId :=
               match PaymentStore.defaultPaymentMethod pay with
               | Some d => PaymentStore.id d
               | None => selectedPaymentMethodId v
               end;
             autoRenew := autoRenew v; subscriptionStore := subs;
             paymentStore := pay; pushed := pushed v |}
      end
  end.

Definition selectPlan (plan : SubscriptionStore.SubscriptionPlan) (v : View) : View :=
  {| selectedPlan := Some plan;
     selectedPaymentMethodId := selectedPaymentMethodId v;
     autoRenew := autoRenew v; subscriptionStore := subscriptionStore v;
     paymentStore := paymentStore v; pushed := pushed v |}.

(** [confirmSubscription]; [service] is
    [subscriptionService.createSubscription], from the data sent to the way
    the request settles. *)
Definition confirmSubscription
    (service : SubscriptionStore.CreateSubscriptionData
               -> settled SubscriptionStore.Subscription)
    (v : View) : View :=
  match selectedPlan v with
  | None => v
  | Some plan =>
      if negb (truthy (selectedPaymentMethodId v)) then v
      else
        let data :=
          {| SubscriptionStore.data_plan_id := SubscriptionStore.plan_id plan;
             SubscriptionStore.data_payment_method_id :=
               Some (selectedPaymentMethodId v);
             SubscriptionStore.data_auto_renew := Some (autoRenew v) |} in
        let (subs, created) :=
          SubscriptionStore.createSubscription (service data) (subscriptionStore v) in
        {| selectedPlan := selectedPlan v;
           selectedPaymentMethodId := selectedPaymentMethodId v;
           autoRenew := autoRenew v; subscriptionStore := subs;
           paymentStore := paymentStore v;
           pushed := match created with
                     | Fulfilled _ => Some "/subscription/my"
                     | Rejected _ => pushed v
                     end |}
  end.

End PlansView.


(* ------------------------------------------------------------------ *)
(** ** The API service: the two list routes *)

Module ApiService.
Import JS LocalDb.

(** [config?.params?.limit || 5]: [limit] is the integer found there, if
    any; zero is falsy. *)
Definition limitOr (limit : option Z) (fallback : Z) : Z :=
  match limit with
  | Some n => if n =? 0 then fallback else n
  | None => fallback
  end.

(** [get('/history/signals', config)] and [get('/solana/projects/hot',
    config)], without the [data] wrappers around the lists. *)
Definition getHistorySignals (now : Z) (limit : option Z) : list Signal :=
  getRecentSignals now (limitOr limit 5).

Definition getHotProjectsRoute (limit : option Z) : list Project :=
  getHotProjects (limitOr limit 5).

End ApiService.

(** The number of entries that the list routes return out of five. *)
Definition routeCount (limit : option Z) : Z :=
  match limit with
  | None => 5
  | Some n => if n =? 0 then 5 else if n <? 0 then Z.max (5 + n) 0 else Z.min n 5
  end.


(* ================================================================== *)
(** * Properties *)

Local Open Scope list_scope.

Section Calendar.
Import JS.

Lemma DayFromYear_step y : DayFromYear (y + 1) = DayFromYear y + DaysInYear y.
Proof.
  unfold DayFromYear, DaysInYear.
  destruct (Z.eqb_spec (y mod 4) 0), (Z.eqb_spec (y mod 100) 0),
    (Z.eqb_spec (y mod 400) 0); cbn [negb];
    Z.to_euclidean_division_equations; lia.
Qed.

Lemma DaysInYear_cases y : DaysInYear y = 365 \/ DaysInYear y = 366.
Proof.
  unfold DaysInYear.
  destruct (y mod 4 =? 0), (y mod 100 =? 0), (y mod 400 =? 0); simpl; auto.
Qed.

Lemma DayFromYear_mono y y' : y <= y' -> DayFromYear y + 365 * (y' - y) <= DayFromYear y'.
Proof.
  intros H. unfold DayFromYear. Z.to_euclidean_division_equations. lia.
Qed.

Lemma findYear_spec steps : forall day y,
  DayFromYear y <= day < DayFromYear (y + Z.of_nat steps) ->
  DayFromYear (findYear steps day y) <= day < DayFromYear (findYear steps day y + 1).
Proof.
  induction steps as [|k IH]; intros day y H.
  - simpl in H. replace (y + 0) with y in H by lia. lia.
  - simpl. destruct (Z.ltb_spec day (DayFromYear (y + 1))).
    + lia.
    + apply IH. replace (y + 1 + Z.of_nat k) with (y + Z.of_nat (S k)) by lia. lia.
Qed.

Lemma YearFromDay_spec day :
  DayFromYear (YearFromDay day) <= day < DayFromYear (YearFromDay day + 1).
Proof.
  unfold YearFromDay. apply findYear_spec.
  unfold DayFromYear. change (Z.of_nat 5) with 5. Z.to_euclidean_division_equations. lia.
Qed.

(** The year is the largest one that starts on or before the day. *)
Lemma YearFromDay_largest day y : DayFromYear y <= day -> y <= YearFromDay day.
Proof.
  intros H. destruct (YearFromDay_spec day) as [_ Hu].
  destruct (Z.le_gt_cases y (YearFromDay day)) as [|Hgt]; [assumption|].
  pose proof (DayFromYear_mono (YearFromDay day + 1) y ltac:(lia)). lia.
Qed.

Lemma DayWithinYear_range day :
  0 <= DayWithinYear day < 365 + InLeapYear day.
Proof.
  unfold DayWithinYear, InLeapYear.
  pose proof (YearFromDay_spec day) as H.
  rewrite DayFromYear_step in H.
  destruct (DaysInYear_cases (YearFromDay day)) as [E|E]; rewrite E in *; simpl; lia.
Qed.

Lemma monthOf_range leap d : 0 <= monthOf leap d <= 11.
Proof.
  unfold monthOf.
  repeat match goal with |- context [if ?b then _ else _] => destruct b end; lia.
Qed.

Lemma dateOf_range leap d :
  (leap = 0 \/ leap = 1) -> 0 <= d < 365 + leap -> 1 <= dateOf leap d <= 31.
Proof.
  intros Hl Hd. unfold dateOf, monthOf.
  repeat match goal with
         | |- context [if ?a <? ?b then _ else _] => destruct (Z.ltb_spec a b)
         end; lia.
Qed.

(** Within one year the pair (month, date) determines the day. *)
Lemma month_date_inj leap d d' :
  (leap = 0 \/ leap = 1) -> 0 <= d < 365 + leap -> 0 <= d' < 365 + leap ->
  monthOf leap d = monthOf leap d' -> dateOf leap d = dateOf leap d' -> d = d'.
Proof.
  intros Hl Hd Hd'. unfold dateOf. intros Hm. rewrite <- Hm.
  remember (monthOf leap d) as m eqn:Em. revert Em Hm. unfold monthOf.
  repeat match goal with
         | |- context [if ?a <? ?b then _ else _] => destruct (Z.ltb_spec a b)
         end; intros; subst m; lia.
Qed.


Lemma month_date_next_year l1 l2 d1 d2 :
  (l1 = 0 \/ l1 = 1) -> (l2 = 0 \/ l2 = 1) ->
  0 <= d1 < 365 + l1 -> 0 <= d2 < 365 + l2 ->
  monthOf l1 d1 = monthOf l2 d2 -> dateOf l1 d1 = dateOf l2 d2 -> d1 <= d2 + l1.
Proof.
  intros H1 H2 Hd1 Hd2. unfold dateOf. intros Hm. rewrite <- Hm.
  remember (monthOf l1 d1) as m eqn:Em. revert Em Hm. unfold monthOf.
  repeat match goal with
         | |- context [if ?a <? ?b then _ else _] => destruct (Z.ltb_spec a b)
         end; intros; subst m; lia.
Qed.

Lemma InLeapYear_cases day : InLeapYear day = 0 \/ InLeapYear day = 1.
Proof. unfold InLeapYear. destruct (_ =? _); auto. Qed.

Lemma DaysInYear_leap day : DaysInYear (YearFromDay day) = 365 + InLeapYear day.
Proof.
  unfold InLeapYear. destruct (DaysInYear_cases (YearFromDay day)) as [E|E]; rewrite E; reflexivity.
Qed.

(** Two different days less than 365 days apart never share both month and
    day of month. *)
Lemma month_date_differ a b :
  a < b < a + 365 -> getMonth a = getMonth b -> getDate a = getDate b -> False.
Proof.
  intros Hab Hm Hd. unfold getMonth, getDate in *.
  pose proof (YearFromDay_spec a) as Ha. pose proof (YearFromDay_spec b) as Hb.
  pose proof (DayWithinYear_range a) as Ra. pose proof (DayWithinYear_range b) as Rb.
  pose proof (InLeapYear_cases a) as La. pose proof (InLeapYear_cases b) as Lb.
  assert (Hle : YearFromDay a <= YearFromDay b) by (apply YearFromDay_largest; lia).
  assert (Hup : YearFromDay b <= YearFromDay a + 1).
  { destruct (Z.le_gt_cases (YearFromDay b) (YearFromDay a + 1)) as [|Hgt]; [assumption|].
    pose proof (DayFromYear_mono (YearFromDay a + 1) (YearFromDay b) ltac:(lia)). lia. }
  assert (Hc : YearFromDay b = YearFromDay a \/ YearFromDay b = YearFromDay a + 1) by lia.
  destruct Hc as [E|E].
  - assert (El : InLeapYear b = InLeapYear a) by (unfold InLeapYear; rewrite E; reflexivity).
    rewrite El in *.
    pose proof (month_date_inj _ _ _ La Ra Rb Hm Hd) as Heq.
    unfold DayWithinYear in Heq. rewrite E in Heq. lia.
  - pose proof (month_date_next_year _ _ _ _ La Lb Ra Rb Hm Hd) as Hn.
    unfold DayWithinYear in Hn. rewrite E in Hn.
    rewrite DayFromYear_step, DaysInYear_leap in Hn. lia.
Qed.

End Calendar.

Section ChartSeries.
Import JS LocalDb.

Lemma setDate_back today i : setDate today (getDate today - i) = today - i.
Proof. unfold setDate. lia. Qed.

Lemma label_check :
  let pairs := list_prod (map Z.of_nat (seq 0 12)) (map Z.of_nat (seq 1 31)) in
  let label := fun p : Z * Z =>
    (numToString (fst p + 1) ++ "月" ++ numToString (snd p) ++ "日")%string in
  forallb (fun p => forallb (fun q =>
    implb (label p =? label q)%string ((fst p =? fst q) && (snd p =? snd q))%bool) pairs) pairs
  = true.
Proof. vm_compute. reflexivity. Qed.

Lemma dateStr_inj a b :
  dateStr a = dateStr b -> getMonth a = getMonth b /\ getDate a = getDate b.
Proof.
  intros H.
  assert (Hin : forall day, In (getMonth day, getDate day)
            (list_prod (map Z.of_nat (seq 0 12)) (map Z.of_nat (seq 1 31)))).
  { intros day. apply in_prod.
    - pose proof (monthOf_range (InLeapYear day) (DayWithinYear day)) as R.
      fold (getMonth day) in R.
      replace (getMonth day) with (Z.of_nat (Z.to_nat (getMonth day))) by lia.
      apply in_map, in_seq. lia.
    - pose proof (dateOf_range _ _ (InLeapYear_cases day) (DayWithinYear_range day)) as R.
      fold (getDate day) in R.
      replace (getDate day) with (Z.of_nat (Z.to_nat (getDate day))) by lia.
      apply in_map, in_seq. lia. }
  pose proof label_check as C. cbv zeta in C.
  rewrite forallb_forall in C. specialize (C _ (Hin a)).
  rewrite forallb_forall in C. specialize (C _ (Hin b)).
  cbn [fst snd] in C. unfold dateStr in H. rewrite H, String.eqb_refl in C.
  cbn [implb] in C. apply andb_true_iff in C. destruct C as [C1 C2].
  apply Z.eqb_eq in C1, C2. auto.
Qed.

Lemma dateStr_differ a b : a < b < a + 365 -> dateStr a <> dateStr b.
Proof.
  intros Hab H. apply dateStr_inj in H. destruct H.
  eapply month_date_differ; eauto.
Qed.

Lemma chartLoop_dates type today : forall k data g,
  map date (fst (chartLoop type today k data g))
  = (map date data ++ map dateStr (chartDays today k))%list.
Proof.
  induction k as [|i IH]; intros data g.
  - cbn. now rewrite app_nil_r.
  - cbn [chartLoop]. unfold bind, random. rewrite IH.
    rewrite map_app. rewrite <- app_assoc. f_equal.
    unfold chartDays. rewrite seq_S, rev_app_distr. cbn [rev app map Nat.add].
    destruct type; reflexivity.
Qed.

Lemma chartLoop_length type today : forall k data g,
  List.length (fst (chartLoop type today k data g)) = (List.length data + k)%nat.
Proof.
  induction k as [|i IH]; intros data g.
  - cbn. lia.
  - cbn [chartLoop]. unfold bind, random. rewrite IH, length_app. cbn. lia.
Qed.

Lemma chartDays_eq today k :
  chartDays today k = map (fun i => today - Z.of_nat i) (rev (seq 0 k)).
Proof. unfold chartDays. apply map_ext. intros i. apply setDate_back. Qed.

Lemma chartDays_sorted today k : StronglySorted Z.lt (chartDays today k).
Proof.
  rewrite chartDays_eq. induction k as [|i IH].
  - constructor.
  - rewrite seq_S, rev_app_distr. cbn [rev app map Nat.add]. constructor; [exact IH|].
    apply Forall_forall. intros x Hx. apply in_map_iff in Hx.
    destruct Hx as (j & <- & Hj). apply in_rev, in_seq in Hj. lia.
Qed.

Lemma chartDays_span today k x :
  In x (chartDays today k) -> today - Z.of_nat k < x <= today.
Proof.
  rewrite chartDays_eq. intros Hx. apply in_map_iff in Hx.
  destruct Hx as (j & <- & Hj). apply in_rev, in_seq in Hj. lia.
Qed.

Lemma chartDays_labels_NoDup today k :
  (k <= 365)%nat -> NoDup (map dateStr (chartDays today k)).
Proof.
  intros Hk. pose proof (chartDays_sorted today k) as Hs.
  pose proof (chartDays_span today k) as Hspan.
  induction Hs as [|x l Hs IH Hx]; cbn [map].
  - constructor.
  - constructor.
    + intros Hin. apply in_map_iff in Hin. destruct Hin as (y & Hy & Hin).
      rewrite Forall_forall in Hx. specialize (Hx _ Hin).
      pose proof (Hspan x (or_introl eq_refl)). pose proof (Hspan y (or_intror Hin)).
      symmetry in Hy. revert Hy. apply dateStr_differ. lia.
    + apply IH. intros z Hz. apply Hspan. now right.
Qed.

(** Claim C1, as the code has it.  For every positive [N] the series built
    by [generateTestChartData] (hence by [getSignalTrendData] and
    [getProjectActivityData]) has exactly [N] points; their labels are those
    of the [N] consecutive days that end today, oldest first; and as long as
    [N] is at most 365 no label occurs twice (a label names the month and
    the day only, so it comes back after a year). *)
Theorem chart_series_shape today N type rnd :
  0 < N ->
  let data := run (generateTestChartData today N type) rnd in
  List.length data = Z.to_nat N /\
  map date data = map dateStr (chartDays today (Z.to_nat N)) /\
  StronglySorted Z.lt (chartDays today (Z.to_nat N)) /\
  (N <= 365 -> NoDup (map date data)).
Proof.
  intros HN data. subst data. unfold run, generateTestChartData.
  split; [|split; [|split]].
  - rewrite chartLoop_length. reflexivity.
  - rewrite chartLoop_dates. reflexivity.
  - apply chartDays_sorted.
  - intros Hle. rewrite chartLoop_dates. cbn [map app].
    apply chartDays_labels_NoDup. lia.
Qed.

(** The default week, asked for on 2 November 2026. *)
Lemma chart_series_shape_week :
  let data := run (getSignalTrendData 20759 7) (fun _ => 0%Q) in
  List.length data = 7%nat /\
  map date data = map dateStr (chartDays 20759 7) /\
  StronglySorted Z.lt (chartDays 20759 7) /\
  (7 <= 365 -> NoDup (map date data)).
Proof. apply (chart_series_shape 20759 7 Signals (fun _ => 0%Q)). lia. Defined.

(** A window of 366 days that ends on 2 November 2026 starts on 2 November
    2025: its first and last labels are the same. *)
Lemma chart_labels_repeat_after_a_year :
  ~ NoDup (map date (run (getSignalTrendData 20759 366) (fun _ => 0%Q))).
Proof.
  intros H.
  assert (E0 : nth_error (map date (run (getSignalTrendData 20759 366) (fun _ => 0%Q))) 0
               = Some "11月2日") by (vm_compute; reflexivity).
  assert (E1 : nth_error (map date (run (getSignalTrendData 20759 366) (fun _ => 0%Q))) 365
               = Some "11月2日") by (vm_compute; reflexivity).
  rewrite NoDup_nth_error in H.
  specialize (H 0%nat 365%nat).
  assert (0 = 365)%nat; [|discriminate].
  apply H.
  - apply nth_error_Some. rewrite E0. discriminate.
  - rewrite E0, E1. reflexivity.
Qed.
End ChartSeries.

(* ------------------------------------------------------------------ *)
(** ** Failed loads *)

Section FailedLoad.
Import JS.

(** Claim C2.  When one of the three fetches joined by [loadData] of the
    dashboard is rejected, the view ends with the (non-empty) error message
    set and the loading flag cleared, [isDataLoaded] is not touched (so it
    is still [false] after the load issued on mount, which starts from the
    initial state), and every data field keeps the value it had.  The
    [loadSignals] action of the signal history view behaves the same way. *)
Theorem failed_load_keeps_data today metricsP signalsP projectsP v g :
  (exists r, metricsP = Rejected r) \/ (exists r, signalsP = Rejected r)
    \/ (exists r, projectsP = Rejected r) ->
  let v' := fst (Dashboard.loadData today metricsP signalsP projectsP v g) in
  let first := fst (Dashboard.loadData today metricsP signalsP projectsP
                      Dashboard.initial g) in
  (Dashboard.error v' = "获取数据失败" /\ truthy (Dashboard.error v') = true
   /\ Dashboard.isLoading v' = false
   /\ Dashboard.isDataLoaded v' = Dashboard.isDataLoaded v
   /\ Dashboard.isDataLoaded first = false
   /\ Dashboard.metrics v' = Dashboard.metrics v
   /\ Dashboard.recentSignals v' = Dashboard.recentSignals v
   /\ Dashboard.hotProjects v' = Dashboard.hotProjects v
   /\ Dashboard.signalTrendData v' = Dashboard.signalTrendData v
   /\ Dashboard.projectActivityData v' = Dashboard.projectActivityData v
   /\ Dashboard.priceTrendData v' = Dashboard.priceTrendData v
   /\ Dashboard.volumeTrendData v' = Dashboard.volumeTrendData v)
  /\ (forall r h,
        let h' := SignalHistory.loadSignals (Rejected r) h in
        SignalHistory.error h' = "获取信号数据失败"
        /\ truthy (SignalHistory.error h') = true
        /\ SignalHistory.isLoading h' = false
        /\ SignalHistory.signals h' = SignalHistory.signals h
        /\ SignalHistory.currentPage h' = SignalHistory.currentPage h).
Proof.
  intros H v' first.
  assert (Hrej : exists r, Dashboard.PromiseAll3 metricsP signalsP projectsP = Rejected r).
  { destruct H as [[r ->] | [[r ->] | [r ->]]].
    - exists r. reflexivity.
    - destruct metricsP; eexists; reflexivity.
    - destruct metricsP, signalsP; eexists; reflexivity. }
  destruct Hrej as [r Hr].
  subst v' first. unfold Dashboard.loadData, bind, ret. rewrite Hr. cbn.
  split; [repeat split; reflexivity|].
  intros r' h. cbn. repeat split; reflexivity.
Qed.

(** The load issued on mount, with the fetch of the signals rejected. *)
Lemma failed_load_keeps_data_on_mount :
  let g := {| oracle := fun _ => 0%Q; calls := O |} in
  let v' := fst (Dashboard.loadData 20759 (Fulfilled LocalDb.getDashboardMetrics)
                   (Rejected "") (Fulfilled (LocalDb.getHotProjects 10))
                   Dashboard.initial g) in
  Dashboard.error v' = "获取数据失败" /\ Dashboard.isDataLoaded v' = false.
Proof.
  pose proof (failed_load_keeps_data 20759 (Fulfilled LocalDb.getDashboardMetrics)
                (Rejected "") (Fulfilled (LocalDb.getHotProjects 10))
                Dashboard.initial {| oracle := fun _ => 0%Q; calls := O |}
                (or_intror (or_introl (ex_intro _ "" eq_refl)))) as H.
  cbv zeta in H. destruct H as [(H1 & _ & _ & _ & H2 & _) _].
  split; [exact H1 | exact H2].
Defined.

End FailedLoad.

(* ------------------------------------------------------------------ *)
(** ** The list filters *)

Section Filters.
Import JS LocalDb SolanaViews.

Lemma prefix_empty s : String.prefix "" s = true.
Proof. destruct s; reflexivity. Qed.

Lemma includes_empty s : includes s "" = true.
Proof. destruct s; reflexivity. Qed.

Lemma deref_alloc_new {A} (st : Store A) (a : list A) :
  deref (st ++ [a]) (List.length st) = a.
Proof. unfold deref. rewrite app_nth2, Nat.sub_diag by lia. reflexivity. Qed.

Lemma deref_alloc_old {A} (st : Store A) (a : list A) r :
  (r < List.length st)%nat -> deref (st ++ [a]) r = deref st r.
Proof. intros H. unfold deref. now rewrite app_nth1. Qed.

Lemma filter_all {A} (p : A -> bool) (l : list A) :
  (forall x, p x = true) -> List.filter p l = l.
Proof.
  intros H. induction l as [|x l IH]; cbn; [reflexivity|].
  now rewrite H, IH.
Qed.

Lemma matches_unset {A} (name category : A -> string) (item : A) :
  matches name category "" "" item = true.
Proof. unfold matches. cbn. now rewrite includes_empty. Qed.

(** Claim C4.  With the search box empty and the category selector on its
    empty value, [filteredCollections] and [filteredProtocols] return an
    array with the same content as the collection; an empty search term
    leaves the category test alone and an empty category leaves the text
    test alone. *)
Theorem unset_fields_pass_through :
  (forall st r, deref (snd (filteredCollections r "" "" st))
                      (fst (filteredCollections r "" "" st)) = deref st r)
  /\ (forall st r, deref (snd (filteredProtocols r "" "" st))
                         (fst (filteredProtocols r "" "" st)) = deref st r)
  /\ (forall A (name category : A -> string) selectedCategory item,
        matches name category "" selectedCategory item
        = (negb (truthy selectedCategory)
           || (category item =? selectedCategory)%string)%bool)
  /\ (forall A (name category : A -> string) searchTerm item,
        matches name category searchTerm "" item
        = includes (toLowerCase (name item)) (toLowerCase searchTerm)).
Proof.
  repeat split.
  - intros st r. unfold filteredCollections, filterArr, alloc. cbn [fst snd].
    rewrite deref_alloc_new. apply filter_all. intros x. apply matches_unset.
  - intros st r. unfold filteredProtocols, filterArr, alloc. cbn [fst snd].
    rewrite deref_alloc_new. apply filter_all. intros x. apply matches_unset.
  - intros A name category c item. unfold matches. cbn [toLowerCase].
    now rewrite includes_empty.
  - intros A name category q item. unfold matches. cbn [truthy negb orb].
    now rewrite andb_true_r.
Qed.







(** A name that contains the term in its middle is kept as well: the test
    is on substrings, not on the start of the name. *)
Lemma inner_match_is_kept :
  List.filter (matches project_name project_category "sol" "")
    [ {| project_id := "1"; project_name := "Serum"; project_category := "DEX";
         score := 88; change := 5.2 |};
      {| project_id := "2"; project_name := "MariSOL Finance";
         project_category := "Staking"; score := 82; change := 2.1 |} ]
  = [ {| project_id := "2"; project_name := "MariSOL Finance";
         project_category := "Staking"; score := 82; change := 2.1 |} ].
Proof. reflexivity. Qed.

End Filters.

(* ------------------------------------------------------------------ *)
(** ** Sorting and the array store *)

Section Sorting.
Import JS.
Context {A : Type} (cmp : A -> A -> Z).

Lemma insertSorted_perm x l : Permutation (insertSorted cmp x l) (x :: l).
Proof.
  induction l as [|y l IH]; cbn.
  - apply Permutation_refl.
  - destruct (cmp x y <=? 0).
    + apply Permutation_refl.
    + eapply perm_trans; [apply perm_skip, IH | apply perm_swap].
Qed.

Lemma sort_perm l : Permutation (sort cmp l) l.
Proof.
  induction l as [|x l IH]; cbn.
  - constructor.
  - eapply perm_trans; [apply insertSorted_perm | apply perm_skip, IH].
Qed.

Hypothesis cmp_total : forall a b, 0 < cmp a b -> cmp b a <= 0.

Lemma insertSorted_sorted x l :
  Sorted (fun a b => cmp a b <= 0) l ->
  Sorted (fun a b => cmp a b <= 0) (insertSorted cmp x l).
Proof.
  induction 1 as [|y l Hs IH Hhd]; cbn.
  - repeat constructor.
  - destruct (Z.leb_spec (cmp x y) 0) as [Hle|Hgt].
    + repeat constructor; assumption.
    + constructor; [exact IH|].
      destruct Hhd as [|z l Hyz]; cbn.
      * constructor. now apply cmp_total.
      * destruct (cmp x z <=? 0); constructor; auto.
Qed.

Lemma sort_sorted l : Sorted (fun a b => cmp a b <= 0) (sort cmp l).
Proof.
  induction l as [|x l IH]; cbn.
  - constructor.
  - now apply insertSorted_sorted.
Qed.

End Sorting.

Section ArrayStore.
Import JS.
Context {A : Type}.
Implicit Types (st : Store A) (a : list A) (r : ref).

Lemma length_assign r a st : List.length (assign r a st) = List.length st.
Proof.
  revert r. induction st as [|b st IH]; intros [|r]; cbn; auto.
Qed.

Lemma deref_assign_same r a st :
  (r < List.length st)%nat -> deref (assign r a st) r = a.
Proof.
  unfold deref. revert r. induction st as [|b st IH]; intros [|r] H; cbn in *; try lia.
  - reflexivity.
  - apply IH. lia.
Qed.

Lemma deref_assign_other r r' a st :
  r <> r' -> deref (assign r a st) r' = deref st r'.
Proof.
  unfold deref. revert r r'.
  induction st as [|b st IH]; intros [|r] [|r'] H; cbn; try reflexivity; try congruence.
  apply IH. congruence.
Qed.

Lemma filter_filter (p q : A -> bool) (l : list A) :
  List.filter q (List.filter p l) = List.filter (fun x => (p x && q x)%bool) l.
Proof.
  induction l as [|x l IH]; cbn; [reflexivity|].
  destruct (p x); cbn; [destruct (q x)|]; now rewrite IH.
Qed.

Lemma filter_subseq (p : A -> bool) (l : list A) : subseq (List.filter p l) l.
Proof.
  induction l as [|x l IH]; cbn.
  - constructor.
  - destruct (p x); now constructor.
Qed.

End ArrayStore.

Section FilterResults.
Import JS LocalDb SolanaViews.

Ltac store_simpl :=
  repeat first
    [ rewrite deref_alloc_new
    | rewrite deref_assign_same by (repeat rewrite length_app; cbn; lia)
    | rewrite deref_assign_other by (repeat rewrite length_app; cbn; lia)
    | rewrite deref_alloc_old by (repeat rewrite length_app; cbn; lia) ].

Lemma filteredSignals_content signals searchQuery filterType st :
  deref (snd (SignalHistory.filteredSignals signals searchQuery filterType st))
        (fst (SignalHistory.filteredSignals signals searchQuery filterType st))
  = sort (fun a b => timestamp b - timestamp a)
         (List.filter (SignalHistory_keeps searchQuery filterType) (deref st signals)).
Proof.
  unfold SignalHistory.filteredSignals, SignalHistory_keeps, bind, ret, spread,
    filterArr, sortArr, alloc.
  destruct (truthy searchQuery), (filterType =? "all")%string; cbn [negb fst snd orb andb];
    store_simpl; f_equal.
  - apply filter_ext. intros s. now rewrite andb_true_r.
  - apply filter_filter.
  - symmetry. now apply filter_all.
Qed.

Lemma filteredSignals_frame signals searchQuery filterType st r :
  (r < List.length st)%nat ->
  deref (snd (SignalHistory.filteredSignals signals searchQuery filterType st)) r
  = deref st r.
Proof.
  intros Hr.
  unfold SignalHistory.filteredSignals, bind, ret, spread, filterArr, sortArr, alloc.
  destruct (truthy searchQuery), (filterType =? "all")%string; cbn [negb fst snd];
    store_simpl; reflexivity.
Qed.

End FilterResults.

Section FilterClaims.
Import JS LocalDb SolanaViews.

Lemma filterArr_content {A} (p : A -> bool) r (st : Store A) :
  deref (snd (filterArr p r st)) (fst (filterArr p r st)) = List.filter p (deref st r).
Proof. unfold filterArr, alloc. cbn [fst snd]. apply deref_alloc_new. Qed.

Lemma filterArr_frame {A} (p : A -> bool) r (st : Store A) r' :
  (r' < List.length st)%nat -> deref (snd (filterArr p r st)) r' = deref st r'.
Proof. intros H. unfold filterArr, alloc. cbn [fst snd]. now apply deref_alloc_old. Qed.

Lemma timestamp_order_total (a b : Signal) :
  0 < (fun a b => timestamp b - timestamp a) a b ->
  (fun a b => timestamp b - timestamp a) b a <= 0.
Proof. cbv beta. lia. Qed.

(** Claim C5, as the code has it.  [filteredProtocols] and
    [filteredCollections] return a subsequence of the collection, in the
    original relative order.  [filteredSignals] returns the signals that
    pass its filters ordered by descending timestamp: a permutation of
    that subsequence.  In all three the content of the result is a
    function of the content of the collection and of the two predicate
    fields, and every array that existed before the call, the collection
    included, has the same content afterwards. *)
Theorem filters_select_without_mutation :
  (forall (st : Store DefiProtocol) protocols searchTerm selectedCategory,
     let out := filteredProtocols protocols searchTerm selectedCategory st in
     deref (snd out) (fst out)
     = List.filter (matches defi_name defi_category searchTerm selectedCategory)
                   (deref st protocols)
     /\ subseq (deref (snd out) (fst out)) (deref st protocols)
     /\ (forall r, (r < List.length st)%nat -> deref (snd out) r = deref st r))
  /\ (forall (st : Store NftCollection) collections searchTerm selectedCategory,
     let out := filteredCollections collections searchTerm selectedCategory st in
     deref (snd out) (fst out)
     = List.filter (matches nft_name nft_category searchTerm selectedCategory)
                   (deref st collections)
     /\ subseq (deref (snd out) (fst out)) (deref st collections)
     /\ (forall r, (r < List.length st)%nat -> deref (snd out) r = deref st r))
  /\ (forall (st : Store Signal) signals searchQuery filterType,
     let out := SignalHistory.filteredSignals signals searchQuery filterType st in
     let kept := List.filter (SignalHistory_keeps searchQuery filterType)
                             (deref st signals) in
     deref (snd out) (fst out) = sort (fun a b => timestamp b - timestamp a) kept
     /\ Permutation (deref (snd out) (fst out)) kept
     /\ subseq kept (deref st signals)
     /\ Sorted (fun a b => timestamp b <= timestamp a) (deref (snd out) (fst out))
     /\ (forall r, (r < List.length st)%nat -> deref (snd out) r = deref st r))
  /\ (forall (st1 st2 : Store DefiProtocol) r1 r2 searchTerm selectedCategory,
     deref st1 r1 = deref st2 r2 ->
     let out1 := filteredProtocols r1 searchTerm selectedCategory st1 in
     let out2 := filteredProtocols r2 searchTerm selectedCategory st2 in
     deref (snd out1) (fst out1) = deref (snd out2) (fst out2))
  /\ (forall (st1 st2 : Store Signal) r1 r2 searchQuery filterType,
     deref st1 r1 = deref st2 r2 ->
     let out1 := SignalHistory.filteredSignals r1 searchQuery filterType st1 in
     let out2 := SignalHistory.filteredSignals r2 searchQuery filterType st2 in
     deref (snd out1) (fst out1) = deref (snd out2) (fst out2)).
Proof.
  split; [|split; [|split; [|split]]];
    [| | | intros st1 st2 r1 r2 q c E out1 out2; subst out1 out2;
           unfold filteredProtocols; now rewrite !filterArr_content, E
         | intros st1 st2 r1 r2 q t E out1 out2; subst out1 out2;
           now rewrite !filteredSignals_content, E ].
  - intros st protocols q c out. subst out. unfold filteredProtocols.
    rewrite filterArr_content. split; [reflexivity|]. split.
    + apply filter_subseq.
    + intros r Hr. now apply filterArr_frame.
  - intros st collections q c out. subst out. unfold filteredCollections.
    rewrite filterArr_content. split; [reflexivity|]. split.
    + apply filter_subseq.
    + intros r Hr. now apply filterArr_frame.
  - intros st signals q t out kept. subst out kept.
    rewrite filteredSignals_content. split; [reflexivity|]. split; [|split; [|split]].
    + apply sort_perm.
    + apply filter_subseq.
    + pose proof (sort_sorted (fun a b : Signal => timestamp b - timestamp a)
                    timestamp_order_total
                    (List.filter (SignalHistory_keeps q t) (deref st signals))) as Hs.
      induction Hs as [|a l _ IH Hhd]; constructor; [exact IH|].
      destruct Hhd as [|b l' Hab]; constructor. cbv beta in Hab. lia.
    + intros r Hr. now apply filteredSignals_frame.
Qed.

(** The signals of the service are already newest first: the history view
    shows them in the same order and leaves the fetched array as it was. *)
Lemma filters_select_without_mutation_recent :
  let st := [getRecentSignals 1000000000 5] in
  let out := SignalHistory.filteredSignals O "" "all" st in
  deref (snd out) (fst out) = getRecentSignals 1000000000 5
  /\ deref (snd out) O = deref st O.
Proof.
  destruct filters_select_without_mutation as (_ & _ & H & _).
  specialize (H [getRecentSignals 1000000000 5] O "" "all").
  cbv zeta in H. destruct H as (H1 & _ & _ & _ & H2).
  split.
  - rewrite H1. vm_compute. reflexivity.
  - apply H2. cbn. lia.
Defined.

(** The signals of the history view come back newest first, whatever
    their order in the collection. *)
Lemma filteredSignals_reorders :
  let older := {| signal_id := "1"; asset := "BTC"; signal_type := "trend";
                  strength := 85; timestamp := 1000 |} in
  let newer := {| signal_id := "2"; asset := "ETH"; signal_type := "momentum";
                  strength := 72; timestamp := 2000 |} in
  let out := SignalHistory.filteredSignals O "" "all" [[older; newer]] in
  deref (snd out) (fst out) = [newer; older]
  /\ ~ subseq (deref (snd out) (fst out)) (deref [[older; newer]] O).
Proof.
  cbv zeta. split; [vm_compute; reflexivity|].
  intros H. vm_compute in H.
  inversion H as [| x a b H1 | ]; subst.
  inversion H1 as [| x a b H2 | x a b H2 ]; subst; inversion H2.
Qed.

End FilterClaims.

(* ------------------------------------------------------------------ *)
(** ** Charts *)

Section ChartFacts.
Import JS Chart.

Lemma thinTicks_eq keep tag attrs text kids i :
  thinTicks keep (Element tag attrs text kids) i
  = (let self := isTick (Element tag attrs text kids) in
     let '(kids', i2) := thinTicksList keep kids (if self then S i else i) in
     (if (self && negb (keep i))%bool then None
      else Some (Element tag attrs text kids'), i2)).
Proof.
  cbn [thinTicks].
  set (start := if isTick (Element tag attrs text kids) then S i else i).
  clearbody start. cbv zeta.
  match goal with
  | |- context [(fix go l j {struct l} := _) kids start] =>
      assert (E : forall l j, (fix go l j {struct l} :=
                 match l with
                 | [] => ([], j)
                 | k :: r =>
                     let '(k', j1) := thinTicks keep k j in
                     let '(r', j2) := go r j1 in
                     (match k' with Some x => x :: r' | None => r' end, j2)
                 end) l j = thinTicksList keep l j)
  end.
  { induction l as [|k r IH]; intros j; cbn [thinTicksList]; [reflexivity|].
    destruct (thinTicks keep k j) as [k' j1]. rewrite IH. reflexivity. }
  rewrite E. reflexivity.
Qed.

Lemma thin_leaf keep tag attrs text i :
  isTick (Element tag attrs text []) = false ->
  thinTicks keep (Element tag attrs text []) i = (Some (Element tag attrs text []), i).
Proof. intros E. rewrite thinTicks_eq, E. reflexivity. Qed.

Lemma thin_tick keep textAttrs label i :
  thinTicks keep (tick textAttrs label) i
  = (if keep i then Some (tick textAttrs label) else None, S i).
Proof.
  unfold tick. rewrite thinTicks_eq.
  change (isTick (Element "g" [("class", Str "tick")] ""
            [Element "line" [] "" []; Element "text" textAttrs label []])) with true.
  cbv zeta. cbn [thinTicksList].
  rewrite thin_leaf by reflexivity. rewrite thin_leaf by reflexivity.
  cbn [andb]. destruct (keep i); reflexivity.
Qed.

Lemma thin_tick_list k textAttrs labels : forall i,
  thinTicksList (fun i => (i mod k =? 0)%nat) (map (tick textAttrs) labels) i
  = (map (tick textAttrs) (everyNth k i labels), (i + List.length labels)%nat).
Proof.
  induction labels as [|x labels IH]; intros i; cbn [map thinTicksList everyNth List.length].
  - now rewrite Nat.add_0_r.
  - rewrite thin_tick, IH.
    replace (S i + List.length labels)%nat with (i + S (List.length labels))%nat by lia.
    destruct (i mod k =? 0)%nat; reflexivity.
Qed.

Lemma thin_axis k name q textAttrs labels i :
  thinTicks (fun i => (i mod k =? 0)%nat)
            (axisGroup [(name, Num q)] textAttrs labels) i
  = (Some (axisGroup [(name, Num q)] textAttrs (everyNth k i labels)),
     (i + List.length labels)%nat).
Proof.
  unfold axisGroup. rewrite thinTicks_eq.
  assert (E : isTick (Element "g" [(name, Num q)] ""
                (Element "path" [("class", Str "domain")] "" []
                 :: map (tick textAttrs) labels)) = false).
  { unfold isTick, hasTag, hasClass. cbn. reflexivity. }
  rewrite E. cbv zeta. cbn [thinTicksList]. rewrite thin_leaf by reflexivity.
  rewrite thin_tick_list. reflexivity.
Qed.

(** The labels an X axis of [n] points keeps. *)
Lemma adjustTickDensity_axis n w attrs name q textAttrs labels :
  adjustTickDensity n
    {| clientWidth := w;
       children := [Element "svg" attrs ""
                      [axisGroup [(name, Num q)] textAttrs labels]] |}
  = {| clientWidth := w;
       children := [Element "svg" attrs ""
                      [axisGroup [(name, Num q)] textAttrs
                         (if (30 <? n)%nat then everyNth 3 0 labels
                          else if (14 <? n)%nat then everyNth 2 0 labels
                          else labels)]] |}.
Proof.
  unfold adjustTickDensity, removeTicksUnless.
  destruct (30 <? n)%nat; [|destruct (14 <? n)%nat]; try reflexivity;
    cbn [clientWidth children thinTicksList]; rewrite thinTicks_eq;
    change (isTick (Element "svg" attrs "" _)) with false;
    cbv zeta; cbn [thinTicksList andb]; rewrite thin_axis; reflexivity.
Qed.

Lemma tickLabels_axis tr textAttrs labels :
  match axisGroup tr textAttrs labels with
  | Element _ _ _ kids => flat_map tickLabel kids
  end = labels.
Proof.
  unfold axisGroup. cbn [flat_map].
  change (tickLabel (Element "path" [("class", Str "domain")] "" [])) with (@nil string).
  cbn [app]. induction labels as [|x labels IH]; cbn [map flat_map]; [reflexivity|].
  rewrite IH. reflexivity.
Qed.

Lemma succ_mod i k : (0 < k)%nat ->
  (S i mod k = if (S (i mod k) =? k)%nat then 0 else S (i mod k))%nat.
Proof.
  intros Hk. pose proof (Nat.mod_upper_bound i k ltac:(lia)) as Hi.
  pose proof (Nat.div_mod_eq i k) as Hd.
  destruct (Nat.eqb_spec (S (i mod k)) k) as [E|E].
  - symmetry. apply (Nat.mod_unique (S i) k (S (i / k)) 0); lia.
  - symmetry. apply (Nat.mod_unique (S i) k (i / k) (S (i mod k))); lia.
Qed.

Lemma everyNth_nth_error k l : (0 < k)%nat -> forall i j,
  nth_error (everyNth k i l) j = nth_error l (((k - i mod k) mod k) + k * j).
Proof.
  intros Hk. induction l as [|x l IH]; intros i j.
  - cbn. destruct j, (_ + _)%nat; reflexivity.
  - cbn [everyNth].
    pose proof (Nat.mod_upper_bound i k ltac:(lia)) as Hi.
    pose proof (succ_mod i k Hk) as HS.
    destruct (Nat.eqb_spec (i mod k) 0) as [E|E].
    + rewrite E, Nat.sub_0_r, Nat.Div0.mod_same. cbn [Nat.add].
      destruct j as [|j].
      * rewrite Nat.mul_0_r. reflexivity.
      * cbn [nth_error]. rewrite IH, HS, E.
        replace (k * S j)%nat with (S ((k - 1) + k * j))%nat by lia.
        cbn [nth_error].
        destruct (Nat.eqb_spec 1 k) as [E1|E1].
        -- subst k. reflexivity.
        -- now rewrite (Nat.mod_small (k - 1) k) by lia.
    + rewrite IH, HS.
      rewrite (Nat.mod_small (k - i mod k) k) by lia.
      destruct (Nat.eqb_spec (S (i mod k)) k) as [E1|E1].
      * rewrite Nat.sub_0_r, Nat.Div0.mod_same.
        replace (k - i mod k)%nat with 1%nat by lia. reflexivity.
      * rewrite (Nat.mod_small (k - S (i mod k)) k) by lia.
        replace (k - i mod k + k * j)%nat with (S (k - S (i mod k) + k * j))%nat by lia.
        reflexivity.
Qed.

(** [everyNth k 0 l] lists the elements of [l] at the positions 0, [k],
    [2k], ... *)
Lemma everyNth_positions k l j : (0 < k)%nat ->
  nth_error (everyNth k 0 l) j = nth_error l (k * j).
Proof.
  intros Hk. rewrite everyNth_nth_error by exact Hk.
  now rewrite Nat.Div0.mod_0_l, Nat.sub_0_r, Nat.Div0.mod_same.
Qed.

End ChartFacts.

Section ChartClaims.
Import JS Chart.
Variable axisLeftLabels : Q -> Q -> Z -> list string.

Lemma count_eq p tag attrs text kids :
  count p (Element tag attrs text kids)
  = ((if p (Element tag attrs text kids) then 1 else 0)
     + fold_right (fun n acc => count p n + acc) 0 kids)%nat.
Proof.
  reflexivity.
Qed.

Lemma count_bars_axis tr textAttrs labels :
  count isBar (axisGroup tr textAttrs labels) = O.
Proof.
  unfold axisGroup. rewrite count_eq.
  change (isBar (Element "g" tr "" _)) with false.
  cbn [fold_right]. rewrite count_eq.
  change (isBar (Element "path" [("class", Str "domain")] "" [])) with false.
  cbn [fold_right Nat.add].
  induction labels as [|x labels IH]; cbn [map fold_right]; [reflexivity|].
  rewrite IH. unfold tick. rewrite !count_eq. cbn [fold_right].
  rewrite !count_eq. reflexivity.
Qed.

Lemma count_bars_rects {D} (attrsOf : D -> list (string * attr)) (data : list D) :
  fold_right (fun n acc => (count isBar n + acc)%nat) O
    (map (fun d => Element "rect" (("class", Str "bar") :: attrsOf d) "" []) data)
  = List.length data.
Proof.
  induction data as [|d data IH]; cbn [map fold_right List.length]; [reflexivity|].
  rewrite IH, count_eq. reflexivity.
Qed.

Lemma fold_count_app p (l1 l2 : list node) :
  fold_right (fun n acc => (count p n + acc)%nat) O (l1 ++ l2)
  = (fold_right (fun n acc => (count p n + acc)%nat) O l1
     + fold_right (fun n acc => (count p n + acc)%nat) O l2)%nat.
Proof.
  induction l1 as [|x l1 IH]; cbn [app fold_right]; [reflexivity|]. rewrite IH. lia.
Qed.

(** The drawing made by [initVolumeChart] for a series that is not empty. *)
Lemma initVolumeChart_drawing trendData c :
  trendData <> [] ->
  exists svgAttrs xTransform yAxis barAttrs,
    initVolumeChart axisLeftLabels trendData (Some c)
    = Some {| clientWidth := clientWidth c;
              children :=
                [ Element "svg" svgAttrs ""
                    ([ axisGroup [("transform", Num xTransform)]
                         (xTextAttrs (List.length trendData))
                         (if (30 <? List.length trendData)%nat
                          then everyNth 3 0 (dedupe [] (map nft_date trendData))
                          else if (14 <? List.length trendData)%nat
                          then everyNth 2 0 (dedupe [] (map nft_date trendData))
                          else dedupe [] (map nft_date trendData)) ]
                     ++ [yAxis]
                     ++ map (fun d => Element "rect" (("class", Str "bar") :: barAttrs d) "" [])
                            trendData) ] |}
    /\ count isBar yAxis = O.
Proof.
  intros Hne. destruct trendData as [|d ds]; [congruence|].
  unfold initVolumeChart. cbn [List.length Nat.eqb removeAll clientWidth children].
  unfold appendToSvg at 3. cbn [clientWidth children app].
  rewrite adjustTickDensity_axis.
  unfold appendToSvg. cbn [clientWidth children app].
  do 4 eexists. split; [reflexivity|]. apply count_bars_axis.
Qed.

Lemma initFloorPriceChart_drawing trendData c :
  trendData <> [] ->
  exists svgAttrs xTransform rest,
    initFloorPriceChart axisLeftLabels trendData (Some c)
    = Some {| clientWidth := clientWidth c;
              children :=
                [ Element "svg" svgAttrs ""
                    (axisGroup [("transform", Num xTransform)]
                       (xTextAttrs (List.length trendData))
                       (if (30 <? List.length trendData)%nat
                        then everyNth 3 0 (dedupe [] (map nft_date trendData))
                        else if (14 <? List.length trendData)%nat
                        then everyNth 2 0 (dedupe [] (map nft_date trendData))
                        else dedupe [] (map nft_date trendData))
                     :: rest) ] |}.
Proof.
  intros Hne. destruct trendData as [|d ds]; [congruence|].
  unfold initFloorPriceChart. cbn [List.length Nat.eqb removeAll clientWidth children].
  unfold appendToSvg at 4. cbn [clientWidth children app].
  rewrite adjustTickDensity_axis.
  unfold appendToSvg. cbn [clientWidth children app].
  do 3 eexists. reflexivity.
Qed.

Lemma initVolumeChart_width_only trendData c c' :
  trendData <> [] -> clientWidth c = clientWidth c' ->
  initVolumeChart axisLeftLabels trendData (Some c)
  = initVolumeChart axisLeftLabels trendData (Some c').
Proof.
  intros Hne Hw. destruct trendData as [|d ds]; [congruence|].
  unfold initVolumeChart. cbn [List.length Nat.eqb removeAll clientWidth].
  rewrite Hw. reflexivity.
Qed.

Lemma initVolumeChart_again trendData chartRef :
  initVolumeChart axisLeftLabels trendData
    (initVolumeChart axisLeftLabels trendData chartRef)
  = initVolumeChart axisLeftLabels trendData chartRef.
Proof.
  destruct chartRef as [c|]; [|reflexivity].
  destruct trendData as [|d ds]; [reflexivity|].
  destruct (initVolumeChart_drawing (d :: ds) c ltac:(discriminate))
    as (svgAttrs & xTransform & yAxis & barAttrs & E & _).
  assert (Ho : exists out, initVolumeChart axisLeftLabels (d :: ds) (Some c) = Some out
                           /\ clientWidth out = clientWidth c)
    by (eexists; split; [exact E | reflexivity]).
  clear E. destruct Ho as (out & Eo & Hw). rewrite Eo.
  transitivity (initVolumeChart axisLeftLabels (d :: ds) (Some c)); [|exact Eo].
  apply initVolumeChart_width_only; [discriminate | exact Hw].
Qed.

Lemma initSignalTrendChart_again data chartRef :
  initSignalTrendChart axisLeftLabels data
    (initSignalTrendChart axisLeftLabels data chartRef)
  = initSignalTrendChart axisLeftLabels data chartRef.
Proof.
  destruct chartRef as [c|]; [|reflexivity].
  unfold initSignalTrendChart. cbn [removeAll clientWidth]. reflexivity.
Qed.

(** Claim C6, as the code has it.  [initSignalTrendChart] (dashboard)
    always, and [initVolumeChart] (NFT view) for a series that is not empty,
    draw as if the container had been emptied first: nothing of a previous
    drawing is left.  For every series and container, drawing twice in a
    row gives the same tree as drawing once, hence the same number of
    elements of any kind; the volume chart has one bar per point. *)
Theorem redraw_is_idempotent :
  (forall trendData c, trendData <> [] ->
     initVolumeChart axisLeftLabels trendData (Some c)
     = initVolumeChart axisLeftLabels trendData (Some (removeAll c)))
  /\ (forall data c,
     initSignalTrendChart axisLeftLabels data (Some c)
     = initSignalTrendChart axisLeftLabels data (Some (removeAll c)))
  /\ (forall trendData chartRef,
     initVolumeChart axisLeftLabels trendData
       (initVolumeChart axisLeftLabels trendData chartRef)
     = initVolumeChart axisLeftLabels trendData chartRef)
  /\ (forall data chartRef,
     initSignalTrendChart axisLeftLabels data
       (initSignalTrendChart axisLeftLabels data chartRef)
     = initSignalTrendChart axisLeftLabels data chartRef)
  /\ (forall p trendData chartRef,
     option_map (countIn p)
       (initVolumeChart axisLeftLabels trendData
          (initVolumeChart axisLeftLabels trendData chartRef))
     = option_map (countIn p) (initVolumeChart axisLeftLabels trendData chartRef))
  /\ (forall p data chartRef,
     option_map (countIn p)
       (initSignalTrendChart axisLeftLabels data
          (initSignalTrendChart axisLeftLabels data chartRef))
     = option_map (countIn p) (initSignalTrendChart axisLeftLabels data chartRef))
  /\ (forall trendData c, trendData <> [] ->
     option_map (countIn isBar) (initVolumeChart axisLeftLabels trendData (Some c))
     = Some (List.length trendData)).
Proof.
  split; [|split; [|split; [|split; [|split; [|split]]]]].
  - intros trendData c Hne. now apply initVolumeChart_width_only.
  - intros data c. unfold initSignalTrendChart. cbn [removeAll clientWidth]. reflexivity.
  - apply initVolumeChart_again.
  - apply initSignalTrendChart_again.
  - intros p trendData chartRef. now rewrite initVolumeChart_again.
  - intros p data chartRef. now rewrite initSignalTrendChart_again.
  - intros trendData c Hne.
    destruct (initVolumeChart_drawing trendData c Hne)
      as (svgAttrs & xTransform & yAxis & barAttrs & E & Hy).
    rewrite E. cbn [option_map]. f_equal.
    unfold countIn. cbn [children fold_right]. rewrite count_eq.
    change (isBar (Element "svg" svgAttrs "" _)) with false.
    rewrite !fold_count_app. cbn [fold_right].
    rewrite count_bars_axis, Hy, count_bars_rects. lia.
Qed.

Lemma axisTickLabels_first w svgAttrs tr textAttrs labels rest :
  axisTickLabels 0 {| clientWidth := w;
                      children := [Element "svg" svgAttrs ""
                                     (axisGroup tr textAttrs labels :: rest)] |}
  = labels.
Proof.
  unfold axisTickLabels. cbn [children nth_error].
  apply tickLabels_axis.
Qed.

(** Claim C7.  On the X axis of the two charts of the NFT view, a series
    of more than 30 points keeps the tick labels at positions 0, 3, 6, ...
    (every third), a series of 15 to 30 points keeps those at positions
    0, 2, 4, ... (every second), and a series of at most 14 points keeps
    every label.  The labels are those of the band scale's domain, and
    [everyNth k 0] picks the positions that are multiples of [k]. *)
Theorem tick_labels_thinned trendData c :
  trendData <> [] ->
  let n := List.length trendData in
  let labels := dedupe [] (map nft_date trendData) in
  exists volume floor,
    initVolumeChart axisLeftLabels trendData (Some c) = Some volume
    /\ initFloorPriceChart axisLeftLabels trendData (Some c) = Some floor
    /\ ((30 < n)%nat ->
         axisTickLabels 0 volume = everyNth 3 0 labels
         /\ axisTickLabels 0 floor = everyNth 3 0 labels)
    /\ ((14 < n <= 30)%nat ->
         axisTickLabels 0 volume = everyNth 2 0 labels
         /\ axisTickLabels 0 floor = everyNth 2 0 labels)
    /\ ((n <= 14)%nat ->
         axisTickLabels 0 volume = labels /\ axisTickLabels 0 floor = labels)
    /\ (forall k j, (0 < k)%nat ->
         nth_error (everyNth k 0 labels) j = nth_error labels (k * j)).
Proof.
  intros Hne n labels.
  destruct (initVolumeChart_drawing trendData c Hne)
    as (va & vt & vy & vb & Ev & _).
  destruct (initFloorPriceChart_drawing trendData c Hne) as (fa & ft & fr & Ef).
  fold n labels in Ev, Ef.
  eexists. eexists. split; [exact Ev|]. split; [exact Ef|].
  cbn [app]. rewrite !axisTickLabels_first.
  split; [|split; [|split]]; [intros H | intros H | intros H |].
  4: { intros k j Hk. now apply everyNth_positions. }
  - assert (E : (30 <? n)%nat = true) by (apply Nat.ltb_lt; lia).
    rewrite E. split; reflexivity.
  - assert (E1 : (30 <? n)%nat = false) by (apply Nat.ltb_ge; lia).
    assert (E2 : (14 <? n)%nat = true) by (apply Nat.ltb_lt; lia).
    rewrite E1, E2. split; reflexivity.
  - assert (E1 : (30 <? n)%nat = false) by (apply Nat.ltb_ge; lia).
    assert (E2 : (14 <? n)%nat = false) by (apply Nat.ltb_ge; lia).
    rewrite E1, E2. split; reflexivity.
Qed.

End ChartClaims.

Section ChartExamples.
Import JS Chart.

(** Two points drawn over an earlier drawing: two bars. *)
Lemma redraw_is_idempotent_two_points :
  let series := [ {| nft_date := "11月1日"; nft_volume := 30000000; nft_floor_price := 0.7 |};
                  {| nft_date := "11月2日"; nft_volume := 31000000; nft_floor_price := 0.8 |} ] in
  let c := {| clientWidth := 800; children := [Element "svg" [] "" []] |} in
  option_map (countIn isBar) (initVolumeChart (fun _ _ _ => []) series (Some c))
  = Some 2%nat.
Proof.
  cbv zeta.
  apply (redraw_is_idempotent (fun _ _ _ => [])). discriminate.
Defined.

(** With an empty series [initVolumeChart] returns before it clears the
    container, so the previous drawing stays. *)
Lemma empty_series_keeps_previous_drawing :
  let c := {| clientWidth := 800; children := [Element "svg" [] "" []] |} in
  initVolumeChart (fun _ _ _ => []) [] (Some c) = Some c
  /\ initVolumeChart (fun _ _ _ => []) [] (Some c)
     <> initVolumeChart (fun _ _ _ => []) [] (Some (removeAll c)).
Proof.
  cbv zeta. split; [reflexivity|]. cbn. discriminate.
Qed.

(** Sixteen points labelled 1 to 16: the odd labels stay. *)
Lemma tick_labels_thinned_sixteen_points :
  let series := map (fun i => {| nft_date := numToString (Z.of_nat i);
                                 nft_volume := 1; nft_floor_price := 1 |}) (seq 1 16) in
  let c := {| clientWidth := 800; children := [] |} in
  exists volume,
    initVolumeChart (fun _ _ _ => []) series (Some c) = Some volume
    /\ axisTickLabels 0 volume = ["1"; "3"; "5"; "7"; "9"; "11"; "13"; "15"].
Proof.
  cbv zeta.
  destruct (tick_labels_thinned (fun _ _ _ => [])
              (map (fun i => {| nft_date := numToString (Z.of_nat i);
                                nft_volume := 1; nft_floor_price := 1 |}) (seq 1 16))
              {| clientWidth := 800; children := [] |} ltac:(discriminate))
    as (volume & floor & Ev & _ & _ & H & _ & _).
  exists volume. split; [exact Ev|].
  destruct H as [H _]; [cbn; lia|]. rewrite H. reflexivity.
Defined.

End ChartExamples.

(* ------------------------------------------------------------------ *)
(** ** Detail views opened with an unknown id *)

Section DetailViews.
Import JS LocalDb.
Variable shuffle : forall A : Type, list A -> Rand (list A).

Lemma bind_run {S A B} (m : state S A) (k : A -> state S B) (s : S) :
  bind m k s = k (fst (m s)) (snd (m s)).
Proof. unfold bind. destruct (m s). reflexivity. Qed.

Lemma historyLoop_length today : forall r i history g,
  List.length (fst (SignalDetail.historyLoop today r i history g))
  = (List.length history + r)%nat.
Proof.
  induction r as [|r IH]; intros i history g.
  - cbn. lia.
  - cbn [SignalDetail.historyLoop]. rewrite !bind_run. rewrite IH, length_app.
    cbn [List.length]. lia.
Qed.

(** Claim C9, as the code has it.  When no entity has the id of the route,
    neither detail view sets an error.  The project view shows the first
    project of the list, enhanced, or the generated default project when
    the list is empty, together with the related projects generated for
    it.  The signal view shows the first signal of a list that is not
    empty, with everything the panel reads: the related assets, four
    indicators, a market sentiment and seven history entries, generated in
    this order.  With an empty list the signal view has no default: it
    keeps the signal and the sentiment it had and, when it had none,
    displays the text for a missing signal. *)
Theorem unknown_id_falls_back today routeId (projects : list Project)
    (first : Signal) (rest : list Signal) v w g :
  find (fun p => (project_id p =? routeId)%string) projects = None ->
  find (fun s => (signal_id s =? routeId)%string) (first :: rest) = None ->
  let v' := fst (ProjectDetail.loadProjectDetail shuffle routeId (Fulfilled projects) v g) in
  let w' := fst (SignalDetail.loadSignalDetail shuffle today routeId
                   (Fulfilled (first :: rest)) w g) in
  let w0 := fst (SignalDetail.loadSignalDetail shuffle today routeId (Fulfilled []) w g) in
  let chosen := match projects with
                | p :: _ => ProjectDetail.enhanceProjectData p g
                | [] => (ProjectDetail.generateDefaultProject, g)
                end in
  let ra := SignalDetail.generateRelatedAssets shuffle (asset first) g in
  let ti := SignalDetail.generateTechnicalIndicators (snd ra) in
  let ms := SignalDetail.generateMarketSentiment (snd ti) in
  let hs := SignalDetail.generateHistoricalSignals today (asset first) (snd ms) in
  (ProjectDetail.error v' = "" /\ ProjectDetail.isLoading v' = false
   /\ ProjectDetail.template v' = ProjectDetail.DetailPanel
   /\ ProjectDetail.project v' = Some (fst chosen)
   /\ ProjectDetail.relatedProjects v'
      = fst (ProjectDetail.generateRelatedProjects shuffle (fst chosen) (snd chosen)))
  /\ (SignalDetail.error w' = "" /\ SignalDetail.isLoading w' = false
      /\ SignalDetail.template w' = SignalDetail.DetailPanel
      /\ SignalDetail.signal w' = Some first
      /\ SignalDetail.relatedAssets w' = fst ra
      /\ SignalDetail.technicalIndicators w' = fst ti
      /\ SignalDetail.marketSentiment w' = Some (fst ms)
      /\ SignalDetail.historicalSignals w' = fst hs
      /\ List.length (SignalDetail.technicalIndicators w') = 4%nat
      /\ List.length (SignalDetail.historicalSignals w') = 7%nat)
  /\ (SignalDetail.error w0 = "" /\ SignalDetail.isLoading w0 = false
      /\ SignalDetail.signal w0 = SignalDetail.signal w
      /\ SignalDetail.marketSentiment w0 = SignalDetail.marketSentiment w
      /\ (SignalDetail.signal w = None ->
          SignalDetail.template w0 = SignalDetail.MissingText)).
Proof.
  intros Hp Hs v' w' w0 chosen ra ti ms hs. split; [|split].
  - subst v' chosen. unfold ProjectDetail.loadProjectDetail. rewrite Hp.
    destruct projects as [|p others]; rewrite !bind_run; unfold ret;
      cbn [fst snd ProjectDetail.error ProjectDetail.isLoading ProjectDetail.project
           ProjectDetail.relatedProjects];
      unfold ProjectDetail.template;
      cbn [fst snd ProjectDetail.error ProjectDetail.isLoading ProjectDetail.project
           truthy];
      repeat split.
  - subst w' ra ti ms hs. unfold SignalDetail.loadSignalDetail. unfold find in Hs |- *.
    rewrite Hs. rewrite bind_run. unfold ret at 1.
    unfold SignalDetail.showSignal. rewrite !bind_run. unfold ret.
    cbn [fst snd SignalDetail.error SignalDetail.isLoading SignalDetail.signal
         SignalDetail.relatedAssets SignalDetail.technicalIndicators
         SignalDetail.marketSentiment SignalDetail.historicalSignals].
    unfold SignalDetail.template.
    cbn [fst snd SignalDetail.error SignalDetail.isLoading SignalDetail.signal truthy].
    split; [reflexivity|]. split; [reflexivity|]. split; [reflexivity|].
    split; [reflexivity|]. split; [reflexivity|]. split; [reflexivity|].
    split; [reflexivity|]. split; [reflexivity|]. split.
    + unfold SignalDetail.generateTechnicalIndicators. rewrite !bind_run. reflexivity.
    + unfold SignalDetail.generateHistoricalSignals. now rewrite historyLoop_length.
  - subst w0. unfold SignalDetail.loadSignalDetail, SignalDetail.template. cbn.
    repeat split. intros ->. reflexivity.
Qed.

End DetailViews.

Section DetailViewExamples.
Import JS LocalDb.

(** Route id 999 matches neither a project nor a signal of the service. *)
Lemma unknown_id_falls_back_on_999 :
  let g := {| oracle := fun _ => 0%Q; calls := O |} in
  let v' := fst (ProjectDetail.loadProjectDetail (fun A l => ret l) "999"
                   (Fulfilled (getHotProjects 10)) ProjectDetail.initial g) in
  let w' := fst (SignalDetail.loadSignalDetail (fun A l => ret l) 20759 "999"
                   (Fulfilled (getRecentSignals 1793577600000 50))
                   SignalDetail.initial g) in
  option_map ProjectDetail.name (ProjectDetail.project v') = Some "Solana"
  /\ option_map asset (SignalDetail.signal w') = Some "BTC"
  /\ List.length (SignalDetail.historicalSignals w') = 7%nat.
Proof.
  cbv zeta.
  destruct (unknown_id_falls_back (fun A l => ret l) 20759 "999"
              (getHotProjects 10)
              {| signal_id := "1"; asset := "BTC"; signal_type := "trend"; strength := 85;
                 timestamp := 1793577600000 |}
              (skipn 1 (getRecentSignals 1793577600000 50))
              ProjectDetail.initial SignalDetail.initial
              {| oracle := fun _ => 0%Q; calls := O |} eq_refl eq_refl)
    as [(_ & _ & _ & Hp & _) [(_ & _ & _ & Hs & _ & _ & _ & _ & _ & Hh) _]].
  split; [rewrite Hp; reflexivity|].
  split; [exact (f_equal (option_map asset) Hs)|exact Hh].
Defined.

(** With an empty list of signals there is nothing to fall back to: the
    view ends without a signal and displays the text for a missing one. *)
Lemma empty_signal_list_has_no_default :
  let w' := fst (SignalDetail.loadSignalDetail (fun A l => ret l) 20759 "999"
                   (Fulfilled []) SignalDetail.initial
                   {| oracle := fun _ => 0%Q; calls := O |}) in
  find (fun s => (signal_id s =? "999")%string) [] = None
  /\ SignalDetail.signal w' = None
  /\ SignalDetail.error w' = ""
  /\ SignalDetail.template w' = SignalDetail.MissingText.
Proof. cbv zeta. repeat split. Qed.

End DetailViewExamples.

(* ------------------------------------------------------------------ *)
(** ** The payment store *)

Section PaymentStoreInvariant.
Import JS PaymentStore.

Lemma methodIds_filter_other i (l : list PaymentMethod) d :
  In (id d) (map id l) -> (id d =? i)%string = false ->
  In (id d) (map id (List.filter (fun m => negb (id m =? i)%string) l)).
Proof.
  intros Hin Hne. apply in_map_iff in Hin. destruct Hin as (m & Hm & Hin).
  apply in_map_iff. exists m. split; [exact Hm|].
  apply filter_In. split; [exact Hin|]. now rewrite Hm, Hne.
Qed.

Lemma map_id_set_default i (l : list PaymentMethod) :
  map id (map (fun method =>
                 {| id := id method; user_id := user_id method;
                    type := type method; provider := provider method;
                    last_four := last_four method;
                    expiry_date := expiry_date method; brand := brand method;
                    is_default := (id method =? i)%string;
                    status := status method; created_at := created_at method |}) l)
  = map id l.
Proof. rewrite map_map. reflexivity. Qed.

(** Claim C10, as the code has it.  The default payment method is either
    absent or carries the id of a stored method, and every action of the
    store keeps it so, provided that the method returned by a successful
    [setDefaultPaymentMethod] has the id of a stored method (the store
    takes the reply of the service as it comes).  After a successful
    [deletePaymentMethod] no stored method has the deleted id, the other
    methods are all still there, and a default that had the deleted id is
    replaced by the first remaining method, or by none. *)
Theorem default_stays_listed a s :
  defaultListed s ->
  (forall i m, a = SetDefaultPaymentMethod i (Fulfilled m) -> In (id m) (methodIds s)) ->
  defaultListed (dispatch a s)
  /\ (forall i, a = DeletePaymentMethod i (Fulfilled tt) ->
        ~ In i (methodIds (dispatch a s))
        /\ paymentMethods (dispatch a s)
           = List.filter (fun m => negb (id m =? i)%string) (paymentMethods s)
        /\ defaultPaymentMethod (dispatch a s)
           = match defaultPaymentMethod s with
             | Some d => if (id d =? i)%string
                         then hd_error (paymentMethods (dispatch a s))
                         else Some d
             | None => None
             end).
Proof.
  intros Hinv Hset. split.
  - unfold defaultListed, methodIds in *.
    destruct a as [r | d r | i r | i r | r | r | i r | | ]; cbn [dispatch];
      try (destruct r as [x|reason]; cbn; try exact Hinv); try exact Hinv;
      try exact I.
    + destruct (find is_default x) as [d|] eqn:E; [|exact I].
      apply find_some in E. apply in_map, E.
    + destruct (_ || _)%bool.
      * rewrite map_app. apply in_or_app. right. now left.
      * destruct (defaultPaymentMethod s) as [d0|]; [|exact I].
        rewrite map_app. apply in_or_app. now left.
    + destruct (defaultPaymentMethod s) as [d|] eqn:Ed; [|exact I].
      destruct (id d =? i)%string eqn:E.
      * destruct (List.filter _ (paymentMethods s)) as [|m rest]; cbn; [exact I|].
        now left.
      * now apply methodIds_filter_other.
    + rewrite map_id_set_default. now apply (Hset i x).
  - intros i ->. cbn. repeat split.
    + unfold methodIds. cbn. intros Hin. apply in_map_iff in Hin.
      destruct Hin as (m & Hm & Hin). apply filter_In in Hin.
      destruct Hin as [_ Hne]. rewrite Hm, String.eqb_refl in Hne. discriminate.
    + destruct (defaultPaymentMethod s) as [d|]; [|reflexivity].
      destruct (id d =? i)%string; reflexivity.
Qed.

End PaymentStoreInvariant.

Section PaymentStoreExamples.
Import JS PaymentStore.

(** Deleting the default card makes the remaining wallet the default. *)
Lemma default_stays_listed_after_delete :
  let card := {| id := "pm_1"; user_id := "u1"; type := "card"; provider := "stripe";
                 last_four := "4242"; expiry_date := Some "12/27"; brand := Some "visa";
                 is_default := true; status := "active"; created_at := "2026-01-01" |} in
  let wallet := {| id := "pm_2"; user_id := "u1"; type := "wallet"; provider := "phantom";
                   last_four := "9f3c"; expiry_date := None; brand := None;
                   is_default := false; status := "active"; created_at := "2026-02-01" |} in
  let s := {| paymentMethods := [card; wallet]; payments := [];
              defaultPaymentMethod := Some card; loading := false; error := None |} in
  let s' := dispatch (DeletePaymentMethod "pm_1" (Fulfilled tt)) s in
  defaultListed s' /\ defaultPaymentMethod s' = Some wallet.
Proof.
  cbv zeta.
  match goal with
  | |- defaultListed (dispatch ?a ?s) /\ _ =>
      destruct (default_stays_listed a s) as [H1 H2]
  end.
  - cbn. now left.
  - intros i m E. discriminate E.
  - split; [exact H1|].
    destruct (H2 "pm_1" eq_refl) as (_ & _ & H3). rewrite H3. reflexivity.
Defined.

(** A reply of the service for a method the store does not hold becomes the
    default all the same. *)
Lemma setDefault_unlisted_method :
  let card := {| id := "pm_1"; user_id := "u1"; type := "card"; provider := "stripe";
                 last_four := "4242"; expiry_date := Some "12/27"; brand := Some "visa";
                 is_default := true; status := "active"; created_at := "2026-01-01" |} in
  let wallet := {| id := "pm_2"; user_id := "u1"; type := "wallet"; provider := "phantom";
                   last_four := "9f3c"; expiry_date := None; brand := None;
                   is_default := true; status := "active"; created_at := "2026-02-01" |} in
  let s := {| paymentMethods := [card]; payments := [];
              defaultPaymentMethod := Some card; loading := false; error := None |} in
  defaultListed s
  /\ ~ defaultListed (dispatch (SetDefaultPaymentMethod "pm_2" (Fulfilled wallet)) s).
Proof.
  cbv zeta. split.
  - cbn. now left.
  - cbn. intros [H|[]]. discriminate H.
Qed.

End PaymentStoreExamples.

(* ------------------------------------------------------------------ *)
(** ** Generated series: the ranges of the values *)

Section GeneratedSeries.
Import JS LocalDb.

Lemma floor_scaled (u : Q) (n : Z) :
  (0 <= u)%Q -> (u < 1)%Q -> 0 < n -> 0 <= Qfloor (u * inject_Z n) <= n - 1.
Proof.
  intros H0 H1 Hn.
  assert (Hq : (0 < inject_Z n)%Q)
    by (change 0%Q with (inject_Z 0); now rewrite <- Zlt_Qlt).
  split.
  - change 0 with (Qfloor 0). apply Qfloor_resp_le. nra.
  - assert (Qfloor (u * inject_Z n) < n); [|lia].
    rewrite Zlt_Qlt. eapply Qle_lt_trans; [apply Qfloor_le|]. nra.
Qed.

Lemma MathMax_ge_l a b : (a <= MathMax a b)%Q.
Proof.
  unfold MathMax. destruct (Qle_bool a b) eqn:E.
  - now apply Qle_bool_iff.
  - apply Qle_refl.
Qed.

Lemma chartLoop_Forall (P : ChartData -> Prop) type today
    (step : forall u d, (0 <= u)%Q -> (u < 1)%Q ->
       P (match type with
          | Signals => {| date := d; signals := Qfloor (u * 50) + 50; activity := 0 |}
          | Activity => {| date := d; signals := 0; activity := Qfloor (u * 30) + 60 |}
          end)) :
  forall k data g, unitOracle (oracle g) -> Forall P data ->
  Forall P (fst (chartLoop type today k data g)).
Proof.
  induction k as [|i IH]; intros data g Hg Hd; [exact Hd|].
  cbn [chartLoop]. unfold bind, random. apply IH; [exact Hg|].
  apply Forall_app. split; [exact Hd|]. constructor; [|constructor].
  destruct (Hg (calls g)). now apply step.
Qed.

(** With [Math.random] in [0, 1), a series of signals has values from 50
    to 99 and no activity, and a series of activity has values from 60 to
    89 and no signals. *)
Theorem chart_values_in_range today N type rnd :
  unitOracle rnd ->
  Forall (fun p => match type with
                   | Signals => 50 <= signals p <= 99 /\ activity p = 0
                   | Activity => 60 <= activity p <= 89 /\ signals p = 0
                   end)
         (run (generateTestChartData today N type) rnd).
Proof.
  intros Hr. unfold run, generateTestChartData.
  apply chartLoop_Forall; [|exact Hr|constructor].
  intros u d H0 H1. destruct type; cbn [signals activity].
  - pose proof (floor_scaled u 50 H0 H1 eq_refl) as H. unfold inject_Z in H.
    split; [lia|reflexivity].
  - pose proof (floor_scaled u 30 H0 H1 eq_refl) as H. unfold inject_Z in H.
    split; [lia|reflexivity].
Qed.

(** A week of signals drawn from an oracle that cycles through 0, 0.1, ...,
    0.9. *)
Lemma chart_values_in_range_week :
  Forall (fun p => 50 <= signals p <= 99 /\ activity p = 0)
         (run (getSignalTrendData 20759 7) (fun n => (Z.of_nat (n mod 10) # 10)%Q)).
Proof.
  apply (chart_values_in_range 20759 7 Signals).
  intros n. unfold Qle, Qlt. cbn [Qnum Qden].
  pose proof (Nat.mod_upper_bound n 10 ltac:(lia)). lia.
Defined.

Lemma nftLoop_spec today : forall k bv bf data g,
  let out := fst (LocalDbNft.nftLoop today k bv bf data g) in
  map Chart.nft_date out = map Chart.nft_date data ++ map dateStr (chartDays today k)
  /\ (Forall (fun p => (0 <= Chart.nft_volume p)%Q /\ (0 <= Chart.nft_floor_price p)%Q) data ->
      Forall (fun p => (0 <= Chart.nft_volume p)%Q /\ (0 <= Chart.nft_floor_price p)%Q) out).
Proof.
  induction k as [|i IH]; intros bv bf data g out; subst out.
  - cbn. rewrite app_nil_r. auto.
  - cbn [LocalDbNft.nftLoop]. unfold bind, random.
    match goal with
    | |- context [LocalDbNft.nftLoop today i ?a ?b ?c ?d] =>
        destruct (IH a b c d) as [Hl Hp]
    end.
    split.
    + rewrite Hl, map_app, <- app_assoc. f_equal.
      unfold chartDays. rewrite seq_S, rev_app_distr. reflexivity.
    + intros Hd. apply Hp. apply Forall_app. split; [exact Hd|].
      constructor; [|constructor]. cbn [Chart.nft_volume Chart.nft_floor_price].
      split; apply MathMax_ge_l.
Qed.

(** Whatever [Math.random] returns, the NFT trend series has one point per
    day of the window, labelled like the chart series of the service, and
    neither a volume nor a floor price below zero. *)
Theorem nft_trend_series today N rnd :
  let data := run (LocalDbNft.getNftTrendData today N) rnd in
  List.length data = Z.to_nat N
  /\ map Chart.nft_date data = map dateStr (chartDays today (Z.to_nat N))
  /\ Forall (fun p => (0 <= Chart.nft_volume p)%Q /\ (0 <= Chart.nft_floor_price p)%Q) data.
Proof.
  intros data. subst data.
  unfold run, LocalDbNft.getNftTrendData, LocalDbNft.generateTestNftTrendData.
  match goal with
  | |- context [LocalDbNft.nftLoop today ?k ?a ?b ?c ?d] =>
      destruct (nftLoop_spec today k a b c d) as [Hl Hp]
  end.
  split; [|split].
  - rewrite <- (length_map Chart.nft_date), Hl. cbn [map app].
    rewrite length_map. unfold chartDays. now rewrite length_map, length_rev, length_seq.
  - exact Hl.
  - apply Hp. constructor.
Qed.

End GeneratedSeries.

(* ------------------------------------------------------------------ *)
(** ** The NFT view: failed fetches *)

Section NftLoading.
Import JS NftView.

(** The NFT view has no error state: a rejected fetch is only logged.
    When the metrics are rejected the trend series is not asked for and
    both keep their old values; when only the trend series is rejected the
    new metrics are shown beside the old series.  The loading flag is
    cleared in every case and the two filter fields are not touched. *)
Theorem nft_load_outcomes metricsP trendP v :
  let v' := loadData metricsP trendP v in
  isLoading v' = false
  /\ searchTerm v' = searchTerm v /\ selectedCategory v' = selectedCategory v
  /\ (forall r, metricsP = Rejected r ->
        marketMetrics v' = marketMetrics v /\ trendData v' = trendData v
        /\ v' = loadData metricsP (Rejected "") v)
  /\ (forall m r, metricsP = Fulfilled m -> trendP = Rejected r ->
        marketMetrics v' = m /\ trendData v' = trendData v)
  /\ (forall m d, metricsP = Fulfilled m -> trendP = Fulfilled d ->
        marketMetrics v' = m /\ trendData v' = d).
Proof.
  intros v'. subst v'. unfold loadData, loadTrendData.
  destruct metricsP as [m|r], trendP as [d|r']; cbn;
    repeat split; intros; try discriminate; try congruence.
Qed.

End NftLoading.

(* ------------------------------------------------------------------ *)
(** ** Paging of the signal history *)

Section Paging.
Import JS LocalDb SignalHistoryPages.

Lemma pageCount_spec n ps :
  0 < ps -> (pageCount n ps - 1) * ps < n <= pageCount n ps * ps.
Proof.
  intros Hps. unfold pageCount.
  set (x := (inject_Z n / inject_Z ps)%Q).
  pose proof (Qle_ceiling x) as Hu. pose proof (Qceiling_lt x) as Hl.
  assert (Hq : (0 < inject_Z ps)%Q)
    by (change 0%Q with (inject_Z 0); now rewrite <- Zlt_Qlt).
  assert (Hx : (x * inject_Z ps == inject_Z n)%Q).
  { unfold x. field. intros E. rewrite E in Hq. now apply Qlt_irrefl in Hq. }
  split.
  - rewrite Zlt_Qlt, inject_Z_mult. rewrite <- Hx. nra.
  - rewrite Zle_Qle, inject_Z_mult. rewrite <- Hx. nra.
Qed.

Lemma firstn_skipn_all {A} (l : list A) n m :
  (List.length l <= m + n)%nat -> firstn n (skipn m l) = skipn m l.
Proof. intros H. apply firstn_all2. rewrite length_skipn. lia. Qed.

Lemma slice_nat {A} (a b : Z) (l : list A) :
  0 <= a -> 0 <= b ->
  slice a b l = firstn (Z.to_nat b - Z.to_nat a) (skipn (Z.to_nat a) l).
Proof.
  intros Ha Hb. unfold slice.
  destruct (Z.ltb_spec a 0) as [|_]; [lia|]. destruct (Z.ltb_spec b 0) as [|_]; [lia|].
  set (len := Z.of_nat (List.length l)).
  destruct (Z.le_gt_cases len a) as [Hal|Hal].
  - rewrite (skipn_all2 l (n := Z.to_nat a)) by lia.
    rewrite (skipn_all2 l (n := Z.to_nat (Z.min a len))) by lia.
    now rewrite !firstn_nil.
  - replace (Z.min a len) with a by lia.
    destruct (Z.le_gt_cases len b) as [Hbl|Hbl].
    + replace (Z.min b len) with len by lia.
      rewrite !firstn_skipn_all by lia. reflexivity.
    + replace (Z.min b len) with b by lia. f_equal. lia.
Qed.

Lemma page_nat (l : list Signal) (p : nat) ps :
  0 <= ps ->
  paginatedSignals l (Z.of_nat (S p)) ps
  = firstn (Z.to_nat ps) (skipn (p * Z.to_nat ps) l).
Proof.
  intros Hps. unfold paginatedSignals. rewrite slice_nat by nia.
  f_equal; [|f_equal]; nia.
Qed.

Lemma pages_concat {A} (ps : nat) : forall k (l : list A),
  (List.length l <= k * ps)%nat ->
  List.concat (map (fun p => firstn ps (skipn (p * ps) l)) (seq 0 k)) = l.
Proof.
  induction k as [|k IH]; intros l Hl.
  - destruct l; [reflexivity|cbn in Hl; lia].
  - cbn [seq map List.concat]. rewrite <- seq_shift, map_map.
    transitivity (firstn ps l ++ skipn ps l); [|apply firstn_skipn].
    f_equal.
    rewrite (map_ext _ (fun p => firstn ps (skipn (p * ps) (skipn ps l)))).
    + apply IH. rewrite length_skipn. lia.
    + intros p. rewrite skipn_skipn. do 2 f_equal. lia.
Qed.

(** The pages of the history view cut the filtered list into consecutive
    pieces: for a positive page size, the pages 1 to
    [ceil(length / pageSize)] put end to end give the list back, no page
    holds more than [pageSize] signals, and every later page is empty. *)
Theorem pages_partition (filtered : list Signal) pageSize :
  0 < pageSize ->
  let pages := pageCount (Z.of_nat (List.length filtered)) pageSize in
  List.concat (map (fun p => paginatedSignals filtered (Z.of_nat p) pageSize)
              (seq 1 (Z.to_nat pages))) = filtered
  /\ (forall p, 1 <= p ->
        Z.of_nat (List.length (paginatedSignals filtered p pageSize)) <= pageSize)
  /\ (forall p, pages < p -> paginatedSignals filtered p pageSize = []).
Proof.
  intros Hps pages.
  pose proof (pageCount_spec (Z.of_nat (List.length filtered)) pageSize Hps) as Hc.
  fold pages in Hc.
  split; [|split].
  - rewrite <- seq_shift, map_map.
    rewrite (map_ext _ (fun p => firstn (Z.to_nat pageSize)
                                   (skipn (p * Z.to_nat pageSize) filtered)))
      by (intros p; apply page_nat; lia).
    apply pages_concat. nia.
  - intros p Hp. replace p with (Z.of_nat (S (Z.to_nat (p - 1)))) by lia.
    rewrite page_nat by lia. rewrite length_firstn. lia.
  - intros p Hp. assert (1 <= p) by nia.
    replace p with (Z.of_nat (S (Z.to_nat (p - 1)))) by lia.
    rewrite page_nat by lia. rewrite skipn_all2; [apply firstn_nil|]. nia.
Qed.

(** Twenty-three signals in pages of ten: three pages, the last of three. *)
Lemma pages_partition_23 :
  let l := repeat {| signal_id := "1"; asset := "BTC"; signal_type := "trend";
                     strength := 85; timestamp := 0 |} 23 in
  List.concat (map (fun p => paginatedSignals l (Z.of_nat p) 10) (seq 1 3)) = l
  /\ List.length (paginatedSignals l 3 10) = 3%nat.
Proof.
  cbv zeta. split.
  - apply (pages_partition (repeat _ 23) 10). reflexivity.
  - reflexivity.
Defined.

(** The paging buttons.  While there are signals and the current page is
    one of the pages, "previous" and "next" stay among the pages, and a
    disabled button would not move.  With no signal at all there are zero
    pages: on page 1 "next" is not disabled, it leads to page 0, which is
    empty and announces the range from [1 - pageSize] to 0. *)
Theorem paging_buttons n pageSize currentPage :
  0 < pageSize -> 0 <= n ->
  let pages := pageCount n pageSize in
  (0 < n -> 1 <= currentPage <= pages ->
     1 <= previousPage currentPage <= pages
     /\ 1 <= nextPage n pageSize currentPage <= pages
     /\ (previousDisabled currentPage = true -> previousPage currentPage = currentPage)
     /\ (nextDisabled n pageSize currentPage = true ->
         nextPage n pageSize currentPage = currentPage))
  /\ (n = 0 ->
      pages = 0
      /\ nextDisabled n pageSize 1 = false
      /\ nextPage n pageSize 1 = 0
      /\ paginatedSignals [] 0 pageSize = []
      /\ shownFrom 0 pageSize = 1 - pageSize
      /\ shownTo n pageSize 0 = 0).
Proof.
  intros Hps Hn pages.
  pose proof (pageCount_spec n pageSize Hps) as Hc. fold pages in Hc.
  split.
  - intros Hpos Hcp. unfold previousPage, nextPage, previousDisabled, nextDisabled.
    fold pages. repeat split; try lia.
    all: match goal with
         | E : (_ =? _) = true |- _ => apply Z.eqb_eq in E; lia
         end.
  - intros ->. assert (E : pages = 0) by nia.
    unfold nextDisabled, nextPage, shownFrom, shownTo. fold pages. rewrite E.
    repeat split; try reflexivity; try lia.
    all: unfold paginatedSignals, slice; now rewrite skipn_nil, firstn_nil.
Qed.

(** Pages of ten over twenty-three signals, from page 3. *)
Lemma paging_buttons_23 :
  nextPage 23 10 3 = 3 /\ previousPage 3 = 2 /\ nextPage 0 10 1 = 0.
Proof.
  destruct (paging_buttons 23 10 3 eq_refl ltac:(lia)) as [H _].
  destruct (paging_buttons 0 10 1 eq_refl ltac:(lia)) as [_ H0].
  destruct (H0 eq_refl) as (_ & _ & H1 & _).
  split; [reflexivity|]. split; [reflexivity|exact H1].
Defined.

End Paging.

(* ------------------------------------------------------------------ *)
(** ** The canned lists of the service *)

Section ServiceLists.
Import JS LocalDb.

Lemma firstn_Sorted {A} (R : A -> A -> Prop) (l : list A) n :
  Sorted R l -> Sorted R (firstn n l).
Proof.
  intros H. revert n. induction H as [|x l Hs IH Hhd]; intros [|n]; cbn; try constructor.
  - apply IH.
  - destruct Hhd as [|y l' Hxy]; destruct n; cbn; constructor. exact Hxy.
Qed.

Lemma sort_of_sorted {A} (cmp : A -> A -> Z) (l : list A) :
  Sorted (fun a b => cmp a b <= 0) l -> sort cmp l = l.
Proof.
  induction 1 as [|x l Hs IH Hhd]; [reflexivity|].
  cbn [sort fold_right]. fold (sort cmp l). rewrite IH.
  destruct Hhd as [|y l' Hxy]; [reflexivity|].
  cbn [insertSorted]. destruct (Z.leb_spec (cmp x y) 0); [reflexivity|lia].
Qed.

Lemma recent_signals_newest_first now limit :
  Sorted (fun a b => (fun a b => timestamp b - timestamp a) a b <= 0)
         (getRecentSignals now limit).
Proof.
  unfold getRecentSignals, slice0. apply firstn_Sorted.
  repeat (constructor; cbn [timestamp]; try lia).
Qed.

(** For a limit that is not negative the service returns the first
    [min(limit, 5)] of its five signals, or projects.  The signals come
    newest first, so the sort of the history view leaves them as they are:
    without filters, the view lists them in the order of the service. *)
Theorem service_lists_are_prefixes now limit :
  0 <= limit ->
  Z.of_nat (List.length (getRecentSignals now limit)) = Z.min limit 5
  /\ Z.of_nat (List.length (getHotProjects limit)) = Z.min limit 5
  /\ getRecentSignals now limit = firstn (Z.to_nat limit) (getRecentSignals now 5)
  /\ getHotProjects limit = firstn (Z.to_nat limit) (getHotProjects 5)
  /\ (let out := SignalHistory.filteredSignals O "" "all" [getRecentSignals now limit] in
      deref (snd out) (fst out) = getRecentSignals now limit).
Proof.
  intros Hl.
  assert (Hs : forall A (l : list A), List.length l = 5%nat ->
                 slice0 limit l = firstn (Z.to_nat limit) l
                 /\ Z.of_nat (List.length (slice0 limit l)) = Z.min limit 5).
  { intros A l E. unfold slice0. rewrite E.
    destruct (Z.ltb_spec limit 0) as [|_]; [lia|].
    change (Z.of_nat 5) with 5.
    destruct (Z.le_gt_cases limit 5) as [H|H].
    - replace (Z.min limit 5) with limit by lia. split; [reflexivity|].
      rewrite length_firstn, E. lia.
    - replace (Z.min limit 5) with 5 by lia. split.
      + rewrite !firstn_all2 by lia. reflexivity.
      + rewrite firstn_all2 by lia. rewrite E. reflexivity. }
  split; [|split; [|split; [|split]]].
  - unfold getRecentSignals. now apply Hs.
  - unfold getHotProjects. now apply Hs.
  - unfold getRecentSignals at 1.
    match goal with |- slice0 limit ?l = _ => now destruct (Hs _ l eq_refl) end.
  - unfold getHotProjects at 1.
    match goal with |- slice0 limit ?l = _ => now destruct (Hs _ l eq_refl) end.
  - cbv zeta. rewrite filteredSignals_content.
    change (deref [getRecentSignals now limit] O) with (getRecentSignals now limit).
    rewrite filter_all by reflexivity.
    apply sort_of_sorted, recent_signals_newest_first.
Qed.

(** The twenty signals asked for by the signal list view: all five. *)
Lemma service_lists_are_prefixes_20 :
  List.length (getRecentSignals 1793577600000 20) = 5%nat
  /\ List.length (getHotProjects 3) = 3%nat.
Proof.
  destruct (service_lists_are_prefixes 1793577600000 20 ltac:(lia)) as (H & _).
  split; [|reflexivity]. apply Nat2Z.inj. rewrite H. reflexivity.
Defined.

End ServiceLists.

(* ------------------------------------------------------------------ *)
(** ** The dashboard: generated series and a successful load *)

Section DashboardData.
Import JS.

Ltac half_lra := unfold Qdiv; cbn [Qinv Qnum Qden]; lra.

(** A rational between two integers has its floor between them. *)
Lemma floor_between (x : Q) (a b : Z) :
  (inject_Z a <= x)%Q -> (x < inject_Z b)%Q -> a <= Qfloor x <= b - 1.
Proof.
  intros Ha Hb. split.
  - rewrite <- (Qfloor_Z a). now apply Qfloor_resp_le.
  - assert (Qfloor x < b); [|lia].
    rewrite Zlt_Qlt. eapply Qle_lt_trans; [apply Qfloor_le|exact Hb].
Qed.

Lemma dashboard_chartLoop_spec type today : forall k data g,
  let out := fst (Dashboard.chartLoop type today k data g) in
  map Dashboard.date out
  = map Dashboard.date data ++ map LocalDb.dateStr (LocalDb.chartDays today k)
  /\ (unitOracle (oracle g) -> Forall (dashboardPointOk type) data ->
      Forall (dashboardPointOk type) out).
Proof.
  induction k as [|i IH]; intros data g out; subst out.
  - cbn. rewrite app_nil_r. auto.
  - cbn [Dashboard.chartLoop]. unfold bind, random.
    match goal with
    | |- context [Dashboard.chartLoop type today i ?d ?g'] =>
        destruct (IH d g') as [Hl Hp]
    end.
    split.
    + rewrite Hl, map_app, <- app_assoc. f_equal.
      unfold LocalDb.chartDays. rewrite seq_S, rev_app_distr. reflexivity.
    + intros Hg Hd. apply Hp; [exact Hg|]. apply Forall_app. split; [exact Hd|].
      constructor; [|constructor]. destruct (Hg (calls g)) as [H0 H1].
      set (u := oracle g (calls g)) in *.
      destruct type; unfold dashboardPointOk;
        cbn [Dashboard.signals Dashboard.activity Dashboard.price Dashboard.volume].
      * pose proof (floor_between (50 + u * 20 - 20 / 2) 40 61) as F.
        unfold inject_Z in F. repeat split; try reflexivity; apply F; half_lra.
      * pose proof (floor_between (50 + u * 50) 50 101) as F.
        unfold inject_Z in F. repeat split; try reflexivity; apply F; half_lra.
      * pose proof (floor_between ((100 + u * 5 - 5 / 2) * 100 + (1 # 2)) 9750 10251) as F.
        unfold inject_Z in F. unfold Dashboard.toFixed2.
        assert (9750 <= Qfloor ((100 + u * 5 - 5 / 2) * 100 + (1 # 2)) <= 10251 - 1)
          by (apply F; half_lra).
        repeat split; try reflexivity; unfold Qle; cbn [Qnum Qden]; lia.
      * pose proof (floor_between (1000000 + u * 500000 - 500000 / 2) 750000 1250001) as F.
        unfold inject_Z in F. repeat split; try reflexivity; apply F; half_lra.
Qed.

(** With [Math.random] in [0, 1), the series generated by the dashboard
    carries values only in the field of its kind: 40 to 60 signals, 50 to
    100 for the activity, a price from 97.5 to 102.5, a volume from 750000
    to 1250000; the other fields are zero.  The upper ends 60, 100 and
    1250000 are taken only when the floating-point sum of the source rounds
    up to them, for a draw next to 1; over exact arithmetic the value stays
    below.  The labels are those of the days of the window, oldest first. *)
Theorem dashboard_chart_values today N type rnd :
  unitOracle rnd ->
  let data := run (Dashboard.generateChartData today N type) rnd in
  Forall (dashboardPointOk type) data
  /\ map Dashboard.date data = map LocalDb.dateStr (LocalDb.chartDays today (Z.to_nat N)).
Proof.
  intros Hr data. subst data. unfold run, Dashboard.generateChartData.
  match goal with
  | |- context [Dashboard.chartLoop type today ?k ?d ?g] =>
      destruct (dashboard_chartLoop_spec type today k d g) as [Hl Hp]
  end.
  split; [apply Hp; [exact Hr|constructor] | exact Hl].
Qed.

Lemma tenths_unit : unitOracle (fun n => (Z.of_nat (n mod 10) # 10)%Q).
Proof.
  intros n. unfold Qle, Qlt. cbn [Qnum Qden].
  pose proof (Nat.mod_upper_bound n 10 ltac:(lia)). lia.
Qed.

(** A week of prices. *)
Lemma dashboard_chart_values_week :
  Forall (dashboardPointOk Dashboard.TPrice)
         (run (Dashboard.generateChartData 20759 7 Dashboard.TPrice)
              (fun n => (Z.of_nat (n mod 10) # 10)%Q)).
Proof.
  apply (dashboard_chart_values 20759 7 Dashboard.TPrice _ tenths_unit).
Defined.

(** When the three fetches of the dashboard are fulfilled, the view takes
    their values, is marked loaded without an error message (whatever the
    message was before), and gets four series of seven points that share
    the labels of the last seven days. *)
Theorem dashboard_load_success today m s p v g :
  let v' := fst (Dashboard.loadData today (Fulfilled m) (Fulfilled s) (Fulfilled p) v g) in
  let week := map LocalDb.dateStr (LocalDb.chartDays today 7) in
  Dashboard.error v' = "" /\ Dashboard.isLoading v' = false
  /\ Dashboard.isDataLoaded v' = true
  /\ Dashboard.metrics v' = m /\ Dashboard.recentSignals v' = s
  /\ Dashboard.hotProjects v' = p
  /\ Dashboard.selectedProjectCategory v' = Dashboard.selectedProjectCategory v
  /\ map Dashboard.date (Dashboard.signalTrendData v') = week
  /\ map Dashboard.date (Dashboard.projectActivityData v') = week
  /\ map Dashboard.date (Dashboard.priceTrendData v') = week
  /\ map Dashboard.date (Dashboard.volumeTrendData v') = week.
Proof.
  intros v' week. subst v' week. unfold Dashboard.loadData.
  cbn [Dashboard.PromiseAll3]. rewrite !bind_run. unfold ret.
  cbn [fst snd Dashboard.error Dashboard.isLoading Dashboard.isDataLoaded
       Dashboard.metrics Dashboard.recentSignals Dashboard.hotProjects
       Dashboard.selectedProjectCategory Dashboard.signalTrendData
       Dashboard.projectActivityData Dashboard.priceTrendData
       Dashboard.volumeTrendData].
  repeat split; unfold Dashboard.generateChartData; change (Z.to_nat 7) with 7%nat;
    match goal with
    | |- context [Dashboard.chartLoop ?t today 7 ?d ?g'] =>
        now destruct (dashboard_chartLoop_spec t today 7 d g') as [Hl _]
    end.
Qed.

End DashboardData.

(* ------------------------------------------------------------------ *)
(** ** The detail views: a known id, an empty list, a rejected fetch *)

Section DetailLoads.
Import JS LocalDb.
Variable shuffle : forall A : Type, list A -> Rand (list A).

(** When a project of the fetched list has the id of the route, the
    project view shows that project (the first with this id), enhanced;
    when the fetch is rejected it shows the error message and keeps what it
    showed before.  In both cases the loading flag ends cleared. *)
Theorem project_detail_outcomes routeId (projects : list Project) found reason v g :
  find (fun p => (project_id p =? routeId)%string) projects = Some found ->
  let ok := fst (ProjectDetail.loadProjectDetail shuffle routeId (Fulfilled projects) v g) in
  let ko := fst (ProjectDetail.loadProjectDetail shuffle routeId (Rejected reason) v g) in
  (ProjectDetail.project ok = Some (fst (ProjectDetail.enhanceProjectData found g))
   /\ option_map ProjectDetail.id (ProjectDetail.project ok) = Some routeId
   /\ In found projects
   /\ ProjectDetail.error ok = "" /\ ProjectDetail.isLoading ok = false
   /\ ProjectDetail.template ok = ProjectDetail.DetailPanel)
  /\ (ProjectDetail.error ko = "获取项目详情失败"
      /\ ProjectDetail.template ko = ProjectDetail.ErrorText
      /\ ProjectDetail.isLoading ko = false
      /\ ProjectDetail.project ko = ProjectDetail.project v
      /\ ProjectDetail.relatedProjects ko = ProjectDetail.relatedProjects v).
Proof.
  intros Hf ok ko. subst ok ko. unfold ProjectDetail.loadProjectDetail.
  rewrite Hf. rewrite !bind_run. unfold ret.
  cbn [fst snd ProjectDetail.error ProjectDetail.isLoading ProjectDetail.project
       ProjectDetail.relatedProjects option_map].
  unfold ProjectDetail.template.
  cbn [fst snd ProjectDetail.error ProjectDetail.isLoading ProjectDetail.project truthy].
  apply find_some in Hf. destruct Hf as [Hin Hid]. apply String.eqb_eq in Hid.
  repeat split; try assumption.
  unfold ProjectDetail.enhanceProjectData, ProjectDetail.randomInt.
  rewrite !bind_run. unfold ret. cbn [fst ProjectDetail.id]. now f_equal.
Qed.

End DetailLoads.

Section DetailLoadExamples.
Import JS LocalDb.

(** Project 3 of the service. *)
Lemma project_detail_outcomes_3 :
  option_map ProjectDetail.name
    (ProjectDetail.project
       (fst (ProjectDetail.loadProjectDetail (fun A l => ret l) "3"
               (Fulfilled (getHotProjects 10)) ProjectDetail.initial
               {| oracle := fun _ => 0%Q; calls := O |})))
  = Some "Raydium".
Proof.
  destruct (project_detail_outcomes (fun A l => ret l) "3" (getHotProjects 10)
              {| project_id := "3"; project_name := "Raydium"; project_category := "AMM";
                 score := 85; change := 3.7 |} "" ProjectDetail.initial
              {| oracle := fun _ => 0%Q; calls := O |} eq_refl) as [(H & _) _].
  rewrite H. reflexivity.
Defined.

End DetailLoadExamples.

(* ------------------------------------------------------------------ *)
(** ** Rounding with [toFixed] *)

Section Rounding.
Import JS.

(** Rounding to [digits] decimals does not leave an interval whose ends
    have at most [digits] decimals: for integers [a] and [b], a number
    between [a / 10^digits] and [b / 10^digits] is rounded to one. *)
Lemma toFixed_between digits (x : Q) (a b : Z) :
  let p := Z.pow 10 (Z.of_nat digits) in
  (inject_Z a <= x * inject_Z p)%Q -> (x * inject_Z p <= inject_Z b)%Q ->
  (a # Z.to_pos p <= ProjectDetail.toFixed digits x)%Q
  /\ (ProjectDetail.toFixed digits x <= b # Z.to_pos p)%Q.
Proof.
  intros p Ha Hb. unfold ProjectDetail.toFixed. cbv zeta. fold p.
  assert (Hp : 0 < p) by (apply Z.pow_pos_nonneg; lia).
  set (y := (x * inject_Z p)%Q) in *.
  assert (Ey : (- x * inject_Z p == - y)%Q) by (unfold y; ring).
  clearbody y. clearbody p.
  destruct (Qle_bool 0 x).
  - assert (Hz : a <= Qfloor (y + (1 # 2)) <= b).
    { split.
      - rewrite <- (Qfloor_Z a). apply Qfloor_resp_le. lra.
      - assert (Qfloor (y + (1 # 2)) < b + 1); [|lia].
        rewrite Zlt_Qlt. eapply Qle_lt_trans; [apply Qfloor_le|].
        rewrite inject_Z_plus. change (inject_Z 1) with 1%Q. lra. }
    unfold Qle. cbn [Qnum Qden].
    split; apply Z.mul_le_mono_nonneg_r; lia.
  - assert (Hz : - b <= Qfloor (- x * inject_Z p + (1 # 2)) <= - a).
    { rewrite Ey. split.
      - rewrite <- (Qfloor_Z (- b)). apply Qfloor_resp_le.
        rewrite inject_Z_opp. lra.
      - assert (Qfloor (- y + (1 # 2)) < - a + 1); [|lia].
        rewrite Zlt_Qlt. eapply Qle_lt_trans; [apply Qfloor_le|].
        rewrite inject_Z_plus, inject_Z_opp. change (inject_Z 1) with 1%Q. lra. }
    set (z := Qfloor (- x * inject_Z p + (1 # 2))) in *. clearbody z.
    unfold Qle, Qopp. cbn [Qnum Qden].
    split; apply Z.mul_le_mono_nonneg_r; lia.
Qed.

End Rounding.

(* ------------------------------------------------------------------ *)
(** ** The signal detail view: generated data *)

Section SignalDetailData.
Import JS LocalDb SignalDetail.

Ltac draws Hg g :=
  pose proof (Hg (calls g)); pose proof (Hg (S (calls g)));
  pose proof (Hg (S (S (calls g)))); pose proof (Hg (S (S (S (calls g)))));
  pose proof (Hg (S (S (S (S (calls g))))));
  pose proof (Hg (S (S (S (S (S (calls g)))))));
  pose proof (Hg (S (S (S (S (S (S (calls g))))))));
  pose proof (Hg (S (S (S (S (S (S (S (calls g))))))))).

Ltac pow10 :=
  match goal with
  | |- context [Z.pow 10 (Z.of_nat ?n)] =>
      let v := eval vm_compute in (Z.pow 10 (Z.of_nat n)) in
      change (Z.pow 10 (Z.of_nat n)) with v
  end.

Ltac pow10_in H :=
  match type of H with
  | context [Z.pow 10 (Z.of_nat ?n)] =>
      let v := eval vm_compute in (Z.pow 10 (Z.of_nat n)) in
      change (Z.pow 10 (Z.of_nat n)) with v in H
  end.

Ltac fixed_range d lo hi :=
  match goal with
  | |- (_ <= ProjectDetail.toFixed d ?x)%Q /\ (ProjectDetail.toFixed d ?x <= _)%Q =>
      let L := fresh "L" in
      let U := fresh "U" in
      destruct (toFixed_between d x lo hi) as [L U];
      [ cbv zeta; pow10; unfold inject_Z; lra
      | cbv zeta; pow10; unfold inject_Z; lra
      | cbv zeta in L, U; pow10_in L; pow10_in U;
        cbn [Z.to_pos] in L, U; split; lra ]
  end.

(** With [Math.random] in [0, 1), the four technical indicators are, in
    this order, an RSI from 30 to 70, a MACD from -1 to 1, a Bollinger
    width from 0.05 to 0.15 and a moving average from 1000 to 11000, with
    trends within 5, 7.5, 10 and 4 of zero.  The value of an indicator is
    kept as the text of [toFixed]; the bounds are on the number it
    writes. *)
Theorem technical_indicators_ranges g :
  unitOracle (oracle g) ->
  exists rsi macd boll ma,
    fst (generateTechnicalIndicators g) = [rsi; macd; boll; ma]
    /\ ind_name rsi = "RSI (14)" /\ ind_name macd = "MACD"
    /\ ind_name boll = "布林带" /\ ind_name ma = "MA (50)"
    /\ ((30 <= ind_value rsi)%Q /\ (ind_value rsi <= 70)%Q)
    /\ ((-5 <= ind_trend rsi)%Q /\ (ind_trend rsi <= 5)%Q)
    /\ ((-1 <= ind_value macd)%Q /\ (ind_value macd <= 1)%Q)
    /\ ((-7.5 <= ind_trend macd)%Q /\ (ind_trend macd <= 7.5)%Q)
    /\ ((0.05 <= ind_value boll)%Q /\ (ind_value boll <= 0.15)%Q)
    /\ ((-10 <= ind_trend boll)%Q /\ (ind_trend boll <= 10)%Q)
    /\ ((1000 <= ind_value ma)%Q /\ (ind_value ma <= 11000)%Q)
    /\ ((-4 <= ind_trend ma)%Q /\ (ind_trend ma <= 4)%Q).
Proof.
  intros Hg. draws Hg g.
  unfold generateTechnicalIndicators. rewrite !bind_run. unfold random, ret.
  cbn [fst snd oracle calls]. do 4 eexists. split; [reflexivity|].
  cbn [ind_name ind_value ind_trend]. unfold toFixed.
  repeat match goal with H : _ /\ _ |- _ => destruct H end.
  split; [reflexivity|]. split; [reflexivity|]. split; [reflexivity|].
  split; [reflexivity|].
  split; [fixed_range 1%nat 300 700|]. split; [fixed_range 1%nat (-50) 50|].
  split; [fixed_range 3%nat (-1000) 1000|]. split; [fixed_range 1%nat (-75) 75|].
  split; [fixed_range 3%nat 50 150|]. split; [fixed_range 1%nat (-100) 100|].
  split; [fixed_range 2%nat 100000 1100000|]. fixed_range 1%nat (-40) 40.
Qed.

(** The indicators drawn from the cycling oracle. *)
Lemma technical_indicators_ranges_tenths :
  List.length (fst (generateTechnicalIndicators
                      {| oracle := fun n => (Z.of_nat (n mod 10) # 10)%Q; calls := O |}))
  = 4%nat.
Proof.
  destruct (technical_indicators_ranges
              {| oracle := fun n => (Z.of_nat (n mod 10) # 10)%Q; calls := O |}
              tenths_unit) as (a & b & c & d & E & _).
  rewrite E. reflexivity.
Defined.

Ltac label_case :=
  first [ intro; discriminate
        | split; intros; try discriminate; try lia; reflexivity ].

(** With [Math.random] in [0, 1), the sentiment score is an integer from 30
    to 79, so the last branch of the label chain is never taken: the label
    is one of the first four, chosen by the score, and the volume change
    (kept as the text of [toFixed], taken here as the number it writes)
    lies between -10 and 20. *)
Theorem market_sentiment_ranges g :
  unitOracle (oracle g) ->
  let s := fst (generateMarketSentiment g) in
  30 <= sent_score s <= 79
  /\ sent_label s <> "极度看跌"
  /\ (sent_label s = "极度看涨" <-> 70 <= sent_score s)
  /\ (sent_label s = "看涨" <-> 55 <= sent_score s < 70)
  /\ (sent_label s = "中性" <-> 45 <= sent_score s < 55)
  /\ (sent_label s = "看跌" <-> sent_score s < 45)
  /\ ((-10 <= volumeChange s)%Q /\ (volumeChange s <= 20)%Q).
Proof.
  intros Hg s. subst s. draws Hg g.
  repeat match goal with H : _ /\ _ |- _ => destruct H end.
  unfold generateMarketSentiment. rewrite !bind_run. unfold random, ret.
  cbn [fst snd oracle calls sent_score sent_label volumeChange].
  pose proof (floor_scaled (oracle g (calls g)) 50 ltac:(assumption) ltac:(assumption)
                ltac:(lia)) as Hs.
  unfold inject_Z in Hs.
  set (score := Qfloor (oracle g (calls g) * 50) + 30).
  assert (Hscore : 30 <= score <= 79) by (subst score; lia).
  clearbody score.
  split; [exact Hscore|].
  split; [|split; [|split; [|split; [|split]]]].
  all: try (unfold toFixed; fixed_range 1%nat (-100) 200).
  all: destruct (Z.leb_spec 70 score); [label_case|].
  all: destruct (Z.leb_spec 55 score); [label_case|].
  all: destruct (Z.leb_spec 45 score); [label_case|].
  all: destruct (Z.leb_spec 30 score); [label_case|].
  all: lia.
Qed.

(** The sentiment drawn from the cycling oracle. *)
Lemma market_sentiment_ranges_tenths :
  30 <= sent_score (fst (generateMarketSentiment
                           {| oracle := fun n => (Z.of_nat (n mod 10) # 10)%Q;
                              calls := O |})) <= 79.
Proof.
  apply (market_sentiment_ranges
           {| oracle := fun n => (Z.of_nat (n mod 10) # 10)%Q; calls := O |}
           tenths_unit).
Defined.

Lemma historyLoop_spec today : forall r i history g,
  let ok := fun h =>
    In (hist_type h) ["trend"; "momentum"; "reversal"]
    /\ 40 <= hist_strength h <= 79
    /\ (-5 <= result h)%Q /\ (result h <= 10)%Q in
  let out := fst (historyLoop today r i history g) in
  map hist_date out
  = map hist_date history
    ++ map (fun j => localeDate (today - i - Z.of_nat j)) (seq 0 r)
  /\ (unitOracle (oracle g) -> Forall ok history -> Forall ok out).
Proof.
  induction r as [|r IH]; intros i history g ok out; subst out.
  - cbn. rewrite app_nil_r. auto.
  - cbn [historyLoop]. rewrite !bind_run. unfold random.
    cbn [fst snd oracle calls].
    match goal with
    | |- context [historyLoop today r ?a ?b ?c] => destruct (IH a b c) as [Hd Hp]
    end.
    split.
    + rewrite Hd, map_app, <- app_assoc. f_equal.
      cbn [map hist_date app seq]. rewrite setDate_back, Z.sub_0_r. f_equal.
      rewrite <- seq_shift, map_map. apply map_ext. intros j. f_equal. lia.
    + intros Hg Hh. apply Hp; [exact Hg|]. apply Forall_app. split; [exact Hh|].
      constructor; [|constructor]. draws Hg g.
      repeat match goal with H : _ /\ _ |- _ => destruct H end.
      subst ok. cbn [hist_type hist_strength result].
      split; [|split].
      * pose proof (floor_scaled (oracle g (calls g)) 3 ltac:(assumption)
                      ltac:(assumption) ltac:(lia)) as Ht.
        unfold inject_Z in Ht.
        set (k := Qfloor (oracle g (calls g) * 3)) in *. clearbody k.
        assert (Hk : k = 0 \/ k = 1 \/ k = 2) by lia.
        destruct Hk as [-> | [-> | ->]]; cbn; auto.
      * pose proof (floor_scaled (oracle g (S (calls g))) 40 ltac:(assumption)
                      ltac:(assumption) ltac:(lia)) as Hs.
        unfold inject_Z in Hs. lia.
      * unfold toFixed. fixed_range 1%nat (-50) 100.
Qed.

(** With [Math.random] in [0, 1), the history of a signal has seven
    entries, dated with the seven days before today from the most recent
    one back; each has one of the three signal types, a strength from 40
    to 79 and a result between -5 and 10.  The asset is not used. *)
Theorem historical_signals_week today asset g :
  unitOracle (oracle g) ->
  let out := fst (generateHistoricalSignals today asset g) in
  map hist_date out = map (fun j => localeDate (today - j)) [1; 2; 3; 4; 5; 6; 7]
  /\ Forall (fun h => In (hist_type h) ["trend"; "momentum"; "reversal"]
                      /\ 40 <= hist_strength h <= 79
                      /\ (-5 <= result h)%Q /\ (result h <= 10)%Q) out
  /\ out = fst (generateHistoricalSignals today "" g).
Proof.
  intros Hg out. subst out. unfold generateHistoricalSignals.
  destruct (historyLoop_spec today 7 1 [] g) as [Hd Hp].
  split; [|split; [|reflexivity]].
  - rewrite Hd. cbn [map seq app Z.of_nat]. 
    repeat (f_equal; try lia).
  - apply Hp; [exact Hg|constructor].
Qed.

(** The history generated on 2026-11-03 from the cycling oracle. *)
Lemma historical_signals_week_tenths :
  map hist_date
    (fst (generateHistoricalSignals 20760 "BTC"
            {| oracle := fun n => (Z.of_nat (n mod 10) # 10)%Q; calls := O |}))
  = map (fun j => localeDate (20760 - j)) [1; 2; 3; 4; 5; 6; 7].
Proof.
  apply (historical_signals_week 20760 "BTC"
           {| oracle := fun n => (Z.of_nat (n mod 10) # 10)%Q; calls := O |}
           tenths_unit).
Defined.

End SignalDetailData.

(* ------------------------------------------------------------------ *)
(** ** The signal detail view: related assets and loading *)

Section SignalDetailLoads.
Import JS LocalDb SignalDetail.

Variable shuffle : forall A : Type, list A -> Rand (list A).

Lemma filter_keeps_all {A} (f : A -> string) base (l : list A) :
  ~ In base (map f l) -> filter (fun a => negb (f a =? base)%string) l = l.
Proof.
  induction l as [|a l IH]; intros Hn; [reflexivity|].
  cbn [filter]. cbn [map In] in Hn.
  destruct (String.eqb_spec (f a) base) as [E|E]; [tauto|].
  cbn [negb]. f_equal. apply IH. tauto.
Qed.

Lemma filter_drops_one {A} (f : A -> string) base (l : list A) :
  NoDup (map f l) ->
  (List.length l <= S (List.length (filter (fun a => negb (f a =? base)%string) l)))%nat.
Proof.
  induction l as [|a l IH]; intros Hn; [cbn; lia|].
  cbn [map] in Hn. inversion Hn as [|x xs Hx Hxs]; subst.
  cbn [filter]. destruct (String.eqb_spec (f a) base) as [E|E]; cbn [negb].
  - rewrite filter_keeps_all by (rewrite <- E; exact Hx). cbn [List.length]. lia.
  - specialize (IH Hxs). cbn [List.length]. lia.
Qed.

Lemma filter_map_NoDup {A B} (f : A -> B) p (l : list A) :
  NoDup (map f l) -> NoDup (map f (filter p l)).
Proof.
  induction l as [|a l IH]; intros Hn; [constructor|].
  cbn [map] in Hn. inversion Hn as [|x xs Hx Hxs]; subst.
  cbn [filter]. destruct (p a); [|auto].
  cbn [map]. constructor; [|auto].
  intros Hin. apply Hx. apply in_map_iff in Hin. destruct Hin as (b & Hb & Hi).
  apply in_map_iff. exists b. split; [exact Hb|]. apply filter_In in Hi. tauto.
Qed.

Ltac draws Hg g :=
  pose proof (Hg (calls g)); pose proof (Hg (S (calls g)));
  pose proof (Hg (S (S (calls g)))); pose proof (Hg (S (S (S (calls g)))));
  pose proof (Hg (S (S (S (S (calls g))))));
  pose proof (Hg (S (S (S (S (S (calls g))))))).

Ltac pow10 :=
  match goal with
  | |- context [Z.pow 10 (Z.of_nat ?n)] =>
      let v := eval vm_compute in (Z.pow 10 (Z.of_nat n)) in
      change (Z.pow 10 (Z.of_nat n)) with v
  end.

Ltac pow10_in H :=
  match type of H with
  | context [Z.pow 10 (Z.of_nat ?n)] =>
      let v := eval vm_compute in (Z.pow 10 (Z.of_nat n)) in
      change (Z.pow 10 (Z.of_nat n)) with v in H
  end.

Ltac fixed_range d lo hi :=
  match goal with
  | |- (_ <= ProjectDetail.toFixed d ?x)%Q /\ (ProjectDetail.toFixed d ?x <= _)%Q =>
      let L := fresh "L" in
      let U := fresh "U" in
      destruct (toFixed_between d x lo hi) as [L U];
      [ cbv zeta; pow10; unfold inject_Z; lra
      | cbv zeta; pow10; unfold inject_Z; lra
      | cbv zeta in L, U; pow10_in L; pow10_in U;
        cbn [Z.to_pos] in L, U; split; lra ]
  end.

(** When the shuffle only reorders and [Math.random] is in [0, 1), the
    related assets are exactly four distinct entries of the table of six,
    none of them the base asset, each with a change between -10 and 15. *)
Theorem related_assets_four baseAsset g :
  permuting shuffle -> unitOracle (oracle g) ->
  let out := fst (generateRelatedAssets shuffle baseAsset g) in
  List.length out = 4%nat
  /\ NoDup (map symbol out)
  /\ Forall (fun a =>
       symbol a <> baseAsset
       /\ In (symbol a, asset_name a, marketCap a)
             [("BTC", "Bitcoin", "1.2T"); ("ETH", "Ethereum", "450B");
              ("SOL", "Solana", "80B"); ("ADA", "Cardano", "40B");
              ("DOT", "Polkadot", "30B"); ("DOGE", "Dogecoin", "25B")]
       /\ (-10 <= asset_change a)%Q /\ (asset_change a <= 15)%Q) out.
Proof.
  intros Hsh Hg out. subst out. draws Hg g.
  repeat match goal with H : _ /\ _ |- _ => destruct H end.
  unfold generateRelatedAssets. rewrite !bind_run. unfold random, ret.
  cbn [fst snd oracle calls].
  match goal with
  | |- context [shuffle Asset (filter ?p ?l) ?g'] =>
      set (assets := l); set (kept := filter p assets);
      pose proof (Hsh Asset kept g') as P;
      set (sh := fst (shuffle Asset kept g')) in *
  end.
  clearbody sh.
  assert (Hnd : NoDup (map symbol assets)).
  { subst assets. cbn [map symbol].
    repeat (constructor; [cbn [In]; intuition discriminate|]). constructor. }
  assert (K1 : (5 <= List.length kept)%nat).
  { pose proof (filter_drops_one symbol baseAsset assets Hnd) as Hl.
    subst kept. cbn [List.length assets] in Hl |- *. subst assets.
    cbn [List.length] in Hl. lia. }
  assert (K2 : NoDup (map symbol kept)) by (apply filter_map_NoDup; exact Hnd).
  assert (K3 : Forall (fun a =>
       symbol a <> baseAsset
       /\ In (symbol a, asset_name a, marketCap a)
             [("BTC", "Bitcoin", "1.2T"); ("ETH", "Ethereum", "450B");
              ("SOL", "Solana", "80B"); ("ADA", "Cardano", "40B");
              ("DOT", "Polkadot", "30B"); ("DOGE", "Dogecoin", "25B")]
       /\ (-10 <= asset_change a)%Q /\ (asset_change a <= 15)%Q) kept).
  { apply Forall_forall. intros a Ha. subst kept. apply filter_In in Ha.
    destruct Ha as [Ha Hb]. split.
    - intros E. rewrite E, String.eqb_refl in Hb. discriminate.
    - clear Hb. subst assets. cbn [In] in Ha.
      destruct Ha as [<-|[<-|[<-|[<-|[<-|[<-|[]]]]]]];
        cbn [symbol asset_name marketCap asset_change];
        (split; [cbn [In]; tauto|]); unfold toFixed;
        fixed_range 2%nat (-1000) 1500. }
  clearbody kept. clear assets Hnd.
  assert (Hlen : List.length sh = List.length kept) by (apply Permutation_length; exact P).
  assert (Hs : slice0 4 sh = firstn 4 sh).
  { unfold slice0. cbv zeta. change (4 <? 0) with false. cbv iota.
    replace (Z.min 4 (Z.of_nat (List.length sh))) with 4 by lia. reflexivity. }
  rewrite Hs. split; [|split].
  - rewrite length_firstn. lia.
  - assert (N : NoDup (map symbol sh)).
    { eapply Permutation_NoDup; [|exact K2]. apply Permutation_map.
      apply Permutation_sym. exact P. }
    rewrite <- (firstn_skipn 4 sh), map_app in N.
    eapply NoDup_app_remove_r. exact N.
  - assert (F := Permutation_Forall (Permutation_sym P) K3).
    rewrite <- (firstn_skipn 4 sh) in F. apply Forall_app in F. tauto.
Qed.

(** Whatever the signal list, a found id shows that signal with four
    indicators, a sentiment and a week of history; an empty list changes
    nothing but the flags, without an error message and without drawing a
    random number; a rejected fetch sets the error message and keeps the
    data. *)
Theorem signal_detail_outcomes today signalId (signals : list Signal) found reason v g :
  find (fun s => (signal_id s =? signalId)%string) signals = Some found ->
  let ok := fst (loadSignalDetail shuffle today signalId (Fulfilled signals) v g) in
  let none := loadSignalDetail shuffle today signalId (Fulfilled []) v g in
  let ko := loadSignalDetail shuffle today signalId (Rejected reason) v g in
  (signal ok = Some found /\ signal_id found = signalId /\ In found signals
   /\ error ok = "" /\ isLoading ok = false /\ template ok = DetailPanel
   /\ List.length (technicalIndicators ok) = 4%nat
   /\ marketSentiment ok <> None
   /\ List.length (historicalSignals ok) = 7%nat)
  /\ (fst none = {| isLoading := false; error := ""; signal := signal v;
                    relatedAssets := relatedAssets v;
                    technicalIndicators := technicalIndicators v;
                    marketSentiment := marketSentiment v;
                    historicalSignals := historicalSignals v |}
      /\ snd none = g
      /\ (signal v = None -> template (fst none) = MissingText))
  /\ (fst ko = {| isLoading := false; error := "获取信号详情失败"; signal := signal v;
                  relatedAssets := relatedAssets v;
                  technicalIndicators := technicalIndicators v;
                  marketSentiment := marketSentiment v;
                  historicalSignals := historicalSignals v |}
      /\ snd ko = g
      /\ template (fst ko) = ErrorText).
Proof.
  intros Hf ok none ko. subst ok none ko. split; [|split].
  - pose proof (find_some _ _ Hf) as [Hin Hid]. apply String.eqb_eq in Hid.
    unfold loadSignalDetail, find in *. cbv zeta. rewrite Hf.
    rewrite bind_run. unfold ret at 1. cbn [fst snd].
    unfold showSignal. rewrite !bind_run. unfold ret. 
    cbn [fst snd signal error isLoading technicalIndicators marketSentiment
         historicalSignals].
    split; [reflexivity|]. split; [exact Hid|]. split; [exact Hin|].
    split; [reflexivity|]. split; [reflexivity|]. split; [reflexivity|].
    split; [|split].
    + unfold generateTechnicalIndicators. rewrite !bind_run. reflexivity.
    + unfold generateMarketSentiment. rewrite !bind_run. discriminate.
    + unfold generateHistoricalSignals.
      match goal with
      | |- context [historyLoop today 7 1 [] ?g'] =>
          destruct (historyLoop_spec today 7 1 [] g') as [Hd _];
          apply (f_equal (@List.length string)) in Hd;
          rewrite !length_map in Hd; rewrite Hd
      end.
      reflexivity.
  - unfold loadSignalDetail, find, template. cbn.
    split; [reflexivity|]. split; [reflexivity|]. intros ->. reflexivity.
  - unfold loadSignalDetail, template. cbn. auto.
Qed.

End SignalDetailLoads.

Section SignalDetailLoadExamples.
Import JS LocalDb SignalDetail.

(** The related assets of ["SOL"] with the shuffle that keeps the order. *)
Lemma related_assets_four_sol :
  NoDup (map symbol
    (fst (generateRelatedAssets (fun A l => ret l) "SOL"
            {| oracle := fun n => (Z.of_nat (n mod 10) # 10)%Q; calls := O |}))).
Proof.
  apply (related_assets_four (fun A l => ret l) "SOL"
           {| oracle := fun n => (Z.of_nat (n mod 10) # 10)%Q; calls := O |}
           (fun A l g => Permutation_refl l) tenths_unit).
Defined.

(** The signal with id ["7"] of a list of two. *)
Lemma signal_detail_outcomes_7 :
  option_map asset
    (signal (fst (loadSignalDetail (fun A l => ret l) 20760 "7"
                    (Fulfilled
                       [ {| signal_id := "3"; asset := "BTC"; signal_type := "trend";
                            strength := 80; timestamp := 0 |};
                         {| signal_id := "7"; asset := "SOL"; signal_type := "reversal";
                            strength := 55; timestamp := 0 |} ])
                    initial {| oracle := fun _ => 0%Q; calls := O |})))
  = Some "SOL".
Proof.
  destruct (signal_detail_outcomes (fun A l => ret l) 20760 "7"
              [ {| signal_id := "3"; asset := "BTC"; signal_type := "trend";
                   strength := 80; timestamp := 0 |};
                {| signal_id := "7"; asset := "SOL"; signal_type := "reversal";
                   strength := 55; timestamp := 0 |} ]
              {| signal_id := "7"; asset := "SOL"; signal_type := "reversal";
                 strength := 55; timestamp := 0 |} "" initial
              {| oracle := fun _ => 0%Q; calls := O |} eq_refl) as [(H & _) _].
  rewrite H. reflexivity.
Defined.

End SignalDetailLoadExamples.

(* ------------------------------------------------------------------ *)
(** ** The project detail view: generated data *)

Section ProjectDetailData.
Import JS LocalDb.

Ltac draw_all Hg g :=
  repeat match goal with
  | |- context [g ?n] =>
      lazymatch goal with
      | _ : (0 <= g n)%Q |- _ => fail
      | _ => destruct (Hg n)
      end
  end.

Ltac floor_goal :=
  match goal with
  | |- context [Qfloor (?u * inject_Z ?n)] =>
      pose proof (floor_scaled u n ltac:(assumption) ltac:(assumption) ltac:(lia));
      lia
  end.

Lemma hot_project_tables (b : Project) :
  In b (getHotProjects 5) ->
  ProjectDetail.categories (project_name b) = ProjectDetail.Text (project_category b).
Proof.
  intros H.
  let v := eval vm_compute in (getHotProjects 5) in
    change (getHotProjects 5) with v in H.
  cbn [In] in H. destruct H as [<-|[<-|[<-|[<-|[<-|[]]]]]]; reflexivity.
Qed.

Lemma inherited_lookups (name : string) :
  ProjectDetail.inherited name = true ->
  ProjectDetail.categories name = ProjectDetail.Inherited name
  /\ ProjectDetail.tokens name = ProjectDetail.Inherited name.
Proof.
  intros H. unfold ProjectDetail.inherited in H. apply existsb_exists in H.
  destruct H as (k & Hk & E). apply String.eqb_eq in E. subst k.
  cbn [ProjectDetail.inheritedKeys In] in Hk.
  repeat (destruct Hk as [<-|Hk]; [split; reflexivity|]). destruct Hk.
Qed.

(** With [Math.random] in [0, 1), the enhanced project keeps the id, name,
    score and change of the base project and takes its category and token
    from the tables: for a hot project of the service the category is the
    one it had, and for a name that every object inherits a member (such
    as "constructor") both are that member and no text.  The price is
    from 1 to 1001 and the day's low and high bracket it, within ten
    percent and the margin left for rounding; the seven-day change is
    between -10 and 20, the development and community scores stay within
    10..99 and the three risk levels within 1..3 (the technical one within
    1..2). *)
Theorem enhanced_project_ranges (b : Project) g :
  unitOracle (oracle g) ->
  let d := fst (ProjectDetail.enhanceProjectData b g) in
  let m := ProjectDetail.marketData d in
  (ProjectDetail.id d = project_id b /\ ProjectDetail.name d = project_name b
   /\ ProjectDetail.score d = score b /\ ProjectDetail.change d = change b
   /\ ProjectDetail.category d = ProjectDetail.categories (project_name b)
   /\ ProjectDetail.token d = ProjectDetail.tokens (project_name b)
   /\ (In b (getHotProjects 5) ->
       ProjectDetail.category d = ProjectDetail.Text (project_category b))
   /\ (ProjectDetail.inherited (project_name b) = true ->
       ProjectDetail.category d = ProjectDetail.Inherited (project_name b)
       /\ ProjectDetail.token d = ProjectDetail.Inherited (project_name b)))
  /\ ((1 <= ProjectDetail.price m)%Q /\ (ProjectDetail.price m <= 1001)%Q
      /\ (ProjectDetail.low24h m <= ProjectDetail.price m)%Q
      /\ (ProjectDetail.price m <= ProjectDetail.high24h m)%Q
      /\ (ProjectDetail.price m * 0.899999999 <= ProjectDetail.low24h m)%Q
      /\ (ProjectDetail.high24h m <= ProjectDetail.price m * 1.100000001)%Q
      /\ (100000000 <= ProjectDetail.marketCap m)%Q
      /\ (ProjectDetail.marketCap m <= 10100000000)%Q
      /\ (10000000 <= ProjectDetail.volume24h m)%Q
      /\ (ProjectDetail.volume24h m <= 1010000000)%Q
      /\ (100000000 <= ProjectDetail.circulatingSupply m)%Q
      /\ (ProjectDetail.circulatingSupply m <= 10100000000)%Q
      /\ (-10 <= ProjectDetail.change7d m)%Q /\ (ProjectDetail.change7d m <= 20)%Q)
  /\ (30 <= ProjectDetail.dev_activity (ProjectDetail.development d) <= 79
      /\ 20 <= ProjectDetail.developers (ProjectDetail.development d) <= 59
      /\ 40 <= ProjectDetail.codeQuality (ProjectDetail.development d) <= 99
      /\ 20 <= ProjectDetail.documentation (ProjectDetail.development d) <= 89)
  /\ (20 <= ProjectDetail.socialMedia (ProjectDetail.community d) <= 79
      /\ 30 <= ProjectDetail.engagement (ProjectDetail.community d) <= 79
      /\ 10 <= ProjectDetail.growth (ProjectDetail.community d) <= 79
      /\ 30 <= ProjectDetail.support (ProjectDetail.community d) <= 89)
  /\ (1 <= ProjectDetail.market (ProjectDetail.risk d) <= 3
      /\ 1 <= ProjectDetail.technical (ProjectDetail.risk d) <= 2
      /\ 1 <= ProjectDetail.regulatory (ProjectDetail.risk d) <= 3).
Proof.
  intros Hg d m. subst m d. destruct g as [o c]. cbn [oracle] in Hg.
  cbv beta iota zeta delta
    [ProjectDetail.enhanceProjectData ProjectDetail.randomInt bind random ret fst snd
     oracle calls ProjectDetail.id ProjectDetail.name ProjectDetail.score
     ProjectDetail.change ProjectDetail.category ProjectDetail.token
     ProjectDetail.marketData ProjectDetail.development ProjectDetail.community
     ProjectDetail.risk ProjectDetail.price ProjectDetail.marketCap
     ProjectDetail.volume24h ProjectDetail.circulatingSupply ProjectDetail.high24h
     ProjectDetail.low24h ProjectDetail.change7d ProjectDetail.dev_activity
     ProjectDetail.developers ProjectDetail.codeQuality ProjectDetail.documentation
     ProjectDetail.socialMedia ProjectDetail.engagement ProjectDetail.growth
     ProjectDetail.support ProjectDetail.market ProjectDetail.technical
     ProjectDetail.regulatory].
  draw_all Hg o.
  split.
  { do 6 (split; [reflexivity|]).
    split; [apply hot_project_tables|apply inherited_lookups]. }
  split; [|repeat split; floor_goal].
  do 12 (split; [nra|]).
  destruct (toFixed_between 2%nat (o (S (S (S (S (S (S (S c))))))) * 30 - 10)
              (-1000) 2000) as [L U].
  - cbv zeta. change (10 ^ Z.of_nat 2) with 100. unfold inject_Z. lra.
  - cbv zeta. change (10 ^ Z.of_nat 2) with 100. unfold inject_Z. lra.
  - cbv zeta in L, U. change (10 ^ Z.of_nat 2) with 100 in L, U.
    cbn [Z.to_pos] in L, U. split; lra.
Qed.

(** The first hot project, enhanced with the cycling oracle. *)
Lemma enhanced_project_ranges_tenths :
  (1 <= ProjectDetail.price
          (ProjectDetail.marketData
             (fst (ProjectDetail.enhanceProjectData
                     {| project_id := "1"; project_name := "Solana";
                        project_category := "Layer 1"; score := 92; change := 8.5 |}
                     {| oracle := fun n => (Z.of_nat (n mod 10) # 10)%Q;
                        calls := O |}))))%Q.
Proof.
  apply (enhanced_project_ranges
           {| project_id := "1"; project_name := "Solana";
              project_category := "Layer 1"; score := 92; change := 8.5 |}
           {| oracle := fun n => (Z.of_nat (n mod 10) # 10)%Q; calls := O |}
           tenths_unit).
Defined.

End ProjectDetailData.

(* ------------------------------------------------------------------ *)
(** ** The project detail view: related projects *)

Section RelatedProjects.
Import JS LocalDb.

Variable shuffle : forall A : Type, list A -> Rand (list A).

Ltac close_eqb :=
  repeat match goal with
  | |- context [String.eqb ?a ?b] =>
      let v := eval vm_compute in (String.eqb a b) in
      match v with true => idtac | false => idtac end;
      change (String.eqb a b) with v
  end.

Ltac by_name :=
  repeat (close_eqb;
          match goal with
          | |- context [String.eqb ?a ?b] =>
              is_var b; destruct (String.eqb_spec a b) as [<-|?]
          end);
  close_eqb; cbn [negb andb List.length].

Lemma related_kept (i n : string) :
  let hot := getHotProjects 5 in
  let kept := filter (fun p => (negb (project_id p =? i)%string
                                && negb (project_name p =? n)%string)%bool) hot in
  (3 <= List.length kept <= 5)%nat
  /\ ((exists p, In p hot /\ project_id p = i /\ project_name p = n)
      \/ (forall p, In p hot -> project_id p <> i /\ project_name p <> n) ->
      (4 <= List.length kept)%nat).
Proof.
  cbv zeta.
  let v := eval vm_compute in (getHotProjects 5) in change (getHotProjects 5) with v.
  split.
  - cbn [filter project_id project_name]. by_name; lia.
  - intros [(p & Hin & Hi & Hn) | Hall].
    + subst i n. cbn [In] in Hin.
      destruct Hin as [<-|[<-|[<-|[<-|[<-|[]]]]]];
        cbn [filter project_id project_name]; by_name; lia.
    + cbn [filter project_id project_name].
      destruct (Hall _ (or_introl eq_refl)) as [A1 B1].
      destruct (Hall _ (or_intror (or_introl eq_refl))) as [A2 B2].
      destruct (Hall _ (or_intror (or_intror (or_introl eq_refl)))) as [A3 B3].
      destruct (Hall _ (or_intror (or_intror (or_intror (or_introl eq_refl)))))
        as [A4 B4].
      destruct (Hall _ (or_intror (or_intror (or_intror (or_intror (or_introl eq_refl))))))
        as [A5 B5].
      cbn in A1, B1, A2, B2, A3, B3, A4, B4, A5, B5.
      by_name; try lia; congruence.
Qed.

(** When the shuffle only reorders, the related projects are distinct hot
    projects that differ from the base project in both id and name: three
    or four of them, and exactly four when the base project carries the id
    and name of one hot project, as every enhanced project does, or shares
    neither with any, as the default project does. *)
Theorem related_projects_choice (base : ProjectDetail.Detail) g :
  permuting shuffle ->
  let hot := getHotProjects 5 in
  let out := fst (ProjectDetail.generateRelatedProjects shuffle base g) in
  (3 <= List.length out <= 4)%nat
  /\ NoDup (map project_id out)
  /\ Forall (fun p => In p hot /\ project_id p <> ProjectDetail.id base
                      /\ project_name p <> ProjectDetail.name base) out
  /\ ((exists p, In p hot /\ project_id p = ProjectDetail.id base
                 /\ project_name p = ProjectDetail.name base)
      \/ (forall p, In p hot -> project_id p <> ProjectDetail.id base
                                /\ project_name p <> ProjectDetail.name base) ->
      List.length out = 4%nat).
Proof.
  intros Hsh hot out. subst out.
  unfold ProjectDetail.generateRelatedProjects. cbv zeta. rewrite bind_run.
  unfold ret. cbn [fst].
  destruct (related_kept (ProjectDetail.id base) (ProjectDetail.name base)) as [K1 K4].
  fold hot in K1, K4 |- *.
  match goal with
  | |- context [shuffle Project (filter ?p hot) g] =>
      set (kept := filter p hot) in *;
      pose proof (Hsh Project kept g) as P;
      set (sh := fst (shuffle Project kept g)) in *
  end.
  clearbody sh.
  assert (K2 : NoDup (map project_id kept)).
  { apply filter_map_NoDup. subst hot.
    let v := eval vm_compute in (getHotProjects 5) in change (getHotProjects 5) with v.
    cbn [map project_id].
    repeat (constructor; [cbn [In]; intuition discriminate|]). constructor. }
  assert (K3 : Forall (fun p => In p hot /\ project_id p <> ProjectDetail.id base
                               /\ project_name p <> ProjectDetail.name base) kept).
  { apply Forall_forall. intros p Hp. subst kept. apply filter_In in Hp.
    destruct Hp as [Hin Hb]. apply andb_true_iff in Hb. destruct Hb as [Hi Hn].
    split; [exact Hin|]. split; intros E; rewrite E, String.eqb_refl in *; discriminate. }
  clearbody kept.
  assert (Hlen : List.length sh = List.length kept) by (apply Permutation_length; exact P).
  assert (Hs : slice0 4 sh = firstn 4 sh).
  { unfold slice0. cbv zeta. change (4 <? 0) with false. cbv iota.
    destruct (Z.min_spec 4 (Z.of_nat (List.length sh))) as [[_ ->]|[Hle ->]].
    - reflexivity.
    - rewrite Nat2Z.id. rewrite firstn_all. symmetry. apply firstn_all2. lia. }
  rewrite Hs, length_firstn. split; [lia|]. split; [|split].
  - assert (N : NoDup (map project_id sh)).
    { eapply Permutation_NoDup; [|exact K2]. apply Permutation_map.
      apply Permutation_sym. exact P. }
    rewrite <- (firstn_skipn 4 sh), map_app in N.
    eapply NoDup_app_remove_r. exact N.
  - assert (F := Permutation_Forall (Permutation_sym P) K3).
    rewrite <- (firstn_skipn 4 sh) in F. apply Forall_app in F. tauto.
  - intros C. specialize (K4 C). lia.
Qed.

End RelatedProjects.

Section RelatedProjectExamples.
Import JS LocalDb.

(** The related projects of the default project with the shuffle that
    keeps the order. *)
Lemma related_projects_choice_default :
  NoDup (map project_id
    (fst (ProjectDetail.generateRelatedProjects (fun A l => ret l)
            ProjectDetail.generateDefaultProject
            {| oracle := fun _ => 0%Q; calls := O |}))).
Proof.
  apply (related_projects_choice (fun A l => ret l) ProjectDetail.generateDefaultProject
           {| oracle := fun _ => 0%Q; calls := O |}
           (fun A l g => Permutation_refl l)).
Defined.

End RelatedProjectExamples.

(* ------------------------------------------------------------------ *)
(** ** The payment store: requests, errors and the payment list *)

Section PaymentStoreRequests.
Import JS PaymentStore.

(** Every action that makes a request ends with [loading] off.  When the
    request was rejected the three data fields are as before and
    [hasError] holds, with the detail sent by the server as the message
    when there is one; when it was fulfilled no error is left.  The two
    synchronous actions clear the error and leave [loading] alone. *)
Theorem request_protocol a s :
  let s' := dispatch a s in
  match requestOf a with
  | Some (Some reason) =>
      paymentMethods s' = paymentMethods s /\ payments s' = payments s
      /\ defaultPaymentMethod s' = defaultPaymentMethod s
      /\ loading s' = false /\ hasError s' = true
      /\ (truthy reason = true -> error s' = Some reason)
  | Some None => loading s' = false /\ error s' = None /\ hasError s' = false
  | None => loading s' = loading s /\ error s' = None
  end.
Proof.
  destruct a as [r | d r | i r | i r | r | r | i r | | ];
    try (destruct r as [x | reason]); cbn; auto;
    (repeat split; [destruct reason; reflexivity | intros H; destruct reason; [discriminate|reflexivity]]).
Qed.

Lemma replaceFirst_None i p l :
  replaceFirst i p l = None <-> ~ In i (map payment_id l).
Proof.
  induction l as [|q l IH]; cbn [replaceFirst map In]; [tauto|].
  destruct (String.eqb_spec (payment_id q) i) as [E|E].
  - split; [discriminate|]. intros H. exfalso. apply H. now left.
  - destruct (replaceFirst i p l) as [l'|].
    + split; [discriminate|]. intros H. exfalso.
      assert (Hn : ~ In i (map payment_id l)) by tauto.
      apply IH in Hn. discriminate.
    + split; [|reflexivity]. intros _ [H|H]; [contradiction|].
      now apply (proj1 IH).
Qed.

Lemma replaceFirst_Some i p : forall l l',
  replaceFirst i p l = Some l' ->
  In p l'
  /\ (payment_id p = i -> map payment_id l' = map payment_id l)
  /\ (forall q, In q l -> payment_id q <> i -> In q l')
  /\ (forall q, In q l' -> q = p \/ In q l).
Proof.
  induction l as [|q l IH]; intros l' H; cbn [replaceFirst] in H; [discriminate|].
  destruct (String.eqb_spec (payment_id q) i) as [E|E].
  - injection H as <-. split; [now left|]. split; [|split].
    + intros Hp. cbn [map]. now rewrite Hp, E.
    + intros x [<-|Hx] Hne; [contradiction|now right].
    + intros x [<-|Hx]; [now left|right; now right].
  - destruct (replaceFirst i p l) as [r|] eqn:Er; [|discriminate].
    injection H as <-. destruct (IH r eq_refl) as (H1 & H2 & H3 & H4).
    split; [now right|]. split; [|split].
    + intros Hp. cbn [map]. now rewrite H2.
    + intros x [<-|Hx] Hne; [now left|right; now apply H3].
    + intros x [<-|Hx]; [right; now left|].
      destruct (H4 x Hx) as [->|Hin]; [now left|right; now right].
Qed.

(** When the service returns the payment that was asked for and the ids of
    the stored payments are distinct, they stay distinct: a payment with
    that id is replaced in place, keeping the order of the ids, and
    otherwise the payment is put in front.  The payments with other ids
    stay in the list. *)
Theorem payment_details_upsert paymentId payment s :
  payment_id payment = paymentId ->
  NoDup (map payment_id (payments s)) ->
  let s' := dispatch (FetchPaymentDetails paymentId (Fulfilled payment)) s in
  NoDup (map payment_id (payments s'))
  /\ In payment (payments s')
  /\ (In paymentId (map payment_id (payments s)) ->
      map payment_id (payments s') = map payment_id (payments s))
  /\ (~ In paymentId (map payment_id (payments s)) ->
      payments s' = payment :: payments s)
  /\ (forall p, In p (payments s) -> payment_id p <> paymentId -> In p (payments s'))
  /\ paymentMethods s' = paymentMethods s
  /\ defaultPaymentMethod s' = defaultPaymentMethod s.
Proof.
  intros Hid Hnd s'. subst s'. cbn.
  destruct (replaceFirst paymentId payment (payments s)) as [l|] eqn:E.
  - destruct (replaceFirst_Some _ _ _ _ E) as (H1 & H2 & H3 & _).
    split; [now rewrite H2|]. split; [exact H1|]. split; [auto|].
    split; [|split; [exact H3|split; reflexivity]].
    intros Hn. apply (proj2 (replaceFirst_None paymentId payment (payments s))) in Hn.
    congruence.
  - pose proof (proj1 (replaceFirst_None _ _ _) E) as Hn.
    split; [cbn [map]; constructor; [now rewrite Hid|exact Hnd]|].
    split; [now left|]. split; [contradiction|]. split; [reflexivity|].
    split; [|split; reflexivity]. intros p Hp _. now right.
Qed.

(** A successful [setDefaultPaymentMethod] keeps the stored methods and
    their order and flags exactly those with the given id, so that the
    first flagged method has this id when it is stored; when it is not,
    no stored method is flagged while the reply is the default all the
    same. *)
Theorem set_default_flags paymentMethodId reply s :
  let s' := dispatch (SetDefaultPaymentMethod paymentMethodId (Fulfilled reply)) s in
  methodIds s' = methodIds s
  /\ Forall (fun m => is_default m = (id m =? paymentMethodId)%string) (paymentMethods s')
  /\ (In paymentMethodId (methodIds s) ->
      option_map id (find is_default (paymentMethods s')) = Some paymentMethodId)
  /\ (~ In paymentMethodId (methodIds s) ->
      find is_default (paymentMethods s') = None)
  /\ defaultPaymentMethod s' = Some reply.
Proof.
  cbv zeta. unfold methodIds. cbn.
  set (flag := fun method : PaymentMethod => _).
  split; [unfold flag; rewrite map_map; reflexivity|].
  split; [apply Forall_forall; intros m Hm; apply in_map_iff in Hm;
          destruct Hm as (x & <- & _); reflexivity|].
  split; [|split; [|reflexivity]].
  - induction (paymentMethods s) as [|m l IH]; intros Hin; [destruct Hin|].
    cbn [map find List.find]. unfold flag at 1. cbn [is_default].
    destruct (String.eqb_spec (id m) paymentMethodId) as [E|E].
    + cbn. now rewrite E.
    + apply IH. destruct Hin as [H|H]; [contradiction|exact H].
  - induction (paymentMethods s) as [|m l IH]; intros Hn; [reflexivity|].
    cbn [map find List.find]. unfold flag at 1. cbn [is_default].
    destruct (String.eqb_spec (id m) paymentMethodId) as [E|E].
    + exfalso. apply Hn. now left.
    + apply IH. intros H. apply Hn. now right.
Qed.

Lemma filter_twice {A} (p : A -> bool) (l : list A) :
  filter p (filter p l) = filter p l.
Proof.
  induction l as [|a l IH]; [reflexivity|].
  cbn [filter]. destruct (p a) eqn:E; [|exact IH].
  cbn [filter]. now rewrite E, IH.
Qed.

(** Deleting the same payment method a second time changes nothing. *)
Theorem delete_is_idempotent i s :
  let delete := dispatch (DeletePaymentMethod i (Fulfilled tt)) in
  delete (delete s) = delete s.
Proof.
  cbv zeta. cbn. rewrite filter_twice.
  set (kept := filter _ (paymentMethods s)).
  assert (Hk : forall m, hd_error kept = Some m -> (id m =? i)%string = false).
  { intros m Hm. assert (Hin : In m kept).
    { destruct kept as [|x r]; cbn in Hm; [discriminate|].
      injection Hm as ->. now left. }
    apply filter_In in Hin. destruct Hin as [_ Hb].
    now destruct (id m =? i)%string. }
  destruct (defaultPaymentMethod s) as [d|] eqn:Ed; [|reflexivity].
  destruct (id d =? i)%string eqn:E.
  - destruct (hd_error kept) as [m|] eqn:Eh; [|reflexivity].
    now rewrite (Hk m eq_refl).
  - now rewrite E.
Qed.

End PaymentStoreRequests.

Section PaymentStoreRequestExamples.
Import JS PaymentStore.

(** A pending payment that comes back completed replaces the stored one. *)
Lemma payment_details_upsert_completed :
  let card := {| id := "pm_1"; user_id := "u1"; type := "card"; provider := "stripe";
                 last_four := "4242"; expiry_date := Some "12/27"; brand := Some "visa";
                 is_default := true; status := "active"; created_at := "2026-01-01" |} in
  let pay := fun i st =>
    {| payment_id := i; payment_user_id := "u1"; subscription_id := None;
       amount := 29.99; currency := "USD"; payment_status := st;
       payment_method_id := "pm_1"; payment_method := card;
       transaction_id := "tx"; payment_created_at := "2026-10-01";
       updated_at := "2026-10-01" |} in
  let s := {| paymentMethods := [card];
              payments := [pay "p1" "completed"; pay "p2" "pending"];
              defaultPaymentMethod := Some card; loading := false; error := None |} in
  NoDup (map payment_id
           (payments (dispatch (FetchPaymentDetails "p2" (Fulfilled (pay "p2" "completed")))
                               s))).
Proof.
  cbv zeta.
  match goal with
  | |- NoDup (map payment_id
                (payments (dispatch (FetchPaymentDetails ?i (Fulfilled ?p)) ?s))) =>
      apply (payment_details_upsert i p s)
  end.
  - reflexivity.
  - cbn. repeat (constructor; [cbn [In]; intuition discriminate|]). constructor.
Defined.

End PaymentStoreRequestExamples.

(* ------------------------------------------------------------------ *)
(** ** The project detail view: the series of the two charts *)

Section ProjectChartData.
Import JS ProjectCharts.

Lemma last_cons {A} (a : list A) : forall y prev,
  List.last (y :: a) prev = List.last a y.
Proof.
  induction a as [|z a IH]; intros y prev; [reflexivity|].
  change (List.last (y :: z :: a) prev) with (List.last (z :: a) prev).
  now rewrite (IH z prev), (IH z y).
Qed.

Lemma smallSteps_app prev a x :
  smallSteps prev (a ++ [x])
  <-> smallSteps prev a
      /\ (List.last a prev * 0.991999999 <= x)%Q
      /\ (x <= List.last a prev * 1.012000001)%Q.
Proof.
  revert prev. induction a as [|y a IH]; intros prev.
  - cbn. tauto.
  - cbn [app smallSteps]. rewrite IH.
    rewrite (last_cons a y prev). tauto.
Qed.

Lemma priceLoop_spec today start : forall k price data g,
  let out := fst (priceLoop today k price data g) in
  map date out = map date data
                 ++ map (fun j => today - Z.of_nat k + 1 + Z.of_nat j) (seq 0 k)
  /\ (unitOracle (oracle g) ->
      (0 < price)%Q -> List.last (map value data) start == price ->
      Forall (fun p => (0 < value p)%Q) data ->
      smallSteps start (map value data) ->
      Forall (fun p => (0 < value p)%Q) out /\ smallSteps start (map value out)).
Proof.
  induction k as [|i IH]; intros price data g out; subst out.
  - cbn. rewrite app_nil_r. auto.
  - cbn [priceLoop]. rewrite bind_run. unfold random. cbn [fst snd oracle calls].
    match goal with
    | |- context [priceLoop today i ?a ?b ?c] => destruct (IH a b c) as [Hd Hp]
    end.
    split.
    + rewrite Hd, map_app, <- app_assoc. f_equal.
      cbn [map date app seq]. rewrite setDate_back. f_equal; [lia|].
      rewrite <- seq_shift, map_map. apply map_ext. intros j. lia.
    + intros Hg Hpos Hlast Hall Hsteps. destruct (Hg (calls g)) as [U0 U1].
      set (u := oracle g (calls g)) in *. clearbody u.
      assert (Hnew : (price * 0.991999999 <= price + (u * 2 - 0.8) * price * 0.01)%Q
                     /\ (price + (u * 2 - 0.8) * price * 0.01 <= price * 1.012000001)%Q)
        by (split; nra).
      destruct Hnew as [N0 N1].
      apply Hp; [exact Hg|nra| | |].
      * rewrite map_app. cbn [map value]. rewrite last_last. reflexivity.
      * apply Forall_app. split; [exact Hall|]. constructor; [|constructor].
        cbn [value]. nra.
      * rewrite map_app. cbn [map value]. apply smallSteps_app.
        split; [exact Hsteps|]. rewrite Hlast. split; assumption.
Qed.

Lemma volumeLoop_spec today : forall k base data g,
  let out := fst (volumeLoop today k base data g) in
  let ok := fun p => (base * 0.5 <= value p)%Q /\ (value p <= base * 1.500000001)%Q in
  map date out = map date data
                 ++ map (fun j => today - Z.of_nat k + 1 + Z.of_nat j) (seq 0 k)
  /\ (unitOracle (oracle g) -> (0 <= base)%Q -> Forall ok data -> Forall ok out).
Proof.
  induction k as [|i IH]; intros base data g out ok; subst out.
  - cbn. rewrite app_nil_r. auto.
  - cbn [volumeLoop]. rewrite bind_run. unfold random. cbn [fst snd oracle calls].
    match goal with
    | |- context [volumeLoop today i ?a ?b ?c] => destruct (IH a b c) as [Hd Hp]
    end.
    split.
    + rewrite Hd, map_app, <- app_assoc. f_equal.
      cbn [map date app seq]. rewrite setDate_back. f_equal; [lia|].
      rewrite <- seq_shift, map_map. apply map_ext. intros j. lia.
    + intros Hg Hb Hall. destruct (Hg (calls g)) as [U0 U1].
      apply Hp; [exact Hg|exact Hb|]. apply Forall_app. split; [exact Hall|].
      constructor; [|constructor]. subst ok. cbn [value]. split; nra.
Qed.

(** With [Math.random] in [0, 1) and a project whose price is from 1 to
    1001 and whose day volume is from 1 to 10^10 (as those of every
    generated project are), the price chart gets 7, 90 or (for any other
    range) 30 points, dated with the consecutive days that end today;
    every price is positive and within -0.8 and +1.2 percent of the one
    before it, the first one of the price of the project.  The volume chart
    gets points on the same days, each between half and one and a half
    times the day volume of the project.  The percentages are met up to the
    rounding of the floating-point arithmetic, for which a margin of one
    part in 10^9 is left.  Without a project, or before the elements are
    mounted, nothing is generated and no random number is drawn. *)
Theorem project_chart_series today v p g :
  unitOracle (oracle g) ->
  ProjectDetail.project v = Some p ->
  (1 <= ProjectDetail.price (ProjectDetail.marketData p))%Q ->
  (ProjectDetail.price (ProjectDetail.marketData p) <= 1001)%Q ->
  (1 <= ProjectDetail.volume24h (ProjectDetail.marketData p))%Q ->
  (ProjectDetail.volume24h (ProjectDetail.marketData p) <= 10000000000)%Q ->
  let n := Z.to_nat (daysOf (ProjectDetail.timeRange v)) in
  let m := ProjectDetail.marketData p in
  (In n [7; 30; 90]%nat)
  /\ (exists prices,
        fst (priceData today true v g) = Some prices
        /\ map date prices = lastDays today n
        /\ Forall (fun q => (0 < value q)%Q) prices
        /\ smallSteps (ProjectDetail.price m) (map value prices))
  /\ (exists volumes,
        fst (volumeData today true v g) = Some volumes
        /\ map date volumes = lastDays today n
        /\ Forall (fun q => (ProjectDetail.volume24h m * 0.5 <= value q)%Q
                            /\ (value q <= ProjectDetail.volume24h m * 1.500000001)%Q)
                  volumes)
  /\ priceData today false v g = (None, g)
  /\ volumeData today false v g = (None, g).
Proof.
  intros Hg Hp Hprice _ Hvol _ n m. subst m.
  split; [|split; [|split; [|split; reflexivity]]].
  - subst n. unfold daysOf.
    destruct (_ =? "7d")%string; [cbn; auto|].
    destruct (_ =? "90d")%string; cbn; auto.
  - unfold priceData. rewrite Hp, bind_run. unfold ret. cbn [fst]. fold n.
    eexists. split; [reflexivity|].
    destruct (priceLoop_spec today (ProjectDetail.price (ProjectDetail.marketData p)) n
                (ProjectDetail.price (ProjectDetail.marketData p)) [] g) as [Hd Hq].
    split; [exact Hd|]. apply Hq; auto; try constructor; try reflexivity. lra.
  - unfold volumeData. rewrite Hp, bind_run. unfold ret. cbn [fst]. fold n.
    eexists. split; [reflexivity|].
    destruct (volumeLoop_spec today n
                (ProjectDetail.volume24h (ProjectDetail.marketData p)) [] g) as [Hd Hq].
    split; [exact Hd|]. apply Hq; auto. lra.
Qed.

(** The default project over a week, with the cycling oracle. *)
Lemma project_chart_series_default :
  exists prices,
    fst (priceData 20760 true
           {| ProjectDetail.isLoading := false; ProjectDetail.error := "";
              ProjectDetail.project := Some ProjectDetail.generateDefaultProject;
              ProjectDetail.relatedProjects := []; ProjectDetail.timeRange := "7d" |}
           {| oracle := fun n => (Z.of_nat (n mod 10) # 10)%Q; calls := O |})
    = Some prices
    /\ map date prices = lastDays 20760 7.
Proof.
  destruct (project_chart_series 20760
              {| ProjectDetail.isLoading := false; ProjectDetail.error := "";
                 ProjectDetail.project := Some ProjectDetail.generateDefaultProject;
                 ProjectDetail.relatedProjects := []; ProjectDetail.timeRange := "7d" |}
              ProjectDetail.generateDefaultProject
              {| oracle := fun n => (Z.of_nat (n mod 10) # 10)%Q; calls := O |}
              tenths_unit eq_refl)
    as (_ & (prices & H1 & H2 & _) & _).
  - discriminate.
  - discriminate.
  - discriminate.
  - discriminate.
  - exists prices. split; [exact H1|exact H2].
Defined.

End ProjectChartData.

(* ------------------------------------------------------------------ *)
(** ** The plans view: mounting and confirming *)

Section PlansViewFlow.
Import JS PlansView.

(** Mounting the plans view.  When the plans cannot be fetched the payment
    methods are never asked for: the payment store and the selection stay
    as they were and the subscription store has an error.  When both
    requests succeed the selected payment method is the first one flagged
    as default in the reply, and the selection is kept when none is
    flagged or when the second request fails. *)
Theorem plans_mount_outcomes plans methods reason v :
  let ko := onMounted (Rejected reason) (Fulfilled methods) v in
  let ok := onMounted (Fulfilled plans) (Fulfilled methods) v in
  let half := onMounted (Fulfilled plans) (Rejected reason) v in
  (paymentStore ko = paymentStore v
   /\ selectedPaymentMethodId ko = selectedPaymentMethodId v
   /\ SubscriptionStore.hasError (subscriptionStore ko) = true
   /\ SubscriptionStore.plans (subscriptionStore ko)
      = SubscriptionStore.plans (subscriptionStore v))
  /\ (SubscriptionStore.plans (subscriptionStore ok) = plans
      /\ PaymentStore.paymentMethods (paymentStore ok) = methods
      /\ selectedPaymentMethodId ok
         = match find PaymentStore.is_default methods with
           | Some d => PaymentStore.id d
           | None => selectedPaymentMethodId v
           end
      /\ SubscriptionStore.loading (subscriptionStore ok) = false
      /\ PaymentStore.loading (paymentStore ok) = false)
  /\ (SubscriptionStore.plans (subscriptionStore half) = plans
      /\ selectedPaymentMethodId half = selectedPaymentMethodId v
      /\ PaymentStore.paymentMethods (paymentStore half)
         = PaymentStore.paymentMethods (paymentStore v)
      /\ hasError (paymentStore half) = true)
  /\ selectedPlan ko = selectedPlan v /\ selectedPlan ok = selectedPlan v
  /\ pushed ko = pushed v /\ pushed ok = pushed v.
Proof.
  cbv zeta. unfold onMounted. cbn.
  repeat split; destruct reason; reflexivity.
Qed.

(** Confirming a subscription.  Without a selected plan, or with an empty
    payment method id, nothing happens, whatever the service would answer.
    Otherwise the service receives the id of the plan, the selected payment
    method and the renewal flag; when it fulfils, the new subscription is
    appended to the stored ones, becomes the current one and the router
    goes to the page of the subscription; when it rejects, the view stays
    where it is, the stored subscriptions are unchanged and the store has
    an error. *)
Theorem confirm_subscription_outcomes service v :
  let v' := confirmSubscription service v in
  (selectedPlan v = None \/ selectedPaymentMethodId v = "" -> v' = v)
  /\ (forall plan, selectedPlan v = Some plan -> selectedPaymentMethodId v <> "" ->
      let data :=
        {| SubscriptionStore.data_plan_id := SubscriptionStore.plan_id plan;
           SubscriptionStore.data_payment_method_id := Some (selectedPaymentMethodId v);
           SubscriptionStore.data_auto_renew := Some (autoRenew v) |} in
      match service data with
      | Fulfilled created =>
          pushed v' = Some "/subscription/my"
          /\ SubscriptionStore.subscriptions (subscriptionStore v')
             = SubscriptionStore.subscriptions (subscriptionStore v) ++ [created]
          /\ SubscriptionStore.currentSubscription (subscriptionStore v') = Some created
          /\ SubscriptionStore.error (subscriptionStore v') = None
      | Rejected _ =>
          pushed v' = pushed v
          /\ SubscriptionStore.subscriptions (subscriptionStore v')
             = SubscriptionStore.subscriptions (subscriptionStore v)
          /\ SubscriptionStore.currentSubscription (subscriptionStore v')
             = SubscriptionStore.currentSubscription (subscriptionStore v)
          /\ SubscriptionStore.hasError (subscriptionStore v') = true
      end)
  /\ paymentStore v' = paymentStore v.
Proof.
  cbv zeta. unfold confirmSubscription. split; [|split].
  - intros [H | H]; rewrite H; [reflexivity|].
    destruct (selectedPlan v); reflexivity.
  - intros plan Hp Hm. rewrite Hp.
    destruct (selectedPaymentMethodId v) as [|c r]; [contradiction|].
    cbn [truthy negb].
    destruct (service _) as [created | reason]; cbn.
    + repeat split.
    + repeat split. destruct reason; reflexivity.
  - destruct (selectedPlan v) as [plan|]; [|reflexivity].
    destruct (selectedPaymentMethodId v) as [|c r]; [reflexivity|].
    cbn [truthy negb]. destruct (service _); reflexivity.
Qed.

End PlansViewFlow.

(* ------------------------------------------------------------------ *)
(** ** The API service: limits of the list routes *)

Section ApiLimits.
Import JS LocalDb ApiService.

Lemma slice0_of_five {A} (l : list A) n :
  List.length l = 5%nat -> n <> 0 ->
  let k := if n <? 0 then Z.max (5 + n) 0 else Z.min n 5 in
  slice0 n l = firstn (Z.to_nat k) l
  /\ Z.of_nat (List.length (slice0 n l)) = k.
Proof.
  intros E Hn k. subst k. unfold slice0. rewrite E. change (Z.of_nat 5) with 5.
  split; [reflexivity|]. rewrite length_firstn, E.
  destruct (Z.ltb_spec n 0); lia.
Qed.

(** The two list routes return a prefix of their table of five: all five
    entries when no limit is given and also when the limit is zero (which
    the service itself would answer with an empty list), the first
    [min(limit, 5)] for a positive limit, and all but the last [-limit] for
    a negative one.  The reply is empty only for a limit of -5 or less. *)
Theorem api_limit_routes now limit :
  let signals := getHistorySignals now limit in
  let projects := getHotProjectsRoute limit in
  Z.of_nat (List.length signals) = routeCount limit
  /\ Z.of_nat (List.length projects) = routeCount limit
  /\ signals = firstn (Z.to_nat (routeCount limit)) (getRecentSignals now 5)
  /\ projects = firstn (Z.to_nat (routeCount limit)) (getHotProjects 5)
  /\ (signals = [] <-> exists n, limit = Some n /\ n <= -5)
  /\ getRecentSignals now 0 = [] /\ getHistorySignals now (Some 0) = getRecentSignals now 5.
Proof.
  cbv zeta.
  assert (H : Z.of_nat (List.length (getHistorySignals now limit)) = routeCount limit
              /\ Z.of_nat (List.length (getHotProjectsRoute limit)) = routeCount limit
              /\ getHistorySignals now limit
                 = firstn (Z.to_nat (routeCount limit)) (getRecentSignals now 5)
              /\ getHotProjectsRoute limit
                 = firstn (Z.to_nat (routeCount limit)) (getHotProjects 5)).
  { unfold getHistorySignals, getHotProjectsRoute, limitOr, routeCount.
    destruct limit as [n|]; [destruct (Z.eqb_spec n 0) as [E|E]|].
    - repeat split; reflexivity.
    - unfold getRecentSignals, getHotProjects.
      repeat match goal with
      | |- context [slice0 n ?l] =>
          lazymatch goal with
          | _ : slice0 n l = _ |- _ => fail
          | _ => destruct (slice0_of_five l n eq_refl E)
          end
      end.
      repeat split; assumption.
    - repeat split; reflexivity. }
  destruct H as (H1 & H2 & H3 & H4).
  split; [exact H1|]. split; [exact H2|]. split; [exact H3|]. split; [exact H4|].
  split; [|split; reflexivity].
  split.
  - intros E. rewrite E in H1. cbn in H1. unfold routeCount in H1.
    destruct limit as [n|]; [|discriminate].
    exists n. split; [reflexivity|].
    destruct (Z.eqb_spec n 0); [discriminate|]. destruct (Z.ltb_spec n 0); lia.
  - intros (n & -> & Hn).
    assert (E : routeCount (Some n) = 0).
    { unfold routeCount. destruct (Z.eqb_spec n 0); [lia|].
      destruct (Z.ltb_spec n 0); lia. }
    rewrite E in H1. destruct (getHistorySignals now (Some n)); [reflexivity|].
    cbn in H1. lia.
Qed.

End ApiLimits.

(* ------------------------------------------------------------------ *)
(** ** The list filters: typing more, filtering again, letter case *)

Section SearchNarrowing.
Import JS LocalDb SolanaViews.

Lemma prefix_app_l q e : forall s,
  String.prefix (q ++ e)%string s = true -> String.prefix q s = true.
Proof.
  induction q as [|c q IH]; intros s H; [apply prefix_empty|].
  destruct s as [|d s]; cbn in H |- *; [discriminate|].
  destruct (ascii_dec c d); [now apply IH|discriminate].
Qed.

Lemma includes_app_l q e : forall s,
  includes s (q ++ e)%string = true -> includes s q = true.
Proof.
  induction s as [|d s IH]; intros H.
  - cbn [includes] in H |- *.
    destruct (String.prefix (q ++ e)%string "") eqn:E; [|discriminate].
    now rewrite (prefix_app_l _ _ _ E).
  - cbn [includes] in H |- *.
    destruct (String.prefix (q ++ e)%string (String d s)) eqn:E.
    + now rewrite (prefix_app_l _ _ _ E).
    + destruct (String.prefix q (String d s)); [reflexivity|now apply IH].
Qed.

Lemma toLowerCase_app a b :
  toLowerCase (a ++ b)%string = (toLowerCase a ++ toLowerCase b)%string.
Proof. induction a as [|c a IH]; cbn; [reflexivity|now rewrite IH]. Qed.

Lemma matches_longer {A} (name category : A -> string) q e cat item :
  matches name category (q ++ e)%string cat item = true ->
  matches name category q cat item = true.
Proof.
  unfold matches. cbv zeta. rewrite toLowerCase_app. intros H.
  apply andb_true_iff in H. destruct H as [H1 H2].
  now rewrite (includes_app_l _ _ _ H1), H2.
Qed.

Lemma filter_narrow {A} (p q : A -> bool) (l : list A) :
  (forall x, q x = true -> p x = true) ->
  List.filter q (List.filter p l) = List.filter q l.
Proof.
  intros H. induction l as [|x l IH]; [reflexivity|].
  cbn [List.filter]. destruct (p x) eqn:Ep.
  - cbn [List.filter]. now rewrite IH.
  - destruct (q x) eqn:Eq; [|exact IH]. rewrite (H x Eq) in Ep. discriminate.
Qed.

(** In the NFT and DeFi lists, for search terms and names in ASCII: typing
    more characters after the search term only removes rows, the new
    result being what the same filter selects from the result shown
    before, in the same order.  Filtering a result again with the fields
    that produced it changes nothing, and two search terms that differ
    only in the case of their letters give the same result. *)
Theorem search_narrows_results r q e q' cat (nfts : Store NftCollection)
    (defi : Store DefiProtocol) :
  asciiOnly q = true -> asciiOnly e = true -> asciiOnly q' = true ->
  Forall (fun c => asciiOnly (nft_name c) = true) (deref nfts r) ->
  Forall (fun c => asciiOnly (defi_name c) = true) (deref defi r) ->
  let shown {A} (out : ref * Store A) := deref (snd out) (fst out) in
  let nft1 := filteredCollections r q cat nfts in
  let nft2 := filteredCollections r (q ++ e)%string cat nfts in
  let defi1 := filteredProtocols r q cat defi in
  let defi2 := filteredProtocols r (q ++ e)%string cat defi in
  (shown nft2
   = List.filter (matches nft_name nft_category (q ++ e)%string cat) (shown nft1)
   /\ subseq (shown nft2) (shown nft1)
   /\ shown (filteredCollections (fst nft1) q cat (snd nft1)) = shown nft1
   /\ (toLowerCase q' = toLowerCase q ->
       shown (filteredCollections r q' cat nfts) = shown nft1))
  /\ (shown defi2
      = List.filter (matches defi_name defi_category (q ++ e)%string cat) (shown defi1)
      /\ subseq (shown defi2) (shown defi1)
      /\ shown (filteredProtocols (fst defi1) q cat (snd defi1)) = shown defi1
      /\ (toLowerCase q' = toLowerCase q ->
          shown (filteredProtocols r q' cat defi) = shown defi1)).
Proof.
  intros _ _ _ _ _. cbv zeta. unfold filteredCollections, filteredProtocols.
  rewrite !filterArr_content.
  split; (split; [|split; [|split]]).
  - symmetry. apply filter_narrow. intros x. apply matches_longer.
  - rewrite <- (filter_narrow (matches nft_name nft_category q cat)
                  (matches nft_name nft_category (q ++ e)%string cat))
      by (intros x; apply matches_longer).
    apply filter_subseq.
  - apply filter_narrow. auto.
  - intros E. unfold matches. cbv zeta. now rewrite E.
  - symmetry. apply filter_narrow. intros x. apply matches_longer.
  - rewrite <- (filter_narrow (matches defi_name defi_category q cat)
                  (matches defi_name defi_category (q ++ e)%string cat))
      by (intros x; apply matches_longer).
    apply filter_subseq.
  - apply filter_narrow. auto.
  - intros E. unfold matches. cbv zeta. now rewrite E.
Qed.

(** The protocols of the service: "so" keeps two rows and "sol" one of
    them. *)
Lemma search_narrows_results_protocols :
  subseq (deref (snd (filteredProtocols O "sol" "" [getDefiProtocols]))
                (fst (filteredProtocols O "sol" "" [getDefiProtocols])))
         (deref (snd (filteredProtocols O "so" "" [getDefiProtocols]))
                (fst (filteredProtocols O "so" "" [getDefiProtocols]))).
Proof.
  apply (search_narrows_results O "so" "l" "SO" "" [[]] [getDefiProtocols]).
  - reflexivity.
  - reflexivity.
  - reflexivity.
  - constructor.
  - vm_compute. repeat constructor.
Defined.

End SearchNarrowing.
